(** * EVS automation: a shallow embedding of [evs_automation.py] and [evs_util.py]

    The controller drives a running Earth Volumetric Studio instance over a
    named pipe.  Python objects received from or sent to the remote are
    [pyval]s, exceptions are [exn]s, and every function of [_EvsProcess] is a
    computation in a state-and-exception monad over the fields of the one
    [_EvsProcess] object of a session and the trace of operating-system calls
    made so far.  The operating system, the remote application and the
    [json] codec are a record [OS] of oracles. *)

From Stdlib Require Import ZArith List String Ascii Bool Lia Floats.
From Stdlib Require Import Strings.Byte.
From Stdlib Require Import DecimalString.
From Stdlib Require Uint63.
Import ListNotations.

Set Warnings "-register-all".

Open Scope string_scope.
Open Scope list_scope.
Open Scope Z_scope.

(** ** Python values and exceptions *)

(** The objects [json.loads] produces and [json.dumps] accepts; [*args]
    arrives as a tuple. *)
Inductive pyval : Type :=
| PNone
| PBool (b : bool)
| PInt (n : Z)
| PFloat (x : float)
| PStr (s : string)
| PList (items : list pyval)
| PTuple (items : list pyval)
| PDict (items : list (string * pyval)).

(** [bool(v)], the test of an [if v:] statement. *)
Definition truthy (v : pyval) : bool :=
  match v with
  | PNone => false
  | PBool b => b
  | PInt n => negb (n =? 0)
  | PFloat x => negb (PrimFloat.eqb x 0%float)
  | PStr s => negb (String.eqb s "")
  | PList l | PTuple l => match l with [] => false | _ => true end
  | PDict d => match d with [] => false | _ => true end
  end.

(** [v == 0]: numbers compare by value ([False == 0] holds), anything else
    differs from [0]. *)
Definition py_eq_0 (v : pyval) : bool :=
  match v with
  | PBool b => negb b
  | PInt n => n =? 0
  | PFloat x => PrimFloat.eqb x 0%float
  | _ => false
  end.

(** [v != 1.0]: numbers compare by value ([True] and [1] equal [1.0]). *)
Definition py_ne_1_0 (v : pyval) : bool :=
  match v with
  | PBool b => negb b
  | PInt n => negb (n =? 1)
  | PFloat x => negb (PrimFloat.eqb x 1.0%float)
  | _ => true
  end.

(** A [str] as the sequence of its Unicode code points, where the characters
    of a string matter one by one. *)
Definition str : Type := list N.

(** The [ValueError]s that [datetime.strptime] raises, by what the message of
    each says: the data do not match the format (the message names both),
    data remain after the match (it names them), the year is out of range
    (it names the year), the day is out of range for the month, the second
    is not in 0..59.  The text itself is not modelled. *)
Inductive strptime_failure : Type :=
| does_not_match (data : str) (format : string)
| unconverted_data (rest : str)
| year_out_of_range (y : Z)
| day_out_of_range
| second_out_of_range.

Inductive exn : Type :=
| ValueError (arg : pyval)
| ValueError_strptime (failure : strptime_failure)
| CanceledByUser (arg : pyval)
| KeyError (key : string)
| TypeError
| pywintypes_error (winerror : Z)
| JSONDecodeError
| UnicodeDecodeError
| PyException (cls : string) (arg : pyval).

(** [d[key]] on a parsed response: the first binding of [key] in a dict,
    [KeyError] when there is none, [TypeError] on a value with no string
    subscript. *)
Fixpoint lookup_key (key : string) (items : list (string * pyval)) : option pyval :=
  match items with
  | [] => None
  | (k, v) :: rest => if String.eqb k key then Some v else lookup_key key rest
  end.

Definition subscript (v : pyval) (key : string) : pyval + exn :=
  match v with
  | PDict items =>
      match lookup_key key items with
      | Some x => inl x
      | None => inr (KeyError key)
      end
  | _ => inr TypeError
  end.

(** ** The operating system and the remote application *)

Definition Handle := Z.

(** One entry per call that leaves the process. *)
Inductive Event : Type :=
| EvCreateFile (pipeName : string)
| EvSleep (seconds : Z)
| EvSetNamedPipeHandleState (h : option Handle)
| EvWriteFile (h : option Handle) (payload : list byte)
| EvReadFile (h : option Handle) (bufferSize : Z)
| EvCloseHandle (h : Handle)
| EvPopen (args : list string).

(** A row of the process table, as [psutil] shows it. *)
Record Process : Type := {
  proc_pid : Z;
  proc_name : string
}.

(** What each external call answers, given everything that happened before
    it.  [inr e] is the call raising [e].  [ReadFile] answers the pair
    [(hr, data)]; [process_iter] is the process table in enumeration order;
    [find_evs_executable_path] is the outcome of the registry lookup. *)
Record OS : Type := {
  CreateFile : list Event -> string -> Handle + exn;
  SetNamedPipeHandleState : list Event -> Handle -> pyval + exn;
  WriteFile : list Event -> Handle -> list byte -> unit + exn;
  ReadFile : list Event -> Handle -> Z -> (Z * list byte) + exn;
  Popen : list Event -> list string -> Z + exn;
  process_iter : list Process;
  find_evs_executable_path : string + exn;
  json_dumps : pyval -> string;
  json_loads : string -> pyval + exn;
  utf8_encode : string -> list byte;
  utf8_decode : list byte -> string + exn
}.

(** A call on the null handle ([None]) is refused by the system. *)
Definition ERROR_INVALID_HANDLE : Z := 6.

Definition on_handle {A} (h : option Handle) (call : Handle -> A + exn) : A + exn :=
  match h with
  | Some hd => call hd
  | None => inr (pywintypes_error ERROR_INVALID_HANDLE)
  end.

(** ** The monad *)

(** The fields of the session's [_EvsProcess] object and the trace. *)
Record World : Type := {
  self_handle : option Handle;
  self_pid : option Z;
  trace : list Event
}.

Inductive outcome (A : Type) : Type :=
| Ok (a : A)
| Raise (e : exn)
| OutOfFuel.
Arguments Ok {A} a.
Arguments Raise {A} e.
Arguments OutOfFuel {A}.

Definition M (A : Type) : Type := World -> outcome A * World.

Definition ret {A} (a : A) : M A := fun w => (Ok a, w).

Definition bind {A B} (m : M A) (k : A -> M B) : M B :=
  fun w =>
    match m w with
    | (Ok a, w') => k a w'
    | (Raise e, w') => (Raise e, w')
    | (OutOfFuel, w') => (OutOfFuel, w')
    end.

Definition raise {A} (e : exn) : M A := fun w => (Raise e, w).

Definition out_of_fuel {A} : M A := fun w => (OutOfFuel, w).

(** [try: body / except: handler e / else: orelse a].  The handler sees every
    exception of [body]; nothing catches what [handler] or [orelse] raise. *)
Definition try_except_else {A B} (body : M A) (handler : exn -> M B) (orelse : A -> M B) : M B :=
  fun w =>
    match body w with
    | (Ok a, w') => orelse a w'
    | (Raise e, w') => handler e w'
    | (OutOfFuel, w') => (OutOfFuel, w')
    end.

Definition try_except {A} (body : M A) (handler : exn -> M A) : M A :=
  try_except_else body handler ret.

Declare Scope py_scope.
Delimit Scope py_scope with py.
Notation "x <- m ;; k" := (bind m (fun x => k))
  (at level 61, m at next level, right associativity) : py_scope.
Notation "m ;; k" := (bind m (fun _ => k))
  (at level 61, right associativity) : py_scope.
Open Scope py_scope.

Definition log (e : Event) : M unit :=
  fun w => (Ok tt, {| self_handle := self_handle w; self_pid := self_pid w;
                      trace := trace w ++ [e] |}).

Definition get_handle : M (option Handle) := fun w => (Ok (self_handle w), w).

Definition set_handle (h : option Handle) : M unit :=
  fun w => (Ok tt, {| self_handle := h; self_pid := self_pid w; trace := trace w |}).

Definition set_pid (p : option Z) : M unit :=
  fun w => (Ok tt, {| self_handle := self_handle w; self_pid := p; trace := trace w |}).

Definition lift {A} (r : A + exn) : M A :=
  match r with
  | inl a => ret a
  | inr e => raise e
  end.

(** An external call: the oracle answers from the trace before the call, and
    the call is appended to the trace whatever the answer. *)
Definition extern {A} (e : Event) (answer : list Event -> A + exn) : M A :=
  fun w => bind (log e) (fun _ => lift (answer (trace w))) w.

Definition sleep (seconds : Z) : M unit := log (EvSleep seconds).

(** ** Process resolution: [_set_or_find_pid] ([evs_automation.py], lines 32-46) *)

Definition EVS_EXE : string := "EarthVolumetricStudio.exe".

(** The [for proc in psutil.process_iter()] loop: [process] is overwritten at
    every match, so the last one enumerated stays. *)
Fixpoint scan_processes (procs : list Process) (process : option Process) : option Process :=
  match procs with
  | [] => process
  | proc :: rest =>
      scan_processes rest
        (if String.eqb (proc_name proc) EVS_EXE then Some proc else process)
  end.

(** [psutil.Process(pid)]: the row of a live process, an exception when no
    live process has that pid. *)
Definition psutil_Process (procs : list Process) (pid : Z) : Process + exn :=
  match find (fun p => proc_pid p =? pid) procs with
  | Some p => inl p
  | None => inr (PyException "NoSuchProcess" (PInt pid))
  end.

Definition MSG_NOT_FOUND : string :=
  "EVS Process not found. Please specify Process ID or guarantee that EVS is already running.".
Definition MSG_INVALID_PID : string :=
  "Invalid Process ID specified. EVS Process not found.".

Definition _set_or_find_pid (procs : list Process) (pid : Z) : Z + exn :=
  if pid =? -1 then
    match scan_processes procs None with
    | None => inr (ValueError (PStr MSG_NOT_FOUND))
    | Some process => inl (proc_pid process)
    end
  else
    match psutil_Process procs pid with
    | inr _ => inr (ValueError (PStr MSG_INVALID_PID))
    | inl process => inl (proc_pid process)
    end.

(** ** The class [_EvsProcess] ([evs_automation.py], lines 87-511) *)

Definition _bufferSize : Z := 8192 * 8.

Definition MSG_REFUSED : string :=
  "Invalid Process ID specified. EVS Process not found or connection refused.".
Definition MSG_API_VERSION : string :=
  "EVS does not support proper API version for this release.".
Definition MSG_CANCELED : string := "Script canceled by user.".

(** [f'\\\\.\\pipe\\EVS_{pid}'] *)
Definition pipe_name (pid : Z) : string :=
  ("\\.\pipe\EVS_" ++ NilZero.string_of_int (Z.to_int pid))%string.

(** What the caller's [with] block does with the session object: it ends,
    raises, closes the connection, or calls one of the remote methods (each
    is one [__build_result]) and goes on from the value or the exception it
    gets. *)
Inductive Scope : Type :=
| SReturn
| SRaise (e : exn)
| SCall (method : string) (args : list pyval) (k : pyval + exn -> Scope)
| SClose (k : bool -> Scope).

Section EvsProcess.

Variable os : OS.

Definition win32file_CreateFile (pipeName : string) : M Handle :=
  extern (EvCreateFile pipeName) (fun tr => CreateFile os tr pipeName).

Definition win32pipe_SetNamedPipeHandleState (h : option Handle) : M pyval :=
  extern (EvSetNamedPipeHandleState h)
    (fun tr => on_handle h (SetNamedPipeHandleState os tr)).

Definition win32file_WriteFile (h : option Handle) (payload : list byte) : M unit :=
  extern (EvWriteFile h payload)
    (fun tr => on_handle h (fun hd => WriteFile os tr hd payload)).

Definition win32file_ReadFile (h : option Handle) (bufferSize : Z) : M (Z * list byte) :=
  extern (EvReadFile h bufferSize)
    (fun tr => on_handle h (fun hd => ReadFile os tr hd bufferSize)).

Definition subprocess_Popen (args : list string) : M Z :=
  extern (EvPopen args) (fun tr => Popen os tr args).

(** The first [while] of [__init__] (lines 93-110).  [attempts_remaining] is
    tested at the top of every round and passed on as it is: the [except]
    branch sleeps and does nothing else.  [fuel] bounds the rounds a run of
    the model may take. *)
Fixpoint connect_loop (fuel : nat) (attempts_remaining : Z) (pipeName : string) : M unit :=
  match fuel with
  | O => out_of_fuel
  | S fuel' =>
      if attempts_remaining >? 0 then
        try_except
          (h <- win32file_CreateFile pipeName ;; set_handle (Some h))
          (fun _ => sleep 1 ;; connect_loop fuel' attempts_remaining pipeName)
      else ret tt
  end.

(** The second [while] of [__init__] (lines 112-121); the value is
    [success]. *)
Fixpoint ready_loop (fuel : nat) (attempts_remaining : Z) : M bool :=
  match fuel with
  | O => out_of_fuel
  | S fuel' =>
      if attempts_remaining >? 0 then
        h <- get_handle ;;
        res <- win32pipe_SetNamedPipeHandleState h ;;
        if py_eq_0 res then
          sleep 1 ;; ready_loop fuel' (attempts_remaining - 1)
        else ret true
      else ret false
  end.

(** [__init__] (lines 89-124). *)
Definition _EvsProcess__init__ (fuel : nat) (pid timeout : Z) : M unit :=
  set_handle None ;;
  set_pid (Some pid) ;;
  connect_loop fuel 5 (pipe_name pid) ;;
  success <- ready_loop fuel timeout ;;
  if negb success then raise (ValueError (PStr MSG_REFUSED)) else ret tt.

(** [__write], [__read], [__send_json], [__recv_json], [__request] and
    [__build_result] (lines 126-151). *)
Definition _EvsProcess__write (msg : string) : M unit :=
  h <- get_handle ;;
  win32file_WriteFile h (utf8_encode os (msg ++ String "010"%char "")%string).

Definition _EvsProcess__read : M string :=
  h <- get_handle ;;
  r <- win32file_ReadFile h _bufferSize ;;
  lift (utf8_decode os (snd r)).

Definition _EvsProcess__send_json (pyobj : pyval) : M unit :=
  _EvsProcess__write (json_dumps os pyobj).

Definition _EvsProcess__recv_json : M pyval :=
  msg <- _EvsProcess__read ;;
  lift (json_loads os msg).

Definition request_object (method : string) (args : list pyval) : pyval :=
  PDict [("method", PStr method); ("args", PTuple args)].

(** The bytes [__write] hands to [WriteFile] for one request. *)
Definition request_frame (method : string) (args : list pyval) : list byte :=
  utf8_encode os (json_dumps os (request_object method args) ++ String "010"%char "")%string.

Definition _EvsProcess__request (method : string) (args : list pyval) : M pyval :=
  _EvsProcess__send_json (request_object method args) ;;
  _EvsProcess__recv_json.

Definition _EvsProcess__build_result (method : string) (args : list pyval) : M pyval :=
  res <- _EvsProcess__request method args ;;
  success <- lift (subscript res "Success") ;;
  if truthy success then lift (subscript res "Value")
  else
    err <- lift (subscript res "Error") ;;
    raise (ValueError err).

Definition get_api_version : M pyval := _EvsProcess__build_result "Version" [].
Definition wait_for_ready : M pyval := _EvsProcess__build_result "WaitForReady" [].
Definition shutdown : M pyval := _EvsProcess__build_result "Shutdown" [].
Definition get_modules : M pyval := _EvsProcess__build_result "GetModules" [].

(** [close] (lines 177-189): the handle's own [close()] is the system call;
    it is taken to succeed. *)
Definition close : M bool :=
  h <- get_handle ;;
  match h with
  | None => ret false
  | Some hd =>
      log (EvCloseHandle hd) ;;
      set_handle None ;;
      set_pid None ;;
      ret true
  end.

(** [check_cancel] (lines 445-451). *)
Definition check_cancel : M unit :=
  canceled <- _EvsProcess__build_result "CheckCancel" [] ;;
  if truthy canceled then raise (CanceledByUser (PStr MSG_CANCELED)) else ret tt.

(** The caller's block, run on the session object. *)
Fixpoint run_scope (s : Scope) : M unit :=
  match s with
  | SReturn => ret tt
  | SRaise e => raise e
  | SCall method args k =>
      fun w =>
        match _EvsProcess__build_result method args w with
        | (Ok v, w') => run_scope (k (inl v)) w'
        | (Raise e, w') => run_scope (k (inr e)) w'
        | (OutOfFuel, w') => (OutOfFuel, w')
        end
  | SClose k => b <- close ;; run_scope (k b)
  end.

(** The statements under [try:] in both flows (lines 534-539 and 565-570,
    the same text); [body] runs at the [yield]. *)
Definition session_body (auto_wait_for_ready : bool) (body : Scope) : M unit :=
  version <- get_api_version ;;
  (if py_ne_1_0 version then raise (ValueError (PStr MSG_API_VERSION)) else ret tt) ;;
  (if auto_wait_for_ready then (wait_for_ready ;; ret tt) else ret tt) ;;
  run_scope body.

(** The whole [try ... except ... else] that ends both flows (lines 533-546
    and 564-577). *)
Definition guarded_session (auto_shutdown auto_wait_for_ready : bool) (body : Scope) : M unit :=
  try_except_else
    (session_body auto_wait_for_ready body)
    (fun e => close ;; raise e)
    (fun _ =>
       (if auto_shutdown then (shutdown ;; ret tt) else ret tt) ;;
       close ;;
       ret tt).

(** [start_new] up to the [try] (lines 527-532): find the executable, launch
    it, let it settle for a second, open the connection. *)
Definition start_new_open (fuel : nat) (timeout : Z) (start_minimized : bool) : M unit :=
  exe <- lift (find_evs_executable_path os) ;;
  let args := if start_minimized then [exe; "-n"; "-w"; "-m"] else [exe; "-n"; "-w"] in
  _pid <- subprocess_Popen args ;;
  sleep 1 ;;
  _EvsProcess__init__ fuel _pid timeout.

Definition start_new (fuel : nat) (auto_shutdown : bool) (timeout : Z)
    (auto_wait_for_ready start_minimized : bool) (body : Scope) : M unit :=
  start_new_open fuel timeout start_minimized ;;
  guarded_session auto_shutdown auto_wait_for_ready body.

(** [connect_to_existing] up to the [try] (lines 561-563). *)
Definition connect_to_existing_open (fuel : nat) (pid timeout : Z) : M unit :=
  _pid <- lift (_set_or_find_pid (process_iter os) pid) ;;
  _EvsProcess__init__ fuel _pid timeout.

Definition connect_to_existing (fuel : nat) (pid : Z) (auto_shutdown : bool) (timeout : Z)
    (auto_wait_for_ready : bool) (body : Scope) : M unit :=
  connect_to_existing_open fuel pid timeout ;;
  guarded_session auto_shutdown auto_wait_for_ready body.

End EvsProcess.

(** * [evs_util.py]: scripting dates *)

(** ** Text *)

(** The [str] of an ASCII literal. *)
Definition str_of (s : string) : str := map N_of_ascii (list_ascii_of_string s).

Fixpoint str_eqb (a b : str) : bool :=
  match a, b with
  | [], [] => true
  | x :: a', y :: b' => N.eqb x y && str_eqb a' b'
  | _, _ => false
  end.

(** ** [datetime.datetime] values

    [tzinfo] is [None] on a naive value and a fixed offset from UTC, in
    minutes, on an aware one.  The attribute [fold] is left out: it is not
    printed, [strptime] does not set it, and [==] between naive values does
    not look at it. *)
Record datetime : Type := {
  year : Z;
  month : Z;
  day : Z;
  hour : Z;
  minute : Z;
  second : Z;
  microsecond : Z;
  tzinfo : option Z
}.

Definition is_leap (y : Z) : bool :=
  ((y mod 4 =? 0) && negb (y mod 100 =? 0)) || (y mod 400 =? 0).

Definition days_in_month (y m : Z) : Z :=
  if m =? 2 then (if is_leap y then 29 else 28)
  else if (m =? 4) || (m =? 6) || (m =? 9) || (m =? 11) then 30
  else 31.

Definition in_range (lo hi v : Z) : bool := (lo <=? v) && (v <=? hi).

(** The check of the [datetime] constructor: every value that exists
    satisfies it. *)
Definition valid_fields (Y m d H M S f : Z) : bool :=
  in_range 1 9999 Y && in_range 1 12 m && in_range 1 (days_in_month Y m) d &&
  in_range 0 23 H && in_range 0 59 M && in_range 0 59 S && in_range 0 999999 f.

Definition valid_datetime (t : datetime) : bool :=
  valid_fields (year t) (month t) (day t) (hour t) (minute t) (second t) (microsecond t).

Definition days_before_year (y : Z) : Z :=
  (y - 1) * 365 + (y - 1) / 4 - (y - 1) / 100 + (y - 1) / 400.

Fixpoint days_before_month_from (y : Z) (m : nat) : Z :=
  match m with
  | O => 0
  | S m' => days_before_month_from y m' + days_in_month y (Z.of_nat m)
  end.

Definition toordinal (t : datetime) : Z :=
  days_before_year (year t) + days_before_month_from (year t) (Z.to_nat (month t - 1)) + day t.

(** Microseconds since the start of year 1, UTC, of a value read at offset
    [off] minutes. *)
Definition utc_instant (t : datetime) (off : Z) : Z :=
  ((((toordinal t * 24 + hour t) * 60 + minute t - off) * 60) + second t) * 1000000
  + microsecond t.

Definition same_fields (a b : datetime) : bool :=
  (year a =? year b) && (month a =? month b) && (day a =? day b) &&
  (hour a =? hour b) && (minute a =? minute b) && (second a =? second b) &&
  (microsecond a =? microsecond b).

(** [a == b] on datetimes: field by field between naive values, by instant
    between aware ones, and never equal between a naive and an aware one. *)
Definition datetime_eq (a b : datetime) : bool :=
  match tzinfo a, tzinfo b with
  | None, None => same_fields a b
  | Some oa, Some ob => utc_instant a oa =? utc_instant b ob
  | _, _ => false
  end.

(** ** The two formats of the module *)

(** The directives the module uses. *)
Inductive directive : Type :=
| dir_Y | dir_m | dir_d | dir_H | dir_M | dir_S | dir_f.

(** An item of a format: a literal character, which is not white space, or
    a directive. *)
Inductive fmt_item : Type :=
| Lit (c : ascii)
| Dir (d : directive).

Definition directive_of (c : ascii) : option directive :=
  match c with
  | "Y"%char => Some dir_Y
  | "m"%char => Some dir_m
  | "d"%char => Some dir_d
  | "H"%char => Some dir_H
  | "M"%char => Some dir_M
  | "S"%char => Some dir_S
  | "f"%char => Some dir_f
  | _ => None
  end.

Fixpoint parse_format (fmt : string) : option (list fmt_item) :=
  match fmt with
  | EmptyString => Some []
  | String "%" EmptyString => None
  | String "%" (String c rest) =>
      match directive_of c, parse_format rest with
      | Some d, Some items => Some (Dir d :: items)
      | _, _ => None
      end
  | String c rest => option_map (cons (Lit c)) (parse_format rest)
  end.

(** [strftime] and [strptime] are modelled on the two formats the module
    passes to them, and on no other. *)
Inductive evs_format : Type :=
| FORMAT_FRACTION
| FORMAT_SECONDS.

Definition format_text (f : evs_format) : string :=
  match f with
  | FORMAT_FRACTION => "%Y-%m-%dT%H:%M:%S.%f"
  | FORMAT_SECONDS => "%Y-%m-%dT%H:%M:%S"
  end.

Definition format_items (f : evs_format) : list fmt_item :=
  match parse_format (format_text f) with
  | Some items => items
  | None => []
  end.

(** ** Digits *)

(** The character of a digit [0 <= k <= 9]. *)
Definition digit_char (k : Z) : N := Z.to_N (48 + k).

(** The code points with the Unicode property Decimal (Unicode 14.0, the
    version of CPython 3.11): each entry is the zero of a script and is
    followed by its digits one to nine.  These are the characters [\d]
    matches and [int] converts. *)
Definition DECIMAL_ZEROS : list N :=
  [48; 1632; 1776; 1984; 2406; 2534; 2662; 2790; 2918; 3046; 3174; 3302; 3430; 3558;
   3664; 3792; 3872; 4160; 4240; 6112; 6160; 6470; 6608; 6784; 6800; 6992; 7088; 7232;
   7248; 42528; 43216; 43264; 43472; 43504; 43600; 44016; 65296; 66720; 68912; 69734;
   69872; 69942; 70096; 70384; 70736; 70864; 71248; 71360; 71472; 71904; 72016; 72784;
   73040; 73120; 92768; 92864; 93008; 120782; 120792; 120802; 120812; 120822; 123200;
   123632; 125264; 130032]%N.

Definition decimal_value (c : N) : option Z :=
  option_map (fun zero => Z.of_N (c - zero))
    (find (fun zero => (N.leb zero c && N.ltb c (zero + 10))%N) DECIMAL_ZEROS).

(** [n] in decimal, zero-padded to [width] digits, in front of [acc]. *)
Fixpoint zero_padded (width : nat) (n : Z) (acc : str) : str :=
  match width with
  | O => acc
  | S w => zero_padded w (n / 10) (digit_char (n mod 10) :: acc)
  end.

(** [n] in decimal, with no padding. *)
Definition decimal (n : Z) : str := str_of (NilZero.string_of_int (Z.to_int n)).

(** ** [strftime] *)

(** What one item prints.  [%m], [%d], [%H], [%M] and [%S] are two digits
    and [%f] is six, zero-padded.  [%Y] is left to the C library: glibc,
    which is followed here, prints the year as a plain decimal number
    ([999]); a C library that pads the year to four digits prints the same
    from the year 1000 on. *)
Definition render (t : datetime) (i : fmt_item) : str :=
  match i with
  | Lit c => [N_of_ascii c]
  | Dir dir_Y => decimal (year t)
  | Dir dir_m => zero_padded 2 (month t) []
  | Dir dir_d => zero_padded 2 (day t) []
  | Dir dir_H => zero_padded 2 (hour t) []
  | Dir dir_M => zero_padded 2 (minute t) []
  | Dir dir_S => zero_padded 2 (second t) []
  | Dir dir_f => zero_padded 6 (microsecond t) []
  end.

Definition strftime (t : datetime) (f : evs_format) : str :=
  List.concat (map (render t) (format_items f)).

(** ** [strptime]

    After CPython's [_strptime]: the format becomes a regular expression, one
    group per directive, matched case-insensitively at the start of the data
    with the alternatives of each group tried in the order written; the
    first match must cover the whole data, and the fields it binds must make
    a date. *)

(** One character of an alternative: a class [[lo-hi]] of ASCII digits (a
    single digit when [lo = hi]), [\d], or a blank. *)
Inductive char_class : Type :=
| digit_range (lo hi : Z)
| any_digit
| blank.

(** Whether [c] is in the class, and the digit it stands for if any. *)
Definition class_value (cl : char_class) (c : N) : option (option Z) :=
  match cl with
  | digit_range lo hi =>
      let k := Z.of_N c - 48 in
      if in_range lo hi k then Some (Some k) else None
  | any_digit => option_map Some (decimal_value c)
  | blank => if N.eqb c 32 then Some None else None
  end.

(** One alternative at the start of [s]: the number its characters read as
    ([int] skips the blank) and what is left of [s]. *)
Fixpoint match_classes (cls : list char_class) (s : str) (acc : Z) : option (Z * str) :=
  match cls with
  | [] => Some (acc, s)
  | cl :: cls' =>
      match s with
      | [] => None
      | c :: s' =>
          match class_value cl c with
          | Some (Some k) => match_classes cls' s' (10 * acc + k)
          | Some None => match_classes cls' s' acc
          | None => None
          end
      end
  end.

(** The alternatives of the group of a directive, as [_strptime] lists them:
    [%d] is [3[0-1]|[1-2]\d|0[1-9]|[1-9]| [1-9]], [%H] is
    [2[0-3]|[0-1]\d|\d], [%m] is [1[0-2]|0[1-9]|[1-9]], [%M] is
    [[0-5]\d|\d], [%S] is [6[0-1]|[0-5]\d|\d] and [%Y] is [\d\d\d\d]. *)
Definition directive_alternatives (d : directive) : list (list char_class) :=
  match d with
  | dir_d => [[digit_range 3 3; digit_range 0 1]; [digit_range 1 2; any_digit];
              [digit_range 0 0; digit_range 1 9]; [digit_range 1 9];
              [blank; digit_range 1 9]]
  | dir_H => [[digit_range 2 2; digit_range 0 3]; [digit_range 0 1; any_digit]; [any_digit]]
  | dir_m => [[digit_range 1 1; digit_range 0 2]; [digit_range 0 0; digit_range 1 9];
              [digit_range 1 9]]
  | dir_M => [[digit_range 0 5; any_digit]; [any_digit]]
  | dir_S => [[digit_range 6 6; digit_range 0 1]; [digit_range 0 5; any_digit]; [any_digit]]
  | dir_Y => [[any_digit; any_digit; any_digit; any_digit]]
  | dir_f => []
  end.

(** [[0-9]{1,n}], the longest run first; the value is that of the digits
    padded with zeros on the right to six. *)
Fixpoint fraction_digits (n : nat) (scale acc : Z) (s : str) : list (Z * str) :=
  match n with
  | O => []
  | S n' =>
      match s with
      | c :: rest =>
          match class_value (digit_range 0 9) c with
          | Some (Some k) =>
              fraction_digits n' (scale / 10) (acc + k * scale) rest
                ++ [(acc + k * scale, rest)]
          | _ => []
          end
      | [] => []
      end
  end.

(** The matches of one directive's group at the start of [s], in the order
    the regular expression finds them. *)
Definition directive_matches (d : directive) (s : str) : list (Z * str) :=
  match d with
  | dir_f => fraction_digits 6 100000 0 s
  | _ =>
      flat_map (fun alternative =>
                  match match_classes alternative s 0 with
                  | Some r => [r]
                  | None => []
                  end)
               (directive_alternatives d)
  end.

(** The other case of an ASCII letter. *)
Definition swapcase (c : N) : N :=
  if (N.leb 65 c && N.leb c 90)%N then (c + 32)%N
  else if (N.leb 97 c && N.leb c 122)%N then (c - 32)%N
  else c.

(** The characters outside ASCII that match an ASCII letter when case is
    ignored: the dotted capital and the dotless small i, the Kelvin sign and
    the long s. *)
Definition case_extras (c : N) : list N :=
  (if N.eqb c 73 || N.eqb c 105 then [304; 305]
   else if N.eqb c 75 || N.eqb c 107 then [8490]
   else if N.eqb c 83 || N.eqb c 115 then [383]
   else [])%N.

(** A literal character of the format against a character of the data,
    ignoring case. *)
Definition lit_matches (c : ascii) (a : N) : bool :=
  let n := N_of_ascii c in
  N.eqb a n || N.eqb a (swapcase n) || existsb (N.eqb a) (case_extras n).

(** The groups of a match; the defaults are those of [_strptime]. *)
Record parsed : Type := {
  p_Y : Z; p_m : Z; p_d : Z; p_H : Z; p_M : Z; p_S : Z; p_f : Z
}.

Definition parsed_default : parsed :=
  {| p_Y := 1900; p_m := 1; p_d := 1; p_H := 0; p_M := 0; p_S := 0; p_f := 0 |}.

Definition set_group (d : directive) (v : Z) (p : parsed) : parsed :=
  match d with
  | dir_Y => {| p_Y := v; p_m := p_m p; p_d := p_d p; p_H := p_H p; p_M := p_M p; p_S := p_S p; p_f := p_f p |}
  | dir_m => {| p_Y := p_Y p; p_m := v; p_d := p_d p; p_H := p_H p; p_M := p_M p; p_S := p_S p; p_f := p_f p |}
  | dir_d => {| p_Y := p_Y p; p_m := p_m p; p_d := v; p_H := p_H p; p_M := p_M p; p_S := p_S p; p_f := p_f p |}
  | dir_H => {| p_Y := p_Y p; p_m := p_m p; p_d := p_d p; p_H := v; p_M := p_M p; p_S := p_S p; p_f := p_f p |}
  | dir_M => {| p_Y := p_Y p; p_m := p_m p; p_d := p_d p; p_H := p_H p; p_M := v; p_S := p_S p; p_f := p_f p |}
  | dir_S => {| p_Y := p_Y p; p_m := p_m p; p_d := p_d p; p_H := p_H p; p_M := p_M p; p_S := v; p_f := p_f p |}
  | dir_f => {| p_Y := p_Y p; p_m := p_m p; p_d := p_d p; p_H := p_H p; p_M := p_M p; p_S := p_S p; p_f := v |}
  end.

(** Every way the expression matches a prefix of [s], the one the matcher
    returns first. *)
Fixpoint regex_match (items : list fmt_item) (s : str) (p : parsed) : list (parsed * str) :=
  match items with
  | [] => [(p, s)]
  | Lit c :: items' =>
      match s with
      | a :: s' => if lit_matches c a then regex_match items' s' p else []
      | [] => []
      end
  | Dir d :: items' =>
      flat_map (fun vs => regex_match items' (snd vs) (set_group d (fst vs) p))
               (directive_matches d s)
  end.

(** [datetime.strptime(data, format)].  The groups bound the month, the hour,
    the minute and the fraction; the year 0, a day the month does not have
    and the seconds 60 and 61 pass the expression and are refused by the
    constructors of [date] and of [datetime], in this order. *)
Definition strptime (data : str) (f : evs_format) : datetime + exn :=
  match regex_match (format_items f) data parsed_default with
  | [] => inr (ValueError_strptime (does_not_match data (format_text f)))
  | (p, rest) :: _ =>
      match rest with
      | _ :: _ => inr (ValueError_strptime (unconverted_data rest))
      | [] =>
          if negb (in_range 1 9999 (p_Y p))
          then inr (ValueError_strptime (year_out_of_range (p_Y p)))
          else if negb (in_range 1 (days_in_month (p_Y p) (p_m p)) (p_d p))
          then inr (ValueError_strptime day_out_of_range)
          else if negb (in_range 0 59 (p_S p))
          then inr (ValueError_strptime second_out_of_range)
          else
            inl {| year := p_Y p; month := p_m p; day := p_d p; hour := p_H p;
                   minute := p_M p; second := p_S p; microsecond := p_f p;
                   tzinfo := None |}
      end
  end.

(** ** The two helpers of [evs_util] ([evs_util.py], lines 4-12) *)

Definition evsdate_to_datetime (s : str) : datetime + exn :=
  match strptime s FORMAT_FRACTION with
  | inl t => inl t
  | inr _ => strptime s FORMAT_SECONDS
  end.

Definition datetime_to_evsdate (d : datetime) : str :=
  strftime d FORMAT_FRACTION.

(** * More of [evs_automation.py] *)

(** ** [get_module_position] (lines 368-378) *)

(** [v.name] on a value [json.loads] has built.  The classes of such values
    (dict, list, str, int, float, bool, NoneType) define no attribute called
    [X] or [Y], the two names the facade reads; no other name is read. *)
Definition json_getattr (v : pyval) (name : string) : pyval + exn :=
  inr (PyException "AttributeError" (PStr name)).

Section Facade.

Variable os : OS.

(** The builtin [int], applied to the two coordinates. *)
Variable py_int : pyval -> pyval + exn.

Definition get_module_position (module : pyval) : M pyval :=
  result <- _EvsProcess__build_result os "GetModulePosition" [module] ;;
  x <- lift (json_getattr result "X") ;;
  ix <- lift (py_int x) ;;
  y <- lift (json_getattr result "Y") ;;
  iy <- lift (py_int y) ;;
  ret (PTuple [ix; iy]).

End Facade.

(** * More of [evs_util.py]: Excel date numbers *)

(** ** Differences of datetimes *)

(** A [datetime.timedelta], normalised: [0 <= seconds < 86400] and
    [0 <= microseconds < 1000000]. *)
Record timedelta : Type := {
  days : Z;
  seconds : Z;
  microseconds : Z
}.

Definition timedelta_of_microseconds (us : Z) : timedelta :=
  {| days := us / 86400000000;
     seconds := us mod 86400000000 / 1000000;
     microseconds := us mod 1000000 |}.

(** [a - b]: the difference of the instants between two naive or two aware
    values; a naive and an aware value cannot be subtracted. *)
Definition datetime_sub (a b : datetime) : timedelta + exn :=
  match tzinfo a, tzinfo b with
  | None, None => inl (timedelta_of_microseconds (utc_instant a 0 - utc_instant b 0))
  | Some oa, Some ob => inl (timedelta_of_microseconds (utc_instant a oa - utc_instant b ob))
  | _, _ => inr TypeError
  end.

(** [float(n)] on an integer; exact below [2^53], which the days and the
    seconds of a difference of datetimes are. *)
Definition float_of_Z (z : Z) : float :=
  if z <? 0 then PrimFloat.opp (PrimFloat.of_uint63 (Uint63.of_Z (- z)))
  else PrimFloat.of_uint63 (Uint63.of_Z z).

(** ** [datetime_to_excel] and [evsdate_to_excel] ([evs_util.py], lines 15-23) *)

Definition excel_epoch : datetime :=
  {| year := 1899; month := 12; day := 30; hour := 0; minute := 0; second := 0;
     microsecond := 0; tzinfo := None |}.

Definition datetime_to_excel (d : datetime) : float + exn :=
  let temp := excel_epoch in
  match datetime_sub d temp with
  | inl delta =>
      inl (PrimFloat.add (float_of_Z (days delta))
             (PrimFloat.div (float_of_Z (seconds delta)) (float_of_Z 86400)))
  | inr e => inr e
  end.

Definition evsdate_to_excel (d : str) : float + exn :=
  match evsdate_to_datetime d with
  | inl date => datetime_to_excel date
  | inr e => inr e
  end.

(** * The installation lookup ([evs_automation.py], lines 48-83) *)

Definition EVS_KEY_PREFIX : string := "Earth Volumetric Studio ".
Definition MSG_NOT_INSTALLED : string := "EVS Installation Not Found".

(** [s.startswith(p)] *)
Definition startswith (s p : string) : bool := String.prefix p s.

(** What is left of [s] after the prefix [p], when it has it. *)
Fixpoint strip_prefix (p s : string) : option string :=
  match p, s with
  | EmptyString, _ => Some s
  | String a p', String b s' => if Ascii.eqb a b then strip_prefix p' s' else None
  | String _ _, EmptyString => None
  end.

Fixpoint replace_from (fuel : nat) (old new s : string) : string :=
  match fuel with
  | O => s
  | S fuel' =>
      match strip_prefix old s with
      | Some rest => (new ++ replace_from fuel' old new rest)%string
      | None =>
          match s with
          | EmptyString => EmptyString
          | String a s' => String a (replace_from fuel' old new s')
          end
      end
  end.

(** [s.replace(old, new)] for a non-empty [old]: every occurrence, from the
    left, without overlap.  What remains to scan shrinks at every step, so
    the length of [s] is fuel enough. *)
Definition py_replace (s old new : string) : string :=
  replace_from (S (String.length s)) old new s.

(** A subkey of the vendor's registry key: its name, and what reading its
    [Path] value gives. *)
Record Subkey : Type := {
  skey_name : string;
  skey_path : string + exn
}.

(** The vendor's key: its subkeys in enumeration order, and what reading a
    [Path] value on the key itself gives. *)
Record Registry : Type := {
  ct_subkeys : list Subkey;
  ct_own_path : string + exn
}.

(** [QueryValueEx(OpenKey(ct_key, name), "Path")[0]]: the empty name opens the
    key itself, another name the subkey so called. *)
Definition query_path (reg : Registry) (name : string) : string + exn :=
  if String.eqb name "" then ct_own_path reg
  else
    match find (fun k => String.eqb (skey_name k) name) (ct_subkeys reg) with
    | Some k => skey_path k
    | None => inr (PyException "FileNotFoundError" (PStr name))
    end.

(** [version == suggested], where [suggested] defaults to [None]. *)
Definition is_suggested (suggested : option string) (version : string) : bool :=
  match suggested with
  | Some s => String.eqb version s
  | None => false
  end.

Section Installation.

(** [packaging.version.Version]: the parsed versions, the parser, their
    order and their major number. *)
Variable V : Type.
Variable Version : string -> V + exn.
Variable version_gt : V -> V -> bool.
Variable major : V -> Z.

(** [os.path.join] and [os.path.exists]. *)
Variable path_join : string -> string -> string.
Variable path_exists : string -> bool.

(** The [for] loop of [_find_evs_version_path]: [inl] when the loop returns
    or raises, [inr] with [max_version] and [max_version_key_name] when it
    runs to its end.  The name [Version] alone is not bound in the module
    (only [packaging.version] is imported), so the branch of the suggested
    version raises [NameError] at its first statement. *)
Fixpoint version_loop (reg : Registry) (suggested : option string) (prefer_development : bool)
    (keys : list Subkey) (max_version : V) (max_version_key_name : string)
    : (string + exn) + (V * string) :=
  match keys with
  | [] => inr (max_version, max_version_key_name)
  | k :: rest =>
      if startswith (skey_name k) EVS_KEY_PREFIX then
        let version := py_replace (skey_name k) EVS_KEY_PREFIX "" in
        if String.eqb version "Development" then
          if prefer_development then inl (query_path reg (skey_name k))
          else version_loop reg suggested prefer_development rest
                 max_version max_version_key_name
        else
          match Version version with
          | inr e => inl (inr e)
          | inl v =>
              if is_suggested suggested version
              then inl (inr (PyException "NameError" (PStr "Version")))
              else if version_gt v max_version
              then version_loop reg suggested prefer_development rest v (skey_name k)
              else version_loop reg suggested prefer_development rest
                     max_version max_version_key_name
          end
      else version_loop reg suggested prefer_development rest
             max_version max_version_key_name
  end.

(** [ct_key] is what opening the vendor's key gives. *)
Definition _find_evs_version_path (ct_key : Registry + exn) (suggested : option string)
    (prefer_development : bool) : string + exn :=
  match ct_key with
  | inr e => inr e
  | inl reg =>
      match Version "1.0.0.0" with
      | inr e => inr e
      | inl v0 =>
          match version_loop reg suggested prefer_development (ct_subkeys reg) v0 "" with
          | inl r => r
          | inr (max_version, max_version_key_name) =>
              if major max_version >? 1 then
                match query_path reg max_version_key_name with
                | inl path => inl (path_join path "bin\system")
                | inr e => inr e
                end
              else inr (ValueError (PStr MSG_NOT_INSTALLED))
          end
      end
  end.

Definition _find_evs_executable_path (ct_key : Registry + exn) (suggested : option string)
    (prefer_development : bool) : string + exn :=
  match _find_evs_version_path ct_key suggested prefer_development with
  | inr e => inr e
  | inl folder =>
      let exe := path_join folder "EarthVolumetricStudio.exe" in
      if path_exists exe then inl exe else inr (ValueError (PStr MSG_NOT_INSTALLED))
  end.

End Installation.

(** * The vocabulary of the statements *)

Definition with_trace (w : World) (tr : list Event) : World :=
  {| self_handle := self_handle w; self_pid := self_pid w; trace := tr |}.

Definition is_create (e : Event) : bool :=
  match e with EvCreateFile _ => true | _ => false end.
Definition is_set_mode (e : Event) : bool :=
  match e with EvSetNamedPipeHandleState _ => true | _ => false end.
Definition is_read (e : Event) : bool :=
  match e with EvReadFile _ _ => true | _ => false end.
Definition is_close (e : Event) : bool :=
  match e with EvCloseHandle _ => true | _ => false end.

Definition count (p : Event -> bool) (tr : list Event) : nat := List.length (filter p tr).

(** [n] rounds of a call followed by a sleep of one second. *)
Definition rounds (call : Event) (n : nat) : list Event :=
  List.concat (repeat [call; EvSleep 1] n).

(** The handle is open and nothing closed it, or it is absent and exactly
    one [CloseHandle] was made: what holds of a channel from the moment the
    constructor has returned. *)
Definition channel_inv (w : World) : Prop :=
  match self_handle w with
  | Some _ => count is_close (trace w) = 0%nat
  | None => count is_close (trace w) = 1%nat
  end.

Definition closed_once (w : World) : Prop :=
  self_handle w = None /\ count is_close (trace w) = 1%nat.

Section Vocabulary.

Variable os : OS.

(** The world after a request: the object is untouched, the trace grows. *)
Definition after_write (method : string) (args : list pyval) (w : World) : World :=
  with_trace w (trace w ++ [EvWriteFile (self_handle w) (request_frame os method args)]).

Definition after_read (method : string) (args : list pyval) (w : World) : World :=
  with_trace w (trace w ++ [EvWriteFile (self_handle w) (request_frame os method args);
                            EvReadFile (self_handle w) _bufferSize]).

(** What the response frame becomes: decoded, then parsed. *)
Definition decode_response (r : Z * list byte) : pyval + exn :=
  match utf8_decode os (snd r) with
  | inl msg => json_loads os msg
  | inr e => inr e
  end.

Definition outcome_of {A} (r : A + exn) : outcome A :=
  match r with
  | inl a => Ok a
  | inr e => Raise e
  end.

End Vocabulary.

(** A response as the remote is to send it: [Success] is a boolean, and
    [payload] is what [Value] holds when it is true and what [Error] holds
    when it is false. *)
Definition well_formed_response (res : pyval) (success : bool) (payload : pyval) : Prop :=
  subscript res "Success" = inl (PBool success) /\
  subscript res (if success then "Value" else "Error") = inl payload.

(** ** The second loop of the constructor *)

(** pywin32's [SetNamedPipeHandleState] returns [None] when the system call
    succeeds and raises [pywintypes.error] when it fails; it returns nothing
    else, and in particular never 0. *)
Definition pywin32_contract (os : OS) : Prop :=
  forall tr h v, SetNamedPipeHandleState os tr h = inl v -> v = PNone.

(** What attempt [k] (counted from 0) of the second loop is answered, when
    the [k] attempts before it were each followed by the sleep. *)
Definition mode_answer (os : OS) (w : World) (k : nat) : pyval + exn :=
  on_handle (self_handle w)
    (SetNamedPipeHandleState os
       (trace w ++ rounds (EvSetNamedPipeHandleState (self_handle w)) k)).

(** How the constructor fails on a pipe that has opened, with the exception
    and the trace it leaves: refused outright when [timeout] is not positive,
    or by the exception of its first mode call. *)
Inductive init_fails (os : OS) (timeout : Z) (opened : list Event) (h : Handle) :
    exn -> list Event -> Prop :=
| fails_without_timeout :
    timeout <= 0 ->
    init_fails os timeout opened h (ValueError (PStr MSG_REFUSED)) opened
| fails_at_mode_call e :
    0 < timeout ->
    SetNamedPipeHandleState os opened h = inr e ->
    init_fails os timeout opened h e (opened ++ [EvSetNamedPipeHandleState (Some h)]).

(** ** Printed dates *)

Definition FRACTION_ITEMS : list fmt_item :=
  [Dir dir_Y; Lit "-"; Dir dir_m; Lit "-"; Dir dir_d; Lit "T";
   Dir dir_H; Lit ":"; Dir dir_M; Lit ":"; Dir dir_S; Lit "."; Dir dir_f]%char.

(** The same fields, read as a naive value. *)
Definition naive (t : datetime) : datetime :=
  {| year := year t; month := month t; day := day t; hour := hour t;
     minute := minute t; second := second t; microsecond := microsecond t;
     tzinfo := None |}.

Definition pad2 (n : Z) (rest : str) : str :=
  digit_char (n / 10 mod 10) :: digit_char (n mod 10) :: rest.

Definition pad4 (n : Z) (rest : str) : str :=
  pad2 (n / 10 / 10) (pad2 n rest).

Definition pad6 (n : Z) (rest : str) : str :=
  pad2 (n / 10 / 10 / 10 / 10) (pad4 n rest).

(** What a scripting date prints after the year, down to the second. *)
Definition seconds_tail (t : datetime) (rest : str) : str :=
  str_of "-" ++ pad2 (month t) (str_of "-" ++ pad2 (day t) (str_of "T" ++
    pad2 (hour t) (str_of ":" ++ pad2 (minute t) (str_of ":" ++ pad2 (second t) rest)))).

(** The same with the fraction. *)
Definition date_tail (t : datetime) : str :=
  seconds_tail t (str_of "." ++ pad6 (microsecond t) []).

Definition first_match (items : list fmt_item) (s : str) (p : parsed) : option (parsed * str) :=
  hd_error (regex_match items s p).

(** Whether the digit [k] is in a class. *)
Definition class_admits (cl : char_class) (k : Z) : bool :=
  match cl with
  | digit_range lo hi => in_range lo hi k
  | any_digit => true
  | blank => false
  end.

(** The number of digits of a year. *)
Definition year_width (y : Z) : nat :=
  if y <? 10 then 1 else if y <? 100 then 2 else if y <? 1000 then 3 else 4.

(** The year [y] printed without padding has [year_width y] digits, and with
    zeros in front it is the year on four digits. *)
Definition year_text_checked (y : nat) : bool :=
  let text := decimal (Z.of_nat y) in
  Nat.eqb (List.length text) (year_width (Z.of_nat y)) &&
  str_eqb (repeat 48%N (4 - List.length text) ++ text) (zero_padded 4 (Z.of_nat y) []).

(** ** What a computation adds to the trace *)

(** Whatever the start, the computation only appends to the trace, and what
    it appends satisfies [P]. *)
Definition appends {A} (P : list Event -> Prop) (m : M A) : Prop :=
  forall w, exists added, trace (snd (m w)) = trace w ++ added /\ P added.

(** No [CloseHandle] among the events. *)
Definition no_close (added : list Event) : Prop := count is_close added = 0%nat.

(** The same, with a property of what is added that may look at the trace
    it is added to. *)
Definition extends {A} (P : list Event -> list Event -> Prop) (m : M A) : Prop :=
  forall w, exists added, trace (snd (m w)) = trace w ++ added /\ P (trace w) added.

(** The traffic of an open session, added to the trace [tr]: a write that the
    system refused, with no read for it; a write that the system accepted,
    directly followed by one read on the same handle; or a [CloseHandle].
    Nothing else, so there is one request at a time and no read without the
    accepted write of its own request just before it. *)
Inductive synchronous (os : OS) : list Event -> list Event -> Prop :=
| sync_nil tr : synchronous os tr []
| sync_refused tr h frame e rest :
    on_handle h (fun hd => WriteFile os tr hd frame) = inr e ->
    synchronous os (tr ++ [EvWriteFile h frame]) rest ->
    synchronous os tr (EvWriteFile h frame :: rest)
| sync_exchange tr h frame u size rest :
    on_handle h (fun hd => WriteFile os tr hd frame) = inl u ->
    synchronous os (tr ++ [EvWriteFile h frame; EvReadFile h size]) rest ->
    synchronous os tr (EvWriteFile h frame :: EvReadFile h size :: rest)
| sync_close tr h rest :
    synchronous os (tr ++ [EvCloseHandle h]) rest ->
    synchronous os tr (EvCloseHandle h :: rest).

Definition is_popen (e : Event) : bool :=
  match e with EvPopen _ => true | _ => false end.

(** No process is launched among the events. *)
Definition no_launch (added : list Event) : Prop := count is_popen added = 0%nat.

(** ** The two flows, side by side *)

(** A flow and the arguments that open its connection. *)
Inductive Flow : Type :=
| FlowStartNew (fuel : nat) (timeout : Z) (start_minimized : bool)
| FlowConnectToExisting (fuel : nat) (pid timeout : Z).

Definition flow_open (os : OS) (f : Flow) : M unit :=
  match f with
  | FlowStartNew fuel timeout start_minimized => start_new_open os fuel timeout start_minimized
  | FlowConnectToExisting fuel pid timeout => connect_to_existing_open os fuel pid timeout
  end.

Definition flow_run (os : OS) (f : Flow) (auto_shutdown auto_wait_for_ready : bool)
    (body : Scope) : M unit :=
  match f with
  | FlowStartNew fuel timeout start_minimized =>
      start_new os fuel auto_shutdown timeout auto_wait_for_ready start_minimized body
  | FlowConnectToExisting fuel pid timeout =>
      connect_to_existing os fuel pid auto_shutdown timeout auto_wait_for_ready body
  end.

(** What [close] adds to the trace. *)
Definition closing (w : World) : list Event :=
  match self_handle w with
  | Some h => [EvCloseHandle h]
  | None => []
  end.

(** The command line of the child. *)
Definition launch_args (exe : string) (start_minimized : bool) : list string :=
  exe :: "-n" :: "-w" :: (if start_minimized then ["-m"] else []).

(** ** Printed dates, without the fraction *)

Definition SECONDS_ITEMS : list fmt_item :=
  [Dir dir_Y; Lit "-"; Dir dir_m; Lit "-"; Dir dir_d; Lit "T";
   Dir dir_H; Lit ":"; Dir dir_M; Lit ":"; Dir dir_S]%char.

(** The value with its microseconds dropped and no time zone. *)
Definition whole_second (t : datetime) : datetime :=
  {| year := year t; month := month t; day := day t; hour := hour t;
     minute := minute t; second := second t; microsecond := 0;
     tzinfo := None |}.

Fixpoint has_char (c : N) (s : str) : bool :=
  match s with
  | [] => false
  | a :: rest => N.eqb a c || has_char c rest
  end.

Definition is_suffix (r s : str) : Prop := exists pre, s = pre ++ r.

(** Seconds since midnight. *)
Definition second_of_day (t : datetime) : Z :=
  hour t * 3600 + minute t * 60 + second t.

(** ** Registry keys *)

(** The text after the product name in the name of a subkey. *)
Definition key_version (k : Subkey) : string := py_replace (skey_name k) EVS_KEY_PREFIX "".

Definition is_evs_key (k : Subkey) : bool := startswith (skey_name k) EVS_KEY_PREFIX.

(** A release key: of the product, not the development build, with a version
    text that parses to [v]. *)
Definition release_key {V} (Version : string -> V + exn) (k : Subkey) (v : V) : Prop :=
  is_evs_key k = true /\ String.eqb (key_version k) "Development" = false /\
  Version (key_version k) = inl v.

(** A subkey the loop goes past: it is not of the product, or it is the
    development build and that is not preferred, or it is a release key that
    is not the suggested version. *)
Definition passed_over {V} (Version : string -> V + exn) (suggested : option string)
    (prefer_development : bool) (k : Subkey) : Prop :=
  is_evs_key k = false \/
  (is_evs_key k = true /\ String.eqb (key_version k) "Development" = true /\
   prefer_development = false) \/
  (exists v, release_key Version k v /\ is_suggested suggested (key_version k) = false).

(** * A scripted environment for the examples

    The pipe opens after [create_failures] refused attempts, the [k]-th
    [SetNamedPipeHandleState] returns [mode_result k] ([None] in every
    example, as pywin32 does on success), and the [k]-th
    [ReadFile] delivers the text of the [k]-th entry of [replies], which
    [json_loads] parses to the value listed with it. *)

Definition dq : string := String "034"%char "".

Definition ERROR_FILE_NOT_FOUND : Z := 2.
Definition ERROR_BROKEN_PIPE : Z := 109.

Fixpoint join_strings (sep : string) (l : list string) : string :=
  match l with
  | [] => ""
  | [s] => s
  | s :: rest => (s ++ sep ++ join_strings sep rest)%string
  end.

(** A character [json.dumps] writes as it stands: printable ASCII other than
    the quote and the backslash. *)
Definition plain_char (c : ascii) : bool :=
  let n := N_of_ascii c in
  (N.leb 32 n && N.leb n 126 && negb (N.eqb n 34) && negb (N.eqb n 92))%N.

Fixpoint plain_text (s : string) : bool :=
  match s with
  | EmptyString => true
  | String c rest => plain_char c && plain_text rest
  end.

Fixpoint all_some {A} (l : list (option A)) : option (list A) :=
  match l with
  | [] => Some []
  | Some a :: rest => option_map (cons a) (all_some rest)
  | None :: _ => None
  end.

(** [json.dumps] with its default separators, on the values it prints
    without an escape sequence and without the digits of a float; [None] on
    every other value. *)
Fixpoint plain_dumps (v : pyval) : option string :=
  match v with
  | PNone => Some "null"
  | PBool true => Some "true"
  | PBool false => Some "false"
  | PInt n => Some (NilZero.string_of_int (Z.to_int n))
  | PFloat _ => None
  | PStr s => if plain_text s then Some (dq ++ s ++ dq)%string else None
  | PList l | PTuple l =>
      option_map (fun parts => ("[" ++ join_strings ", " parts ++ "]")%string)
        (all_some (map plain_dumps l))
  | PDict d =>
      option_map (fun parts => ("{" ++ join_strings ", " parts ++ "}")%string)
        (all_some
           (map (fun kv =>
                   if plain_text (fst kv)
                   then option_map (fun t => (dq ++ fst kv ++ dq ++ ": " ++ t)%string)
                          (plain_dumps (snd kv))
                   else None) d))
  end.

(** The codec of the scripted environment: [plain_dumps] where it is defined.
    The requests of the examples are all printed by it. *)
Definition scripted_dumps (v : pyval) : string :=
  match plain_dumps v with
  | Some text => text
  | None => ""
  end.

Fixpoint lookup_text (s : string) (table : list (string * pyval)) : pyval + exn :=
  match table with
  | [] => inr JSONDecodeError
  | (t, v) :: rest => if String.eqb t s then inl v else lookup_text s rest
  end.

Definition scripted_os (h : Handle) (create_failures : nat) (mode_result : nat -> pyval)
    (procs : list Process) (replies : list (string * pyval)) : OS :=
  {| CreateFile := fun tr _ =>
       if (count is_create tr <? create_failures)%nat
       then inr (pywintypes_error ERROR_FILE_NOT_FOUND) else inl h;
     SetNamedPipeHandleState := fun tr _ => inl (mode_result (count is_set_mode tr));
     WriteFile := fun _ _ _ => inl tt;
     ReadFile := fun tr _ _ =>
       match nth_error replies (count is_read tr) with
       | Some (text, _) => inl (0, list_byte_of_string text)
       | None => inr (pywintypes_error ERROR_BROKEN_PIPE)
       end;
     Popen := fun _ _ => inl 4242;
     process_iter := procs;
     find_evs_executable_path := inl "C:\EVS\bin\system\EarthVolumetricStudio.exe";
     json_dumps := scripted_dumps;
     json_loads := fun s => lookup_text s replies;
     utf8_encode := list_byte_of_string;
     utf8_decode := fun b => inl (string_of_list_byte b) |}.

Definition reply_ok (text : string) (value : pyval) : string * pyval :=
  (text, PDict [("Success", PBool true); ("Value", value)]).

Definition reply_error (text : string) (message : string) : string * pyval :=
  (text, PDict [("Success", PBool false); ("Error", PStr message)]).

Definition fresh_world : World :=
  {| self_handle := None; self_pid := None; trace := [] |}.

Definition open_world (h : Handle) (pid : Z) : World :=
  {| self_handle := Some h; self_pid := Some pid; trace := [] |}.

Definition sample_processes : list Process :=
  [ {| proc_pid := 4; proc_name := "System" |};
    {| proc_pid := 812; proc_name := "EarthVolumetricStudio.exe" |};
    {| proc_pid := 1300; proc_name := "explorer.exe" |};
    {| proc_pid := 2044; proc_name := "EarthVolumetricStudio.exe" |};
    {| proc_pid := 3120; proc_name := "python.exe" |} ].

Definition TEXT_MODULES : string :=
  ("{" ++ dq ++ "Success" ++ dq ++ ":true," ++ dq ++ "Value" ++ dq ++ ":["
       ++ dq ++ "A" ++ dq ++ "," ++ dq ++ "B" ++ dq ++ "]}")%string.
Definition TEXT_BAD_MODULE : string :=
  ("{" ++ dq ++ "Success" ++ dq ++ ":false," ++ dq ++ "Error" ++ dq ++ ":"
       ++ dq ++ "bad module" ++ dq ++ "}")%string.
Definition TEXT_TRUE : string :=
  ("{" ++ dq ++ "Success" ++ dq ++ ":true," ++ dq ++ "Value" ++ dq ++ ":true}")%string.
Definition TEXT_FALSE : string :=
  ("{" ++ dq ++ "Success" ++ dq ++ ":true," ++ dq ++ "Value" ++ dq ++ ":false}")%string.
Definition TEXT_ONE : string :=
  ("{" ++ dq ++ "Success" ++ dq ++ ":true," ++ dq ++ "Value" ++ dq ++ ":1.0}")%string.
Definition TEXT_TWO : string :=
  ("{" ++ dq ++ "Success" ++ dq ++ ":true," ++ dq ++ "Value" ++ dq ++ ":2.0}")%string.
Definition TEXT_NULL : string :=
  ("{" ++ dq ++ "Success" ++ dq ++ ":true," ++ dq ++ "Value" ++ dq ++ ":null}")%string.
Definition TEXT_BUSY : string :=
  ("{" ++ dq ++ "Success" ++ dq ++ ":false," ++ dq ++ "Error" ++ dq ++ ":"
       ++ dq ++ "busy" ++ dq ++ "}")%string.

(** A remote that is ready at once and sends [replies] in turn. *)
Definition ready_os (replies : list (string * pyval)) : OS :=
  scripted_os 7 0 (fun _ => PNone) sample_processes replies.

Definition modules_os : OS :=
  ready_os [reply_ok TEXT_MODULES (PList [PStr "A"; PStr "B"])].
Definition bad_module_os : OS :=
  ready_os [reply_error TEXT_BAD_MODULE "bad module"].

Definition GET_MODULES_FRAME : list byte :=
  list_byte_of_string
    ("{" ++ dq ++ "method" ++ dq ++ ": " ++ dq ++ "GetModules" ++ dq ++ ", "
         ++ dq ++ "args" ++ dq ++ ": []}" ++ String "010"%char "")%string.

Definition dead_pipe_os : OS :=
  {| CreateFile := fun _ _ => inr (pywintypes_error ERROR_FILE_NOT_FOUND);
     SetNamedPipeHandleState := fun _ _ => inl PNone;
     WriteFile := fun _ _ _ => inl tt;
     ReadFile := fun _ _ _ => inr (pywintypes_error ERROR_BROKEN_PIPE);
     Popen := fun _ _ => inl 4242;
     process_iter := sample_processes;
     find_evs_executable_path := inl "C:\EVS\bin\system\EarthVolumetricStudio.exe";
     json_dumps := scripted_dumps;
     json_loads := fun _ => inr JSONDecodeError;
     utf8_encode := list_byte_of_string;
     utf8_decode := fun b => inl (string_of_list_byte b) |}.

(** A pipe that opens at once and does not take the message read mode: the
    call fails, which pywin32 reports by raising. *)
Definition mode_refused_os : OS :=
  {| CreateFile := fun _ _ => inl 7;
     SetNamedPipeHandleState := fun _ _ => inr (pywintypes_error ERROR_BROKEN_PIPE);
     WriteFile := fun _ _ _ => inl tt;
     ReadFile := fun _ _ _ => inr (pywintypes_error ERROR_BROKEN_PIPE);
     Popen := fun _ _ => inl 4242;
     process_iter := sample_processes;
     find_evs_executable_path := inl "C:\EVS\bin\system\EarthVolumetricStudio.exe";
     json_dumps := scripted_dumps;
     json_loads := fun _ => inr JSONDecodeError;
     utf8_encode := list_byte_of_string;
     utf8_decode := fun b => inl (string_of_list_byte b) |}.

(** The remote answers the version query and the wait, then refuses the
    shutdown. *)
Definition shutdown_refused_os : OS :=
  ready_os [reply_ok TEXT_ONE (PFloat 1.0%float); reply_ok TEXT_NULL PNone;
            reply_error TEXT_BUSY "busy"].

(** The remote answers the version query and the wait, and is gone when the
    reply to the shutdown is read. *)
Definition remote_gone_os : OS :=
  ready_os [reply_ok TEXT_ONE (PFloat 1.0%float); reply_ok TEXT_NULL PNone].

(** The remote reports version [2.0]; the caller's block would list the
    modules. *)
Definition version_two_os : OS :=
  ready_os [reply_ok TEXT_TWO (PFloat 2.0%float);
            reply_ok TEXT_MODULES (PList [PStr "A"; PStr "B"])].

Definition list_modules : Scope := SCall "GetModules" [] (fun _ => SReturn).

Definition VERSION_FRAME : list byte :=
  list_byte_of_string
    ("{" ++ dq ++ "method" ++ dq ++ ": " ++ dq ++ "Version" ++ dq ++ ", "
         ++ dq ++ "args" ++ dq ++ ": []}" ++ String "010"%char "")%string.

Definition connected_2044 : World :=
  {| self_handle := Some 7; self_pid := Some 2044;
     trace := [EvCreateFile "\\.\pipe\EVS_2044"; EvSetNamedPipeHandleState (Some 7)] |}.

Definition sample_naive : datetime :=
  {| year := 2020; month := 1; day := 2; hour := 3; minute := 4; second := 5;
     microsecond := 6; tzinfo := None |}.

Definition sample_999 : datetime :=
  {| year := 999; month := 1; day := 2; hour := 3; minute := 4; second := 5;
     microsecond := 6; tzinfo := None |}.

Definition sample_utc : datetime :=
  {| year := 2020; month := 1; day := 2; hour := 3; minute := 4; second := 5;
     microsecond := 6; tzinfo := Some 0 |}.

(** The remote answers the version query and the wait, then whatever the
    caller's block asks. *)
Definition handshake_os : OS :=
  ready_os [reply_ok TEXT_ONE (PFloat 1.0%float); reply_ok TEXT_NULL PNone;
            reply_ok TEXT_MODULES (PList [PStr "A"; PStr "B"]);
            reply_ok TEXT_NULL PNone].

(** A block that lists the modules and then fails on its own. *)
Definition failing_block : Scope :=
  SCall "GetModules" [] (fun _ => SRaise (PyException "RuntimeError" (PStr "boom"))).

(** A block that closes the connection itself, twice. *)
Definition closing_block : Scope := SClose (fun _ => SClose (fun _ => SReturn)).

Definition WAIT_FRAME : list byte :=
  list_byte_of_string
    ("{" ++ dq ++ "method" ++ dq ++ ": " ++ dq ++ "WaitForReady" ++ dq ++ ", "
         ++ dq ++ "args" ++ dq ++ ": []}" ++ String "010"%char "")%string.

Definition SHUTDOWN_FRAME : list byte :=
  list_byte_of_string
    ("{" ++ dq ++ "method" ++ dq ++ ": " ++ dq ++ "Shutdown" ++ dq ++ ", "
         ++ dq ++ "args" ++ dq ++ ": []}" ++ String "010"%char "")%string.

(** A pipe that appears only at the eighth attempt and is ready at once. *)
Definition late_pipe_os : OS := scripted_os 7 7 (fun _ => PNone) sample_processes [].

Definition TEXT_POSITION : string :=
  ("{" ++ dq ++ "Success" ++ dq ++ ":true," ++ dq ++ "Value" ++ dq ++ ":{"
       ++ dq ++ "X" ++ dq ++ ":10," ++ dq ++ "Y" ++ dq ++ ":20}}")%string.

(** The remote answers a position as an object with the keys [X] and [Y]. *)
Definition position_os : OS :=
  ready_os [reply_ok TEXT_POSITION (PDict [("X", PInt 10); ("Y", PInt 20)])].

Definition TEXT_STRING_FALSE : string :=
  ("{" ++ dq ++ "Success" ++ dq ++ ":" ++ dq ++ "false" ++ dq ++ ","
       ++ dq ++ "Value" ++ dq ++ ":3}")%string.
Definition TEXT_NO_ERROR : string :=
  ("{" ++ dq ++ "Success" ++ dq ++ ":false}")%string.
Definition TEXT_ARRAY : string := "[1]".

(** Replies that stray from the protocol: [Success] is the string "false", the
    failure carries no [Error], the reply is an array. *)
Definition stray_os : OS :=
  ready_os [(TEXT_STRING_FALSE, PDict [("Success", PStr "false"); ("Value", PInt 3)]);
            (TEXT_NO_ERROR, PDict [("Success", PBool false)]);
            (TEXT_ARRAY, PList [PInt 1])].

(** [int] on the integers, enough for the examples. *)
Definition int_of_int (v : pyval) : pyval + exn :=
  match v with
  | PInt n => inl (PInt n)
  | _ => inr TypeError
  end.

Definition noon_1900 : datetime :=
  {| year := 1900; month := 1; day := 1; hour := 12; minute := 0; second := 0;
     microsecond := 250000; tzinfo := None |}.

(** Versions for the examples: a table from the version text to a number,
    ordered as numbers; the number is also the major. *)
Definition table_Version (s : string) : Z + exn :=
  if String.eqb s "1.0.0.0" then inl 1
  else if String.eqb s "2023.5.1" then inl 2023
  else if String.eqb s "2024.1.2" then inl 2024
  else inr (PyException "InvalidVersion" (PStr s)).

Definition plain_join (a b : string) : string := (a ++ "\" ++ b)%string.

Definition sample_registry : Registry :=
  {| ct_subkeys :=
       [ {| skey_name := "Common"; skey_path := inr (PyException "FileNotFoundError" PNone) |};
         {| skey_name := "Earth Volumetric Studio 2024.1.2"; skey_path := inl "C:\EVS2024" |};
         {| skey_name := "Earth Volumetric Studio 2023.5.1"; skey_path := inl "C:\EVS2023" |};
         {| skey_name := "Earth Volumetric Studio Development"; skey_path := inl "D:\dev\evs" |} ];
     ct_own_path := inr (PyException "FileNotFoundError" PNone) |}.

(** Only a release 1.0.0.0 is installed. *)
Definition old_registry : Registry :=
  {| ct_subkeys :=
       [ {| skey_name := "Common"; skey_path := inr (PyException "FileNotFoundError" PNone) |};
         {| skey_name := "Earth Volumetric Studio 1.0.0.0"; skey_path := inl "C:\EVS1" |} ];
     ct_own_path := inr (PyException "FileNotFoundError" PNone) |}.

Definition key_common : Subkey :=
  {| skey_name := "Common"; skey_path := inr (PyException "FileNotFoundError" PNone) |}.
Definition key_2024 : Subkey :=
  {| skey_name := "Earth Volumetric Studio 2024.1.2"; skey_path := inl "C:\EVS2024" |}.
Definition key_2023 : Subkey :=
  {| skey_name := "Earth Volumetric Studio 2023.5.1"; skey_path := inl "C:\EVS2023" |}.
Definition key_development : Subkey :=
  {| skey_name := "Earth Volumetric Studio Development"; skey_path := inl "D:\dev\evs" |}.
Definition key_1 : Subkey :=
  {| skey_name := "Earth Volumetric Studio 1.0.0.0"; skey_path := inl "C:\EVS1" |}.

(** * Properties *)

(** ** Closing the channel *)

Lemma close_absent (w : World) :
  self_handle w = None -> close w = (Ok false, w).
Proof.
  intros H. unfold close, bind, get_handle. rewrite H. reflexivity.
Qed.

Lemma close_open (w : World) (h : Handle) :
  self_handle w = Some h ->
  close w = (Ok true, {| self_handle := None; self_pid := None;
                         trace := trace w ++ [EvCloseHandle h] |}).
Proof.
  intros H. unfold close, bind, get_handle. rewrite H. reflexivity.
Qed.

Lemma close_clears (w : World) : self_handle (snd (close w)) = None.
Proof.
  destruct (self_handle w) as [h|] eqn:E.
  - rewrite (close_open w h E). reflexivity.
  - rewrite (close_absent w E). exact E.
Qed.

(** C6. [close] on a channel whose handle is absent (never opened, or closed
    before) returns [False] and changes nothing; the first [close] on an open
    channel closes the handle and clears handle and pid; a second [close]
    right after any [close] is such a no-op. *)
Theorem close_idempotent (w : World) :
  (self_handle w = None -> close w = (Ok false, w)) /\
  (forall h, self_handle w = Some h ->
     close w = (Ok true, {| self_handle := None; self_pid := None;
                            trace := trace w ++ [EvCloseHandle h] |})) /\
  close (snd (close w)) = (Ok false, snd (close w)).
Proof.
  split; [apply close_absent|].
  split; [intros h; apply close_open|].
  apply close_absent, close_clears.
Qed.

Lemma close_idempotent_witness :
  close fresh_world = (Ok false, fresh_world) /\
  close (open_world 7 4242)
  = (Ok true, {| self_handle := None; self_pid := None; trace := [EvCloseHandle 7] |}) /\
  close (snd (close (open_world 7 4242))) = (Ok false, snd (close (open_world 7 4242))).
Proof.
  destruct (close_idempotent fresh_world) as [H1 _].
  destruct (close_idempotent (open_world 7 4242)) as [_ [H2 H3]].
  split; [apply H1; reflexivity|].
  split; [apply (H2 7); reflexivity | exact H3].
Defined.

(** ** Process resolution *)

Lemma scan_processes_app (l1 l2 : list Process) (acc : option Process) :
  scan_processes (l1 ++ l2) acc = scan_processes l2 (scan_processes l1 acc).
Proof.
  revert acc. induction l1 as [|p l1 IH]; intros acc; simpl; [reflexivity|].
  apply IH.
Qed.

Lemma scan_processes_no_match (l : list Process) (acc : option Process) :
  (forall q, In q l -> proc_name q <> EVS_EXE) -> scan_processes l acc = acc.
Proof.
  revert acc. induction l as [|p l IH]; intros acc H; simpl; [reflexivity|].
  destruct (String.eqb_spec (proc_name p) EVS_EXE) as [E|_].
  - exfalso. apply (H p); [left; reflexivity | exact E].
  - apply IH. intros q Hq. apply H. right. exact Hq.
Qed.

Lemma scan_processes_last (before after : list Process) (p : Process) (acc : option Process) :
  proc_name p = EVS_EXE ->
  (forall q, In q after -> proc_name q <> EVS_EXE) ->
  scan_processes (before ++ p :: after) acc = Some p.
Proof.
  intros Hp Hafter. rewrite scan_processes_app. simpl.
  rewrite Hp. rewrite String.eqb_refl.
  apply scan_processes_no_match. exact Hafter.
Qed.

Lemma psutil_Process_live (procs : list Process) (pid : Z) :
  (exists p, In p procs /\ proc_pid p = pid) ->
  exists p, psutil_Process procs pid = inl p /\ proc_pid p = pid.
Proof.
  intros [p [Hin Hp]]. unfold psutil_Process.
  destruct (find (fun q => proc_pid q =? pid) procs) as [q|] eqn:F.
  - exists q. split; [reflexivity|].
    apply find_some in F. destruct F as [_ F]. apply Z.eqb_eq. exact F.
  - exfalso. apply (find_none _ _ F) in Hin. rewrite Hp, Z.eqb_refl in Hin. discriminate.
Qed.

Lemma psutil_Process_dead (procs : list Process) (pid : Z) :
  (forall p, In p procs -> proc_pid p <> pid) ->
  psutil_Process procs pid = inr (PyException "NoSuchProcess" (PInt pid)).
Proof.
  intros H. unfold psutil_Process.
  destruct (find (fun q => proc_pid q =? pid) procs) as [q|] eqn:F; [|reflexivity].
  apply find_some in F. destruct F as [Hin F]. apply Z.eqb_eq in F.
  exfalso. exact (H q Hin F).
Qed.

(** C7. With the hint [-1], the resolution returns the pid of the last
    process of the enumeration named [EarthVolumetricStudio.exe], and fails
    with the process-not-found error when no process has that name; with any
    other hint, it returns the hint when a live process has that pid and fails
    with the invalid-pid error otherwise. *)
Theorem set_or_find_pid_spec (procs : list Process) (hint : Z) :
  (hint = -1 ->
     (forall before p after,
        procs = before ++ p :: after ->
        proc_name p = EVS_EXE ->
        (forall q, In q after -> proc_name q <> EVS_EXE) ->
        _set_or_find_pid procs hint = inl (proc_pid p)) /\
     ((forall q, In q procs -> proc_name q <> EVS_EXE) ->
        _set_or_find_pid procs hint = inr (ValueError (PStr MSG_NOT_FOUND)))) /\
  (hint <> -1 ->
     ((exists p, In p procs /\ proc_pid p = hint) ->
        _set_or_find_pid procs hint = inl hint) /\
     ((forall p, In p procs -> proc_pid p <> hint) ->
        _set_or_find_pid procs hint = inr (ValueError (PStr MSG_INVALID_PID)))).
Proof.
  split.
  - intros ->. unfold _set_or_find_pid. simpl. split.
    + intros before p after -> Hp Hafter.
      rewrite (scan_processes_last before after p None Hp Hafter). reflexivity.
    + intros Hnone. rewrite (scan_processes_no_match procs None Hnone). reflexivity.
  - intros Hne. unfold _set_or_find_pid.
    destruct (Z.eqb_spec hint (-1)) as [E|_]; [contradiction|]. split.
    + intros Hlive. destruct (psutil_Process_live procs hint Hlive) as [p [-> Hp]].
      rewrite Hp. reflexivity.
    + intros Hdead. rewrite (psutil_Process_dead procs hint Hdead). reflexivity.
Qed.

Lemma set_or_find_pid_spec_witness :
  _set_or_find_pid sample_processes (-1) = inl 2044 /\
  _set_or_find_pid (firstn 1 sample_processes) (-1) = inr (ValueError (PStr MSG_NOT_FOUND)) /\
  _set_or_find_pid sample_processes 812 = inl 812 /\
  _set_or_find_pid sample_processes 999 = inr (ValueError (PStr MSG_INVALID_PID)).
Proof.
  split; [|split; [|split]].
  - destruct (set_or_find_pid_spec sample_processes (-1)) as [H _].
    destruct (H eq_refl) as [Hlast _].
    apply (Hlast (firstn 3 sample_processes)
                 {| proc_pid := 2044; proc_name := "EarthVolumetricStudio.exe" |}
                 (skipn 4 sample_processes)); [reflexivity | reflexivity |].
    simpl. intros q [<- | []]. discriminate.
  - destruct (set_or_find_pid_spec (firstn 1 sample_processes) (-1)) as [H _].
    destruct (H eq_refl) as [_ Hnone]. apply Hnone.
    simpl. intros q [<- | []]. discriminate.
  - destruct (set_or_find_pid_spec sample_processes 812) as [_ H].
    assert (Hne : 812 <> -1) by lia.
    destruct (H Hne) as [Hlive _]. apply Hlive.
    exists {| proc_pid := 812; proc_name := "EarthVolumetricStudio.exe" |}.
    split; [simpl; auto | reflexivity].
  - destruct (set_or_find_pid_spec sample_processes 999) as [_ H].
    assert (Hne : 999 <> -1) by lia.
    destruct (H Hne) as [_ Hdead]. apply Hdead.
    simpl. intros p Hp.
    repeat (destruct Hp as [<- | Hp]; [simpl; lia|]). destruct Hp.
Defined.

(** ** One request, one response *)

Section Rpc.

Variable os : OS.

Lemma request_unfold (method : string) (args : list pyval) (w : World) :
  _EvsProcess__request os method args w =
  match on_handle (self_handle w)
          (fun hd => WriteFile os (trace w) hd (request_frame os method args)) with
  | inr e => (Raise e, after_write os method args w)
  | inl _ =>
      match on_handle (self_handle w)
              (fun hd => ReadFile os (trace (after_write os method args w)) hd _bufferSize) with
      | inr e => (Raise e, after_read os method args w)
      | inl r => (outcome_of (decode_response os r), after_read os method args w)
      end
  end.
Proof.
  unfold _EvsProcess__request, _EvsProcess__send_json, _EvsProcess__write, _EvsProcess__recv_json,
    _EvsProcess__read, win32file_WriteFile, win32file_ReadFile, extern, bind, get_handle, log,
    after_read, after_write, with_trace, request_frame, decode_response.
  cbn [trace self_handle self_pid].
  destruct (on_handle (self_handle w) _) as [u|e]; cbn; [|reflexivity].
  rewrite <- app_assoc. cbn [app].
  destruct (on_handle (self_handle w) _) as [r|e]; cbn; [|reflexivity].
  destruct (utf8_decode os (snd r)) as [msg|e]; cbn; [|reflexivity].
  destruct (json_loads os msg) as [v|e]; reflexivity.
Qed.


(** ** Unwrapping the response *)

Lemma build_result_unfold (method : string) (args : list pyval) (w : World) :
  _EvsProcess__build_result os method args w =
  match _EvsProcess__request os method args w with
  | (Ok res, w') =>
      match subscript res "Success" with
      | inl success =>
          if truthy success then (outcome_of (subscript res "Value"), w')
          else match subscript res "Error" with
               | inl err => (Raise (ValueError err), w')
               | inr e => (Raise e, w')
               end
      | inr e => (Raise e, w')
      end
  | (Raise e, w') => (Raise e, w')
  | (OutOfFuel, w') => (OutOfFuel, w')
  end.
Proof.
  unfold _EvsProcess__build_result, bind at 1.
  destruct (_EvsProcess__request os method args w) as [[res|e|] w']; try reflexivity.
  unfold bind, lift. destruct (subscript res "Success") as [success|e]; cbn; [|reflexivity].
  destruct (truthy success).
  - destruct (subscript res "Value"); reflexivity.
  - destruct (subscript res "Error"); reflexivity.
Qed.

(** C3. When the request has brought back a well-formed response, the call
    returns the [Value] field as it is if [Success] is true and raises
    [ValueError] with the [Error] field as it is if [Success] is false; a
    well-formed response has no third outcome. *)
Theorem build_result_unwraps (method : string) (args : list pyval) (w w' : World)
    (res : pyval) (success : bool) (payload : pyval) :
  _EvsProcess__request os method args w = (Ok res, w') ->
  well_formed_response res success payload ->
  _EvsProcess__build_result os method args w
  = (if success then Ok payload else Raise (ValueError payload), w').
Proof.
  intros Hreq [Hs Hp]. rewrite build_result_unfold, Hreq, Hs.
  destruct success; cbn [truthy]; rewrite Hp; reflexivity.
Qed.

(** The world is that of the request: unwrapping makes no call of its own. *)
Lemma build_result_world (method : string) (args : list pyval) (w : World) :
  snd (_EvsProcess__build_result os method args w) = snd (_EvsProcess__request os method args w).
Proof.
  rewrite build_result_unfold.
  destruct (_EvsProcess__request os method args w) as [[res|e|] w']; try reflexivity.
  destruct (subscript res "Success") as [success|e]; [|reflexivity].
  destruct (truthy success); [reflexivity|].
  destruct (subscript res "Error"); reflexivity.
Qed.

(** ** The cancellation poll *)

(** C9. When the [CheckCancel] call returns a value, [check_cancel] raises
    [CanceledByUser] exactly when that value is true, and otherwise returns
    normally; either way the world is the one the call left.  When the call
    itself raises, that exception is the outcome. *)
Theorem check_cancel_spec (w : World) :
  (forall canceled w',
     _EvsProcess__build_result os "CheckCancel" [] w = (Ok canceled, w') ->
     (truthy canceled = true <->
        check_cancel os w = (Raise (CanceledByUser (PStr MSG_CANCELED)), w')) /\
     (truthy canceled = false <-> check_cancel os w = (Ok tt, w'))) /\
  (forall e w',
     _EvsProcess__build_result os "CheckCancel" [] w = (Raise e, w') ->
     check_cancel os w = (Raise e, w')).
Proof.
  unfold check_cancel, bind. split.
  - intros canceled w' ->. destruct (truthy canceled); unfold raise, ret.
    + split; split; intros H; try reflexivity; discriminate.
    + split; split; intros H; try reflexivity; discriminate.
  - intros e w' ->. reflexivity.
Qed.

End Rpc.

(** *** Examples on the scripted remote *)

Example get_modules_exchange :
  _EvsProcess__request modules_os "GetModules" [] (open_world 7 2044)
  = (Ok (PDict [("Success", PBool true); ("Value", PList [PStr "A"; PStr "B"])]),
     {| self_handle := Some 7; self_pid := Some 2044;
        trace := [EvWriteFile (Some 7) GET_MODULES_FRAME; EvReadFile (Some 7) 65536] |}).
Proof. vm_compute. reflexivity. Qed.

(** The requests of the examples are printed by [plain_dumps]. *)
Example requests_printed :
  plain_dumps (request_object "GetModules" [])
  = Some ("{" ++ dq ++ "method" ++ dq ++ ": " ++ dq ++ "GetModules" ++ dq ++ ", "
              ++ dq ++ "args" ++ dq ++ ": []}")%string /\
  plain_dumps (request_object "GetModulePosition" [PStr "kriging"])
  = Some ("{" ++ dq ++ "method" ++ dq ++ ": " ++ dq ++ "GetModulePosition" ++ dq ++ ", "
              ++ dq ++ "args" ++ dq ++ ": [" ++ dq ++ "kriging" ++ dq ++ "]}")%string /\
  plain_dumps (PFloat 1.5%float) = None.
Proof. repeat split. Qed.


Lemma build_result_unwraps_witness :
  fst (get_modules modules_os (open_world 7 2044)) = Ok (PList [PStr "A"; PStr "B"]) /\
  fst (get_modules bad_module_os (open_world 7 2044)) = Raise (ValueError (PStr "bad module")).
Proof.
  split.
  - unfold get_modules.
    rewrite (build_result_unwraps modules_os "GetModules" [] (open_world 7 2044)
               (snd (_EvsProcess__request modules_os "GetModules" [] (open_world 7 2044)))
               (PDict [("Success", PBool true); ("Value", PList [PStr "A"; PStr "B"])])
               true (PList [PStr "A"; PStr "B"])).
    + reflexivity.
    + vm_compute. reflexivity.
    + split; reflexivity.
  - unfold get_modules.
    rewrite (build_result_unwraps bad_module_os "GetModules" [] (open_world 7 2044)
               (snd (_EvsProcess__request bad_module_os "GetModules" [] (open_world 7 2044)))
               (PDict [("Success", PBool false); ("Error", PStr "bad module")])
               false (PStr "bad module")).
    + reflexivity.
    + vm_compute. reflexivity.
    + split; reflexivity.
Defined.

Lemma check_cancel_spec_witness :
  fst (check_cancel (ready_os [reply_ok TEXT_TRUE (PBool true)]) (open_world 7 2044))
  = Raise (CanceledByUser (PStr MSG_CANCELED)) /\
  fst (check_cancel (ready_os [reply_ok TEXT_FALSE (PBool false)]) (open_world 7 2044))
  = Ok tt.
Proof.
  split.
  - destruct (check_cancel_spec (ready_os [reply_ok TEXT_TRUE (PBool true)])
                (open_world 7 2044)) as [H _].
    destruct (H (PBool true)
                (snd (_EvsProcess__build_result (ready_os [reply_ok TEXT_TRUE (PBool true)])
                        "CheckCancel" [] (open_world 7 2044)))) as [[Hraise _] _].
    + vm_compute. reflexivity.
    + rewrite (Hraise eq_refl). reflexivity.
  - destruct (check_cancel_spec (ready_os [reply_ok TEXT_FALSE (PBool false)])
                (open_world 7 2044)) as [H _].
    destruct (H (PBool false)
                (snd (_EvsProcess__build_result (ready_os [reply_ok TEXT_FALSE (PBool false)])
                        "CheckCancel" [] (open_world 7 2044)))) as [_ [Hret _]].
    + vm_compute. reflexivity.
    + rewrite (Hret eq_refl). reflexivity.
Defined.

(** ** Opening the channel *)

Lemma rounds_succ (call : Event) (n : nat) :
  rounds call (S n) = [call; EvSleep 1] ++ rounds call n.
Proof. reflexivity. Qed.

Lemma count_rounds (p : Event -> bool) (call : Event) (n : nat) :
  p call = true -> p (EvSleep 1) = false -> count p (rounds call n) = n.
Proof.
  intros Hc Hs. induction n as [|n IH]; [reflexivity|].
  rewrite rounds_succ. unfold count in *. cbn [app filter]. rewrite Hc, Hs. cbn [List.length].
  rewrite IH. reflexivity.
Qed.

Lemma with_trace_same (w : World) : with_trace w (trace w) = w.
Proof. destruct w; reflexivity. Qed.

Section Opening.

Variable os : OS.

(** The first loop on a pipe that never opens: out of any number of rounds,
    every one has made its attempt and slept, and the loop is still going. *)
Lemma connect_loop_never_ends (pipeName : string) :
  (forall tr, exists e, CreateFile os tr pipeName = inr e) ->
  forall fuel w,
    connect_loop os fuel 5 pipeName w
    = (OutOfFuel, with_trace w (trace w ++ rounds (EvCreateFile pipeName) fuel)).
Proof.
  intros Hfail. induction fuel as [|fuel IH]; intros w.
  - cbn. rewrite app_nil_r, with_trace_same. reflexivity.
  - cbn [connect_loop]. change (5 >? 0) with true. cbv iota.
    unfold try_except, try_except_else, bind at 1, win32file_CreateFile, extern, bind at 1, log.
    destruct (Hfail (trace w)) as [e He]. rewrite He. cbn [lift raise].
    unfold bind at 1, sleep, log. rewrite IH. unfold with_trace. cbn [trace self_handle self_pid].
    rewrite rounds_succ. rewrite <- !app_assoc. reflexivity.
Qed.

Lemma connect_loop_first_try (pipeName : string) (h : Handle) (fuel : nat) (w : World) :
  CreateFile os (trace w) pipeName = inl h ->
  connect_loop os (S fuel) 5 pipeName w
  = (Ok tt, {| self_handle := Some h; self_pid := self_pid w;
               trace := trace w ++ [EvCreateFile pipeName] |}).
Proof.
  intros Hc. cbn [connect_loop]. change (5 >? 0) with true. cbv iota.
  unfold try_except, try_except_else, bind, win32file_CreateFile, extern, bind, log.
  rewrite Hc. reflexivity.
Qed.

(** One round of the second loop. *)
Lemma ready_loop_step (fuel : nat) (timeout : Z) (w : World) :
  0 < timeout ->
  let attempt := EvSetNamedPipeHandleState (self_handle w) in
  ready_loop os (S fuel) timeout w =
  match on_handle (self_handle w) (SetNamedPipeHandleState os (trace w)) with
  | inr e => (Raise e, with_trace w (trace w ++ [attempt]))
  | inl res =>
      if py_eq_0 res
      then ready_loop os fuel (timeout - 1) (with_trace w (trace w ++ [attempt; EvSleep 1]))
      else (Ok true, with_trace w (trace w ++ [attempt]))
  end.
Proof.
  intros Hpos. cbv zeta. cbn [ready_loop].
  destruct (Z.gtb_spec timeout 0) as [_|Hneg]; [|lia].
  unfold bind at 1, get_handle.
  unfold bind at 1, win32pipe_SetNamedPipeHandleState, extern, bind at 1, log.
  destruct (on_handle (self_handle w) (SetNamedPipeHandleState os (trace w))) as [res|e];
    cbn [lift ret raise]; [|reflexivity].
  destruct (py_eq_0 res); [|reflexivity].
  unfold bind at 1, sleep, log, with_trace. cbn [trace self_handle self_pid].
  rewrite <- app_assoc. reflexivity.
Qed.

Lemma init_unfold (fuel : nat) (pid timeout : Z) (w : World) :
  _EvsProcess__init__ os fuel pid timeout w =
  match connect_loop os fuel 5 (pipe_name pid)
          {| self_handle := None; self_pid := Some pid; trace := trace w |} with
  | (Ok _, w1) =>
      match ready_loop os fuel timeout w1 with
      | (Ok success, w2) =>
          if success then (Ok tt, w2) else (Raise (ValueError (PStr MSG_REFUSED)), w2)
      | (Raise e, w2) => (Raise e, w2)
      | (OutOfFuel, w2) => (OutOfFuel, w2)
      end
  | (Raise e, w1) => (Raise e, w1)
  | (OutOfFuel, w1) => (OutOfFuel, w1)
  end.
Proof.
  unfold _EvsProcess__init__, bind, set_handle, set_pid. cbn [trace self_handle self_pid].
  destruct (connect_loop os fuel 5 (pipe_name pid) _) as [[u|e|] w1]; try reflexivity.
  destruct (ready_loop os fuel timeout w1) as [[success|e|] w2]; try reflexivity.
  destruct success; reflexivity.
Qed.

(** C2 (what the code does). pywin32's [SetNamedPipeHandleState] returns
    [None] or raises, and never returns 0, the one answer the second loop
    retries on.  So on a pipe that has opened and with a positive [timeout]
    the constructor makes exactly one attempt, whatever [timeout] is: when
    the call returns, the constructor returns with the handle set; when the
    pipe does not take the message read mode, the call raises and that
    exception leaves the constructor at once, with no sleep, no further
    attempt and no connection-refused [ValueError]. *)
Theorem init_mode_failure_not_retried (fuel : nat) (pid timeout : Z) (w : World) (h : Handle) :
  pywin32_contract os ->
  CreateFile os (trace w) (pipe_name pid) = inl h ->
  0 < timeout ->
  (0 < fuel)%nat ->
  let opened := trace w ++ [EvCreateFile (pipe_name pid)] in
  _EvsProcess__init__ os fuel pid timeout w
  = (match SetNamedPipeHandleState os opened h with
     | inl _ => Ok tt
     | inr e => Raise e
     end,
     {| self_handle := Some h; self_pid := Some pid;
        trace := opened ++ [EvSetNamedPipeHandleState (Some h)] |}).
Proof.
  intros Hlib Hc Ht Hfuel opened. destruct fuel as [|fuel]; [lia|].
  rewrite init_unfold.
  rewrite (connect_loop_first_try (pipe_name pid) h fuel
             {| self_handle := None; self_pid := Some pid; trace := trace w |} Hc).
  rewrite (ready_loop_step fuel timeout _ Ht). cbn [self_handle self_pid trace on_handle].
  fold opened. unfold with_trace. cbn [self_handle self_pid trace].
  destruct (SetNamedPipeHandleState os opened h) as [v|e] eqn:E; [|reflexivity].
  rewrite (Hlib opened h v E). reflexivity.
Qed.

(** C4 (what the code does). On a pipe that never opens, the constructor
    never leaves its first loop: whatever the number of rounds allowed, each
    has made an attempt and slept one second, so attempts are not bounded by
    five and the second loop is never reached. *)
Theorem init_never_gives_up (fuel : nat) (pid timeout : Z) (w : World) :
  (forall tr, exists e, CreateFile os tr (pipe_name pid) = inr e) ->
  _EvsProcess__init__ os fuel pid timeout w
  = (OutOfFuel,
     {| self_handle := None; self_pid := Some pid;
        trace := trace w ++ rounds (EvCreateFile (pipe_name pid)) fuel |})
  /\ count is_create (rounds (EvCreateFile (pipe_name pid)) fuel) = fuel.
Proof.
  intros Hfail. split.
  - rewrite init_unfold, (connect_loop_never_ends (pipe_name pid) Hfail). reflexivity.
  - apply count_rounds; reflexivity.
Qed.

End Opening.

Example pipe_name_2044 : pipe_name 2044 = "\\.\pipe\EVS_2044".
Proof. reflexivity. Qed.

Lemma init_mode_failure_not_retried_witness :
  _EvsProcess__init__ mode_refused_os 10 2044 3 fresh_world
  = (Raise (pywintypes_error ERROR_BROKEN_PIPE),
     {| self_handle := Some 7; self_pid := Some 2044;
        trace := [EvCreateFile "\\.\pipe\EVS_2044"; EvSetNamedPipeHandleState (Some 7)] |})
  /\
  _EvsProcess__init__ (ready_os []) 10 2044 3 fresh_world
  = (Ok tt,
     {| self_handle := Some 7; self_pid := Some 2044;
        trace := [EvCreateFile "\\.\pipe\EVS_2044"; EvSetNamedPipeHandleState (Some 7)] |}).
Proof.
  split.
  - apply (init_mode_failure_not_retried mode_refused_os 10 2044 3 fresh_world 7).
    + intros tr h v H. discriminate H.
    + reflexivity.
    + lia.
    + lia.
  - apply (init_mode_failure_not_retried (ready_os []) 10 2044 3 fresh_world 7).
    + intros tr h v H. injection H as <-. reflexivity.
    + reflexivity.
    + lia.
    + lia.
Defined.

Lemma init_never_gives_up_witness :
  _EvsProcess__init__ dead_pipe_os 6 4242 300 fresh_world
  = (OutOfFuel,
     {| self_handle := None; self_pid := Some 4242;
        trace := rounds (EvCreateFile "\\.\pipe\EVS_4242") 6 |})
  /\ count is_create (rounds (EvCreateFile "\\.\pipe\EVS_4242") 6) = 6%nat.
Proof.
  apply (init_never_gives_up dead_pipe_os 6 4242 300 fresh_world).
  intros tr. exists (pywintypes_error ERROR_FILE_NOT_FOUND). reflexivity.
Defined.

(** ** The session flows *)

Lemma count_app (p : Event -> bool) (a b : list Event) :
  count p (a ++ b) = (count p a + count p b)%nat.
Proof. unfold count. rewrite filter_app, length_app. reflexivity. Qed.

Lemma close_returns (w : World) : exists b, close w = (Ok b, snd (close w)).
Proof.
  destruct (self_handle w) as [h|] eqn:E.
  - exists true. rewrite (close_open w h E). reflexivity.
  - exists false. rewrite (close_absent w E). reflexivity.
Qed.

Lemma close_closed_once (w : World) : channel_inv w -> closed_once (snd (close w)).
Proof.
  unfold channel_inv, closed_once. destruct (self_handle w) as [h|] eqn:E; intros H.
  - rewrite (close_open w h E). cbn [snd self_handle trace]. split; [reflexivity|].
    rewrite count_app, H. reflexivity.
  - rewrite (close_absent w E). cbn [snd]. split; assumption.
Qed.

Lemma closed_once_inv (w : World) : closed_once w -> channel_inv w.
Proof. unfold closed_once, channel_inv. intros [-> H]. exact H. Qed.

Section Session.

Variable os : OS.

Lemma request_world (method : string) (args : list pyval) (w : World) :
  snd (_EvsProcess__request os method args w) = after_write os method args w \/
  snd (_EvsProcess__request os method args w) = after_read os method args w.
Proof.
  rewrite request_unfold.
  destruct (on_handle (self_handle w) _) as [u|e]; [|left; reflexivity].
  destruct (on_handle (self_handle w) _) as [r|e]; right; reflexivity.
Qed.

Lemma build_result_inv (method : string) (args : list pyval) (w : World) :
  channel_inv w -> channel_inv (snd (_EvsProcess__build_result os method args w)).
Proof.
  intros H. rewrite build_result_world.
  destruct (request_world method args w) as [-> | ->];
    unfold channel_inv, after_write, after_read, with_trace in *;
    cbn [self_handle trace]; rewrite count_app; cbn;
    destruct (self_handle w); rewrite H; reflexivity.
Qed.

Lemma run_scope_inv (s : Scope) :
  forall w, channel_inv w -> channel_inv (snd (run_scope os s w)).
Proof.
  induction s as [| e | method args k IH | k IH]; intros w H; cbn [run_scope].
  - exact H.
  - exact H.
  - pose proof (build_result_inv method args w H) as Hb.
    destruct (_EvsProcess__build_result os method args w) as [[v|e|] w']; cbn [snd] in Hb.
    + apply IH. exact Hb.
    + apply IH. exact Hb.
    + exact Hb.
  - unfold bind. destruct (close_returns w) as [b Hb]. rewrite Hb.
    apply IH. apply closed_once_inv, close_closed_once. exact H.
Qed.

Lemma session_body_inv (auto_wait_for_ready : bool) (body : Scope) (w : World) :
  channel_inv w -> channel_inv (snd (session_body os auto_wait_for_ready body w)).
Proof.
  intros H. unfold session_body, get_api_version, wait_for_ready.
  unfold bind at 1.
  pose proof (build_result_inv "Version" [] w H) as H1.
  destruct (_EvsProcess__build_result os "Version" [] w) as [[version|e|] w1];
    cbn [snd] in H1; try exact H1.
  unfold bind at 1. destruct (py_ne_1_0 version); [exact H1|]. unfold ret at 1.
  unfold bind at 1. destruct auto_wait_for_ready.
  - unfold bind at 1.
    pose proof (build_result_inv "WaitForReady" [] w1 H1) as H2.
    destruct (_EvsProcess__build_result os "WaitForReady" [] w1) as [[v|e|] w2];
      cbn [snd] in H2; try exact H2.
    unfold ret at 1. apply run_scope_inv. exact H2.
  - unfold ret at 1. apply run_scope_inv. exact H1.
Qed.

(** The exits of the guarded block, one by one.  An exception of the
    statements under [try:] (the handshake, the wait, the caller's block) is
    re-raised as it is with the channel closed exactly once; so is a normal
    end when no shutdown is asked or the shutdown call returns.  When the
    shutdown call raises, its exception leaves the flow and [close] is not
    reached. *)
Lemma guarded_session_exits (auto_shutdown auto_wait_for_ready : bool) (body : Scope)
    (w : World) :
  channel_inv w ->
  (forall e w1,
     session_body os auto_wait_for_ready body w = (Raise e, w1) ->
     guarded_session os auto_shutdown auto_wait_for_ready body w = (Raise e, snd (close w1))
     /\ closed_once (snd (close w1))) /\
  (forall w1,
     session_body os auto_wait_for_ready body w = (Ok tt, w1) ->
     auto_shutdown = false ->
     guarded_session os auto_shutdown auto_wait_for_ready body w = (Ok tt, snd (close w1))
     /\ closed_once (snd (close w1))) /\
  (forall w1 v w2,
     session_body os auto_wait_for_ready body w = (Ok tt, w1) ->
     auto_shutdown = true ->
     shutdown os w1 = (Ok v, w2) ->
     guarded_session os auto_shutdown auto_wait_for_ready body w = (Ok tt, snd (close w2))
     /\ closed_once (snd (close w2))) /\
  (forall w1 e w2,
     session_body os auto_wait_for_ready body w = (Ok tt, w1) ->
     auto_shutdown = true ->
     shutdown os w1 = (Raise e, w2) ->
     guarded_session os auto_shutdown auto_wait_for_ready body w = (Raise e, w2)
     /\ self_handle w2 = self_handle w1
     /\ count is_close (trace w2) = count is_close (trace w1)).
Proof.
  intros Hinv.
  pose proof (session_body_inv auto_wait_for_ready body w Hinv) as Hb.
  unfold guarded_session, try_except_else.
  split; [|split; [|split]].
  - intros e w1 Hbody. rewrite Hbody in Hb |- *. cbn [snd] in Hb. split.
    + unfold bind. destruct (close_returns w1) as [b ->]. reflexivity.
    + apply close_closed_once. exact Hb.
  - intros w1 Hbody ->. rewrite Hbody in Hb |- *. cbn [snd] in Hb. split.
    + unfold bind, ret. destruct (close_returns w1) as [b ->]. reflexivity.
    + apply close_closed_once. exact Hb.
  - intros w1 v w2 Hbody -> Hs. rewrite Hbody in Hb |- *. cbn [snd] in Hb. split.
    + unfold bind at 1. unfold bind at 1. rewrite Hs. unfold ret at 1.
      unfold bind, ret. destruct (close_returns w2) as [b ->]. reflexivity.
    + pose proof (build_result_inv "Shutdown" [] w1 Hb) as Hi.
      unfold shutdown in Hs. rewrite Hs in Hi. apply close_closed_once. exact Hi.
  - intros w1 e w2 Hbody -> Hs. rewrite Hbody. split.
    + unfold bind at 1. unfold bind at 1. rewrite Hs. reflexivity.
    + unfold shutdown in Hs.
      pose proof (build_result_world os "Shutdown" [] w1) as Hw.
      rewrite Hs in Hw. cbn [snd] in Hw.
      destruct (request_world "Shutdown" [] w1) as [E|E]; rewrite E in Hw; subst w2;
        (split; [reflexivity|]);
        unfold after_write, after_read, with_trace; cbn [trace]; rewrite count_app; cbn; lia.
Qed.

End Session.

Section Handshake.

Variable os : OS.

(** A call that returned a value was made on an open handle and exchanged one
    frame each way. *)
Lemma build_result_returned (method : string) (args : list pyval) (w w' : World) (v : pyval) :
  _EvsProcess__build_result os method args w = (Ok v, w') ->
  exists h, self_handle w = Some h /\ w' = after_read os method args w.
Proof.
  intros H.
  pose proof (build_result_world os method args w) as Hw. rewrite H in Hw. cbn [snd] in Hw.
  rewrite build_result_unfold in H. rewrite request_unfold in H, Hw.
  destruct (self_handle w) as [h|] eqn:E; cbn [on_handle] in H, Hw; [|discriminate].
  exists h. split; [reflexivity|].
  destruct (WriteFile os (trace w) h (request_frame os method args)); [|discriminate].
  destruct (ReadFile os (trace (after_write os method args w)) h _bufferSize);
    [exact Hw | discriminate].
Qed.

Lemma guarded_session_bad_version (auto_shutdown auto_wait_for_ready : bool) (body : Scope)
    (w0 w1 : World) (version : pyval) :
  get_api_version os w0 = (Ok version, w1) ->
  py_ne_1_0 version = true ->
  guarded_session os auto_shutdown auto_wait_for_ready body w0
  = (Raise (ValueError (PStr MSG_API_VERSION)), snd (close w1)).
Proof.
  intros Hv Hne.
  assert (Hbody : session_body os auto_wait_for_ready body w0
                  = (Raise (ValueError (PStr MSG_API_VERSION)), w1)).
  { unfold session_body, bind. rewrite Hv, Hne. reflexivity. }
  unfold guarded_session, try_except_else. rewrite Hbody.
  unfold bind. destruct (close_returns w1) as [b ->]. reflexivity.
Qed.

(** C5. In both flows, when the version query returns a value that differs
    from [1.0], the flow raises the unsupported-version [ValueError]; after
    the one frame sent and the one received for the query, the only call made
    is the local [CloseHandle]: no wait-for-ready, nothing of the caller's
    block and no shutdown, whatever the options and the block. *)
Theorem handshake_rejects_other_versions (version : pyval) (w0 w1 : World) :
  get_api_version os w0 = (Ok version, w1) ->
  py_ne_1_0 version = true ->
  exists h,
    self_handle w0 = Some h /\
    let failed :=
      (@Raise unit (ValueError (PStr MSG_API_VERSION)),
       {| self_handle := None; self_pid := None;
          trace := trace w0 ++ [EvWriteFile (Some h) (request_frame os "Version" []);
                                EvReadFile (Some h) _bufferSize;
                                EvCloseHandle h] |}) in
    (forall fuel auto_shutdown timeout auto_wait_for_ready start_minimized body w,
       start_new_open os fuel timeout start_minimized w = (Ok tt, w0) ->
       start_new os fuel auto_shutdown timeout auto_wait_for_ready start_minimized body w
       = failed) /\
    (forall fuel pid auto_shutdown timeout auto_wait_for_ready body w,
       connect_to_existing_open os fuel pid timeout w = (Ok tt, w0) ->
       connect_to_existing os fuel pid auto_shutdown timeout auto_wait_for_ready body w
       = failed).
Proof.
  intros Hv Hne.
  destruct (build_result_returned "Version" [] w0 w1 version Hv) as [h [Hh Hw1]].
  exists h. split; [exact Hh|]. cbv zeta.
  assert (Hclose : snd (close w1)
                   = {| self_handle := None; self_pid := None;
                        trace := trace w0 ++ [EvWriteFile (Some h) (request_frame os "Version" []);
                                              EvReadFile (Some h) _bufferSize;
                                              EvCloseHandle h] |}).
  { subst w1. rewrite (close_open _ h); unfold after_read, with_trace; cbn [self_handle trace snd].
    - rewrite Hh, <- app_assoc. reflexivity.
    - exact Hh. }
  split.
  - intros fuel auto_shutdown timeout auto_wait_for_ready start_minimized body w Hopen.
    unfold start_new, bind. rewrite Hopen.
    rewrite (guarded_session_bad_version _ _ _ w0 w1 version Hv Hne), Hclose. reflexivity.
  - intros fuel pid auto_shutdown timeout auto_wait_for_ready body w Hopen.
    unfold connect_to_existing, bind. rewrite Hopen.
    rewrite (guarded_session_bad_version _ _ _ w0 w1 version Hv Hne), Hclose. reflexivity.
Qed.

End Handshake.

Lemma handshake_rejects_other_versions_witness :
  connect_to_existing version_two_os 5 (-1) false 60 true list_modules fresh_world
  = (Raise (ValueError (PStr MSG_API_VERSION)),
     {| self_handle := None; self_pid := None;
        trace := [EvCreateFile "\\.\pipe\EVS_2044"; EvSetNamedPipeHandleState (Some 7);
                  EvWriteFile (Some 7) VERSION_FRAME; EvReadFile (Some 7) 65536;
                  EvCloseHandle 7] |}).
Proof.
  destruct (handshake_rejects_other_versions version_two_os (PFloat 2.0%float) connected_2044
              (snd (get_api_version version_two_os connected_2044)))
    as [h [Hh [_ Hconnect]]].
  - vm_compute. reflexivity.
  - vm_compute. reflexivity.
  - assert (h = 7) by (cbn in Hh; congruence). subst h.
    rewrite (Hconnect 5%nat (-1) false 60 true list_modules fresh_world).
    + vm_compute. reflexivity.
    + vm_compute. reflexivity.
Defined.

(** C1 (what the code does). The caller's block ends normally, the
    automatic shutdown is on, and the shutdown call raises: in [start_new]
    because the remote answers with a failure, in [connect_to_existing]
    because the remote has gone and the read breaks.  That exception leaves
    the flow with the handle still set and no [CloseHandle] in the trace. *)
Theorem shutdown_failure_skips_close :
  (fst (start_new shutdown_refused_os 5 true 300 true false SReturn fresh_world)
   = Raise (ValueError (PStr "busy"))
   /\ self_handle (snd (start_new shutdown_refused_os 5 true 300 true false SReturn fresh_world))
      = Some 7
   /\ count is_close
        (trace (snd (start_new shutdown_refused_os 5 true 300 true false SReturn fresh_world)))
      = 0%nat)
  /\
  (fst (connect_to_existing remote_gone_os 5 (-1) true 60 true SReturn fresh_world)
   = Raise (pywintypes_error ERROR_BROKEN_PIPE)
   /\ self_handle (snd (connect_to_existing remote_gone_os 5 (-1) true 60 true SReturn fresh_world))
      = Some 7
   /\ count is_close
        (trace (snd (connect_to_existing remote_gone_os 5 (-1) true 60 true SReturn fresh_world)))
      = 0%nat).
Proof.
  split; (split; [vm_compute; reflexivity | split; vm_compute; reflexivity]).
Qed.

(** ** Scripting dates *)

Example format_items_fraction : format_items FORMAT_FRACTION = FRACTION_ITEMS.
Proof. reflexivity. Qed.

Example format_items_seconds : format_items FORMAT_SECONDS = SECONDS_ITEMS.
Proof. reflexivity. Qed.

Example datetime_to_evsdate_sample :
  datetime_to_evsdate sample_naive = str_of "2020-01-02T03:04:05.000006".
Proof. vm_compute. reflexivity. Qed.

Example datetime_to_evsdate_year_999 :
  datetime_to_evsdate sample_999 = str_of "999-01-02T03:04:05.000006".
Proof. vm_compute. reflexivity. Qed.

Example evsdate_to_datetime_sample :
  evsdate_to_datetime (str_of "2020-01-02T03:04:05.000006") = inl sample_naive.
Proof. vm_compute. reflexivity. Qed.

Example evsdate_to_datetime_no_fraction :
  evsdate_to_datetime (str_of "2021-12-31t23:59:59")
  = inl {| year := 2021; month := 12; day := 31; hour := 23; minute := 59; second := 59;
           microsecond := 0; tzinfo := None |}.
Proof. vm_compute. reflexivity. Qed.

Example evsdate_to_datetime_short_fraction :
  evsdate_to_datetime (str_of "2021-2-3T4:5:6.25")
  = inl {| year := 2021; month := 2; day := 3; hour := 4; minute := 5; second := 6;
           microsecond := 250000; tzinfo := None |}.
Proof. vm_compute. reflexivity. Qed.

(** The year in Arabic-Indic digits (U+0662 U+0660 U+0662 U+0663). *)
Example evsdate_to_datetime_other_digits :
  evsdate_to_datetime ([1634; 1632; 1634; 1635]%N ++ str_of "-02-20T03:04:05.000006")
  = inl {| year := 2023; month := 2; day := 20; hour := 3; minute := 4; second := 5;
           microsecond := 6; tzinfo := None |}.
Proof. vm_compute. reflexivity. Qed.

Example evsdate_to_datetime_refusals :
  evsdate_to_datetime (str_of "2020-01-02T03:04:60")
  = inr (ValueError_strptime second_out_of_range) /\
  evsdate_to_datetime (str_of "0000-01-02T03:04:05")
  = inr (ValueError_strptime (year_out_of_range 0)) /\
  evsdate_to_datetime (str_of "2023-02-29T03:04:05")
  = inr (ValueError_strptime day_out_of_range) /\
  evsdate_to_datetime (str_of "2020-01-02T03:04:05.0000061")
  = inr (ValueError_strptime (unconverted_data (str_of ".0000061"))) /\
  evsdate_to_datetime (str_of "2020/01/02")
  = inr (ValueError_strptime (does_not_match (str_of "2020/01/02") "%Y-%m-%dT%H:%M:%S")).
Proof. repeat split; vm_compute; reflexivity. Qed.

Lemma str_eqb_eq (a b : str) : str_eqb a b = true <-> a = b.
Proof.
  revert b. induction a as [|x a IH]; intros [|y b]; cbn [str_eqb]; split; intros H;
    try reflexivity; try discriminate.
  - apply andb_true_iff in H. destruct H as [Hx Hab].
    apply N.eqb_eq in Hx. apply IH in Hab. subst. reflexivity.
  - injection H as -> ->. rewrite N.eqb_refl. apply IH. reflexivity.
Qed.

(** *** The year *)

Lemma years_checked : forallb year_text_checked (seq 1 (Z.to_nat 9999)) = true.
Proof. vm_compute. reflexivity. Qed.

Lemma year_text (y : Z) :
  1 <= y <= 9999 ->
  List.length (decimal y) = year_width y /\
  repeat 48%N (4 - List.length (decimal y)) ++ decimal y = zero_padded 4 y [].
Proof.
  intros H.
  assert (Hin : In (Z.to_nat y) (seq 1 (Z.to_nat 9999))) by (apply in_seq; lia).
  pose proof (proj1 (forallb_forall year_text_checked (seq 1 (Z.to_nat 9999))) years_checked _ Hin) as C.
  unfold year_text_checked in C. cbv zeta in C. rewrite Z2Nat.id in C by lia.
  apply andb_true_iff in C. destruct C as [C1 C2].
  apply Nat.eqb_eq in C1. apply str_eqb_eq in C2. split; assumption.
Qed.

Lemma year_text_four (y : Z) (rest : str) :
  1000 <= y <= 9999 -> decimal y ++ rest = pad4 y rest.
Proof.
  intros H. destruct (year_text y) as [L P]; [lia|].
  unfold year_width in L.
  destruct (Z.ltb_spec y 10) as [?|_]; [lia|].
  destruct (Z.ltb_spec y 100) as [?|_]; [lia|].
  destruct (Z.ltb_spec y 1000) as [?|_]; [lia|].
  rewrite L in P. cbn [Nat.sub repeat app] in P. rewrite P. reflexivity.
Qed.

Lemma year_text_short (y : Z) : 1 <= y < 1000 -> (List.length (decimal y) <= 3)%nat.
Proof.
  intros H. destruct (year_text y) as [L _]; [lia|]. rewrite L. unfold year_width.
  destruct (y <? 10); [lia|]. destruct (y <? 100); [lia|].
  destruct (Z.ltb_spec y 1000) as [_|?]; lia.
Qed.

(** *** What is printed *)

Lemma datetime_to_evsdate_digits (t : datetime) :
  datetime_to_evsdate t = decimal (year t) ++ date_tail t.
Proof. reflexivity. Qed.

Lemma strftime_seconds_digits (t : datetime) :
  strftime t FORMAT_SECONDS = decimal (year t) ++ seconds_tail t [].
Proof. reflexivity. Qed.

(** *** The groups on printed digits *)

Lemma decimal_value_digit_char (k : Z) : 0 <= k <= 9 -> decimal_value (digit_char k) = Some k.
Proof.
  intros H.
  assert (E : k = 0 \/ k = 1 \/ k = 2 \/ k = 3 \/ k = 4 \/ k = 5 \/ k = 6 \/ k = 7 \/ k = 8 \/ k = 9)
    by lia.
  repeat (destruct E as [-> | E]; [reflexivity|]). subst k. reflexivity.
Qed.

Lemma in_range_true (lo hi v : Z) : lo <= v <= hi -> in_range lo hi v = true.
Proof. unfold in_range. intros H. apply andb_true_iff. split; apply Z.leb_le; lia. Qed.

Lemma in_range_false (lo hi v : Z) : v < lo \/ hi < v -> in_range lo hi v = false.
Proof.
  unfold in_range. intros [H|H].
  - apply andb_false_iff. left. apply Z.leb_gt. exact H.
  - apply andb_false_iff. right. apply Z.leb_gt. exact H.
Qed.

Lemma class_value_digit_char (cl : char_class) (k : Z) :
  0 <= k <= 9 ->
  class_value cl (digit_char k) = if class_admits cl k then Some (Some k) else None.
Proof.
  intros H. destruct cl as [lo hi | |]; cbn [class_value class_admits].
  - unfold digit_char. rewrite Z2N.id by lia.
    replace (48 + k - 48) with k by lia. reflexivity.
  - rewrite (decimal_value_digit_char k H). reflexivity.
  - unfold digit_char. destruct (N.eqb_spec (Z.to_N (48 + k)) 32) as [E|_]; [|reflexivity].
    exfalso. apply (f_equal Z.of_N) in E. rewrite Z2N.id in E by lia. lia.
Qed.

Lemma match_classes_digit (cl : char_class) (cls : list char_class) (k : Z) (s : str) (acc : Z) :
  0 <= k <= 9 ->
  match_classes (cl :: cls) (digit_char k :: s) acc
  = if class_admits cl k then match_classes cls s (10 * acc + k) else None.
Proof.
  intros H. cbn [match_classes]. rewrite (class_value_digit_char cl k H).
  destruct (class_admits cl k); reflexivity.
Qed.

(** What an alternative of one or of two characters makes of printed digits. *)
Lemma one_class_digit (cl : char_class) (a : Z) (s : str) :
  0 <= a <= 9 ->
  match_classes [cl] (digit_char a :: s) 0 = if class_admits cl a then Some (a, s) else None.
Proof.
  intros Ha. rewrite (match_classes_digit cl [] a s 0 Ha). cbn [match_classes].
  replace (10 * 0 + a) with a by lia. reflexivity.
Qed.

Lemma two_classes_digits (c1 c2 : char_class) (a b : Z) (s : str) :
  0 <= a <= 9 -> 0 <= b <= 9 ->
  match_classes [c1; c2] (digit_char a :: digit_char b :: s) 0
  = if class_admits c1 a && class_admits c2 b then Some (10 * a + b, s) else None.
Proof.
  intros Ha Hb. rewrite (match_classes_digit c1 [c2] a _ 0 Ha).
  destruct (class_admits c1 a); [|reflexivity].
  rewrite (match_classes_digit c2 [] b s _ Hb). cbn [andb match_classes].
  replace (10 * (10 * 0 + a) + b) with (10 * a + b) by lia. reflexivity.
Qed.

(** The tens and units of a number below 100. *)
Lemma two_digit_split (n : Z) :
  0 <= n <= 99 ->
  0 <= n / 10 mod 10 <= 9 /\ 0 <= n mod 10 <= 9 /\ n = 10 * (n / 10 mod 10) + n mod 10.
Proof. intros H. Z.to_euclidean_division_equations. lia. Qed.

Ltac decide_ranges :=
  repeat match goal with
         | |- context [in_range ?lo ?hi ?v] =>
             first [ rewrite (in_range_true lo hi v) by lia
                   | rewrite (in_range_false lo hi v) by lia ]
         end.

Ltac split_two_digits n H :=
  let Ha := fresh "Ha" in
  let Hb := fresh "Hb" in
  let Hn := fresh "Hn" in
  destruct (two_digit_split n H) as [Ha [Hb Hn]];
  unfold pad2, directive_matches, directive_alternatives; cbn [flat_map];
  rewrite ?two_classes_digits, ?one_class_digit, ?match_classes_digit by assumption;
  cbn [class_admits];
  generalize dependent (n / 10 mod 10); generalize dependent (n mod 10);
  intros b Hb a Ha Hn.

Lemma month_group (n : Z) (rest : str) :
  1 <= n <= 12 ->
  exists tl, directive_matches dir_m (pad2 n rest) = (n, rest) :: tl.
Proof.
  intros H. assert (H99 : 0 <= n <= 99) by lia. split_two_digits n H99.
  assert (E : a = 0 \/ a = 1) by lia.
  destruct E as [-> | ->]; decide_ranges; cbn [andb app]; subst n; eexists; reflexivity.
Qed.

Lemma day_group (n : Z) (rest : str) :
  1 <= n <= 31 ->
  exists tl, directive_matches dir_d (pad2 n rest) = (n, rest) :: tl.
Proof.
  intros H. assert (H99 : 0 <= n <= 99) by lia. split_two_digits n H99.
  assert (E : a = 0 \/ a = 1 \/ a = 2 \/ a = 3) by lia.
  destruct E as [-> | [-> | [-> | ->]]]; decide_ranges; cbn [andb app]; subst n;
    eexists; reflexivity.
Qed.

Lemma hour_group (n : Z) (rest : str) :
  0 <= n <= 23 ->
  exists tl, directive_matches dir_H (pad2 n rest) = (n, rest) :: tl.
Proof.
  intros H. assert (H99 : 0 <= n <= 99) by lia. split_two_digits n H99.
  assert (E : a = 0 \/ a = 1 \/ a = 2) by lia.
  destruct E as [-> | [-> | ->]]; decide_ranges; cbn [andb app]; subst n;
    eexists; reflexivity.
Qed.

Lemma minute_group (n : Z) (rest : str) :
  0 <= n <= 59 ->
  exists tl, directive_matches dir_M (pad2 n rest) = (n, rest) :: tl.
Proof.
  intros H. assert (H99 : 0 <= n <= 99) by lia. split_two_digits n H99.
  decide_ranges; cbn [andb app]; subst n; eexists; reflexivity.
Qed.

Lemma second_group (n : Z) (rest : str) :
  0 <= n <= 59 ->
  exists tl, directive_matches dir_S (pad2 n rest) = (n, rest) :: tl.
Proof.
  intros H. assert (H99 : 0 <= n <= 99) by lia. split_two_digits n H99.
  decide_ranges; cbn [andb app]; subst n; eexists; reflexivity.
Qed.

Lemma year_group (n : Z) (rest : str) :
  0 <= n <= 9999 ->
  directive_matches dir_Y (pad4 n rest) = [(n, rest)].
Proof.
  intros H. unfold pad4, pad2, directive_matches, directive_alternatives. cbn [flat_map app].
  rewrite !match_classes_digit by (Z.to_euclidean_division_equations; lia).
  cbn [class_admits match_classes app].
  f_equal. f_equal. Z.to_euclidean_division_equations. lia.
Qed.

Lemma fraction_group (n : Z) (rest : str) :
  0 <= n <= 999999 ->
  exists tl, directive_matches dir_f (pad6 n rest) = (n, rest) :: tl.
Proof.
  intros H. unfold pad6, pad4, pad2, directive_matches. cbn [fraction_digits].
  rewrite !class_value_digit_char by (Z.to_euclidean_division_equations; lia).
  cbn [class_admits].
  rewrite !in_range_true by (Z.to_euclidean_division_equations; lia).
  change (100000 / 10) with 10000. change (10000 / 10) with 1000.
  change (1000 / 10) with 100. change (100 / 10) with 10. change (10 / 10) with 1.
  cbn [app]. eexists.
  apply (f_equal2 cons); [|reflexivity]. apply (f_equal2 pair); [|reflexivity].
  Z.to_euclidean_division_equations. lia.
Qed.

Lemma first_match_nil (s : str) (p : parsed) : first_match [] s p = Some (p, s).
Proof. reflexivity. Qed.

Lemma first_match_lit (c : ascii) (a : N) (items : list fmt_item) (s : str) (p : parsed) :
  lit_matches c a = true ->
  first_match (Lit c :: items) (a :: s) p = first_match items s p.
Proof. intros H. unfold first_match. cbn [regex_match]. rewrite H. reflexivity. Qed.

Lemma first_match_dir (d : directive) (items : list fmt_item) (s s' : str) (p : parsed)
    (v : Z) (tl : list (Z * str)) (r : parsed * str) :
  directive_matches d s = (v, s') :: tl ->
  first_match items s' (set_group d v p) = Some r ->
  first_match (Dir d :: items) s p = Some r.
Proof.
  unfold first_match. intros Hd Hr. cbn [regex_match]. rewrite Hd. cbn [flat_map fst snd].
  destruct (regex_match items s' (set_group d v p)) as [|x l]; [discriminate|].
  cbn in Hr |- *. exact Hr.
Qed.

Lemma days_in_month_le_31 (y m : Z) : days_in_month y m <= 31.
Proof.
  unfold days_in_month.
  destruct (m =? 2); [destruct (is_leap y); lia|].
  destruct ((m =? 4) || (m =? 6) || (m =? 9) || (m =? 11)); lia.
Qed.

Lemma in_range_bounds (lo hi v : Z) : in_range lo hi v = true -> lo <= v <= hi.
Proof. unfold in_range. intros H. apply andb_true_iff in H. destruct H. lia. Qed.

Lemma valid_datetime_bounds (t : datetime) :
  valid_datetime t = true ->
  1 <= year t <= 9999 /\ 1 <= month t <= 12 /\ 1 <= day t <= 31 /\
  0 <= hour t <= 23 /\ 0 <= minute t <= 59 /\ 0 <= second t <= 59 /\
  0 <= microsecond t <= 999999.
Proof.
  unfold valid_datetime, valid_fields. intros H.
  repeat (apply andb_true_iff in H; destruct H as [H ?]).
  repeat match goal with
         | Hr : in_range _ _ _ = true |- _ => apply in_range_bounds in Hr
         end.
  pose proof (days_in_month_le_31 (year t) (month t)). lia.
Qed.

(** The groups down to the second, on what is printed after the year. *)
Lemma seconds_tail_first_match (t : datetime) (items : list fmt_item) (rest : str)
    (p : parsed) (r : parsed * str) :
  valid_datetime t = true ->
  first_match items rest
    {| p_Y := p_Y p; p_m := month t; p_d := day t; p_H := hour t; p_M := minute t;
       p_S := second t; p_f := p_f p |} = Some r ->
  first_match ([Lit "-"; Dir dir_m; Lit "-"; Dir dir_d; Lit "T";
                Dir dir_H; Lit ":"; Dir dir_M; Lit ":"; Dir dir_S]%char ++ items)
    (seconds_tail t rest) p = Some r.
Proof.
  intros Hv Hr.
  destruct (valid_datetime_bounds t Hv) as [HY [Hm [Hd [HH [HM [HS Hf]]]]]].
  unfold seconds_tail. cbn [app str_of list_ascii_of_string map].
  rewrite first_match_lit by reflexivity.
  destruct (month_group (month t)
              (N_of_ascii "-" :: pad2 (day t) (N_of_ascii "T" :: pad2 (hour t)
                 (N_of_ascii ":" :: pad2 (minute t) (N_of_ascii ":" :: pad2 (second t) rest))))
              Hm) as [tl1 E1].
  eapply first_match_dir; [exact E1|].
  rewrite first_match_lit by reflexivity.
  destruct (day_group (day t)
              (N_of_ascii "T" :: pad2 (hour t)
                 (N_of_ascii ":" :: pad2 (minute t) (N_of_ascii ":" :: pad2 (second t) rest)))
              Hd) as [tl2 E2].
  eapply first_match_dir; [exact E2|].
  rewrite first_match_lit by reflexivity.
  destruct (hour_group (hour t)
              (N_of_ascii ":" :: pad2 (minute t) (N_of_ascii ":" :: pad2 (second t) rest))
              HH) as [tl3 E3].
  eapply first_match_dir; [exact E3|].
  rewrite first_match_lit by reflexivity.
  destruct (minute_group (minute t) (N_of_ascii ":" :: pad2 (second t) rest) HM) as [tl4 E4].
  eapply first_match_dir; [exact E4|].
  rewrite first_match_lit by reflexivity.
  destruct (second_group (second t) rest HS) as [tl5 E5].
  eapply first_match_dir; [exact E5|].
  destruct p as [pY pm pd pH pM pS pf]. exact Hr.
Qed.

(** The format with the fraction on a date printed with the year on four
    digits. *)
Lemma fraction_format_first_match (t : datetime) :
  valid_datetime t = true ->
  first_match FRACTION_ITEMS (pad4 (year t) (date_tail t)) parsed_default
  = Some ({| p_Y := year t; p_m := month t; p_d := day t; p_H := hour t;
             p_M := minute t; p_S := second t; p_f := microsecond t |}, []).
Proof.
  intros Hv.
  destruct (valid_datetime_bounds t Hv) as [HY [Hm [Hd [HH [HM [HS Hf]]]]]].
  unfold FRACTION_ITEMS, date_tail.
  eapply first_match_dir; [apply year_group; lia|].
  apply (seconds_tail_first_match t [Lit "."; Dir dir_f]%char); [exact Hv|].
  cbn [app str_of list_ascii_of_string map set_group parsed_default p_Y p_f].
  rewrite first_match_lit by reflexivity.
  destruct (fraction_group (microsecond t) [] Hf) as [tl6 E6].
  eapply first_match_dir; [exact E6|].
  reflexivity.
Qed.

(** The three checks [strptime] makes after the match. *)
Lemma valid_datetime_checks (t : datetime) :
  valid_datetime t = true ->
  in_range 1 9999 (year t) = true /\
  in_range 1 (days_in_month (year t) (month t)) (day t) = true /\
  in_range 0 59 (second t) = true.
Proof.
  unfold valid_datetime, valid_fields. intros H.
  destruct (in_range 1 9999 (year t)); [|discriminate H].
  destruct (in_range 1 12 (month t)); [|discriminate H].
  destruct (in_range 1 (days_in_month (year t) (month t)) (day t)); [|discriminate H].
  destruct (in_range 0 23 (hour t)); [|discriminate H].
  destruct (in_range 0 59 (minute t)); [|discriminate H].
  destruct (in_range 0 59 (second t)); [|discriminate H].
  repeat split.
Qed.

Lemma strptime_of_padded (t : datetime) :
  valid_datetime t = true ->
  strptime (pad4 (year t) (date_tail t)) FORMAT_FRACTION = inl (naive t).
Proof.
  intros Hv. unfold strptime. rewrite format_items_fraction.
  pose proof (fraction_format_first_match t Hv) as Hm. unfold first_match in Hm.
  destruct (regex_match FRACTION_ITEMS (pad4 (year t) (date_tail t)) parsed_default)
    as [|[p rest] l]; [discriminate|].
  cbn in Hm. injection Hm as -> ->. cbn [p_Y p_m p_d p_H p_M p_S p_f].
  destruct (valid_datetime_checks t Hv) as [C1 [C2 C3]]. rewrite C1, C2, C3. reflexivity.
Qed.

(** What [strptime] makes of a printed date under the format with fractional
    seconds, from the year 1000 on: the fields of the value, and no time
    zone. *)
Lemma strptime_of_printed (t : datetime) :
  valid_datetime t = true ->
  1000 <= year t ->
  strptime (datetime_to_evsdate t) FORMAT_FRACTION = inl (naive t).
Proof.
  intros Hv HY. destruct (valid_datetime_bounds t Hv) as [HY' _].
  rewrite datetime_to_evsdate_digits, year_text_four by lia.
  apply strptime_of_padded. exact Hv.
Qed.

(** The first format succeeds, so the second is never tried. *)
Lemma evsdate_to_datetime_of_printed (t : datetime) :
  valid_datetime t = true ->
  1000 <= year t ->
  evsdate_to_datetime (datetime_to_evsdate t) = inl (naive t).
Proof.
  intros Hv HY. unfold evsdate_to_datetime. rewrite (strptime_of_printed t Hv HY). reflexivity.
Qed.

Lemma naive_of_naive (t : datetime) : tzinfo t = None -> naive t = t.
Proof. destruct t as [Y m d H M S f z]. cbn. intros ->. reflexivity. Qed.

Lemma datetime_eq_refl_naive (t : datetime) : tzinfo t = None -> datetime_eq t t = true.
Proof.
  intros Hz. unfold datetime_eq. rewrite Hz. unfold same_fields.
  rewrite !Z.eqb_refl. reflexivity.
Qed.

(** *** Below the year 1000 *)

Lemma hyphen_is_no_digit : class_value any_digit (N_of_ascii "-") = None.
Proof. vm_compute. reflexivity. Qed.

(** Fewer than four characters and then a hyphen are not a year. *)
Lemma short_year_no_match (l tail : str) (acc : Z) :
  (List.length l <= 3)%nat ->
  match_classes [any_digit; any_digit; any_digit; any_digit] (l ++ N_of_ascii "-" :: tail) acc
  = None.
Proof.
  intros H.
  destruct l as [|a [|b [|c [|d l]]]]; cbn [List.length] in H; [| | | | lia];
    cbn [app match_classes]; rewrite hyphen_is_no_digit;
    repeat match goal with
           | |- context [class_value any_digit ?x] =>
               destruct (class_value any_digit x) as [[?|]|]
           end; reflexivity.
Qed.

Lemma printed_before_1000_no_match (t : datetime) (items : list fmt_item) (rest : str)
    (p : parsed) :
  1 <= year t < 1000 ->
  regex_match (Dir dir_Y :: items) (decimal (year t) ++ seconds_tail t rest) p = [].
Proof.
  intros HY. cbn [regex_match]. unfold directive_matches, directive_alternatives.
  cbn [flat_map]. unfold seconds_tail. cbn [app str_of list_ascii_of_string map].
  rewrite short_year_no_match by (apply year_text_short; exact HY). reflexivity.
Qed.

(** A date before the year 1000 is printed with fewer than four digits of
    year, and neither format reads it back. *)
Lemma strptime_before_1000 (t : datetime) (f : evs_format) :
  1 <= year t < 1000 ->
  strptime (datetime_to_evsdate t) f
  = inr (ValueError_strptime (does_not_match (datetime_to_evsdate t) (format_text f))).
Proof.
  intros HY. unfold strptime. rewrite datetime_to_evsdate_digits. unfold date_tail.
  destruct f.
  - rewrite format_items_fraction. unfold FRACTION_ITEMS.
    rewrite (printed_before_1000_no_match t _ _ _ HY). reflexivity.
  - rewrite format_items_seconds. unfold SECONDS_ITEMS.
    rewrite (printed_before_1000_no_match t _ _ _ HY). reflexivity.
Qed.

(** C10, as the code has it. For every naive datetime from the year 1000 on,
    parsing the scripting date printed from it gives back that datetime,
    through the format with fractional seconds, and the two compare equal. *)
Theorem evsdate_roundtrip_naive (t : datetime) :
  valid_datetime t = true ->
  tzinfo t = None ->
  1000 <= year t ->
  exists r,
    evsdate_to_datetime (datetime_to_evsdate t) = inl r /\
    strptime (datetime_to_evsdate t) FORMAT_FRACTION = inl r /\
    r = t /\ datetime_eq r t = true.
Proof.
  intros Hv Hz HY. exists t.
  pose proof (evsdate_to_datetime_of_printed t Hv HY) as E.
  pose proof (strptime_of_printed t Hv HY) as S1.
  rewrite (naive_of_naive t Hz) in E, S1.
  split; [exact E|]. split; [exact S1|]. split; [reflexivity|].
  apply datetime_eq_refl_naive. exact Hz.
Qed.

Lemma evsdate_roundtrip_naive_witness :
  exists r,
    evsdate_to_datetime (datetime_to_evsdate sample_naive) = inl r /\
    strptime (datetime_to_evsdate sample_naive) FORMAT_FRACTION = inl r /\
    r = sample_naive /\ datetime_eq r sample_naive = true.
Proof.
  apply (evsdate_roundtrip_naive sample_naive); [reflexivity | reflexivity | cbn; lia].
Defined.

(** C10, as stated, fails on an aware datetime: the printed date carries no
    offset, the parsed value is naive, and a naive value never equals an
    aware one.  It also fails on a naive datetime before the year 1000: the
    year is printed on three digits, and both formats want four. *)
Lemma evsdate_roundtrip_counterexample :
  (valid_datetime sample_utc = true /\
   datetime_to_evsdate sample_utc = str_of "2020-01-02T03:04:05.000006" /\
   evsdate_to_datetime (datetime_to_evsdate sample_utc) = inl sample_naive /\
   datetime_eq sample_naive sample_utc = false) /\
  (valid_datetime sample_999 = true /\
   tzinfo sample_999 = None /\
   datetime_to_evsdate sample_999 = str_of "999-01-02T03:04:05.000006" /\
   evsdate_to_datetime (datetime_to_evsdate sample_999)
   = inr (ValueError_strptime
            (does_not_match (str_of "999-01-02T03:04:05.000006") "%Y-%m-%dT%H:%M:%S"))).
Proof.
  split.
  - split; [reflexivity|]. split; [vm_compute; reflexivity|].
    split; [vm_compute; reflexivity | reflexivity].
  - split; [reflexivity|]. split; [reflexivity|]. split; vm_compute; reflexivity.
Qed.

(** * Further properties *)

(** ** Traces only grow *)

Lemma bind_returns {A B} (m : M A) (k : A -> M B) (w w2 : World) (b : B) :
  bind m k w = (Ok b, w2) ->
  exists a w1, m w = (Ok a, w1) /\ k a w1 = (Ok b, w2).
Proof.
  unfold bind. destruct (m w) as [[a|e|] w1]; intros H; try discriminate.
  exists a, w1. split; [reflexivity | exact H].
Qed.

Section Appends.

Variable P : list Event -> Prop.
Hypothesis P_nil : P [].
Hypothesis P_app : forall a b, P a -> P b -> P (a ++ b).

Lemma appends_ret {A} (a : A) : appends P (ret a).
Proof. intros w. exists []. rewrite app_nil_r. split; [reflexivity | exact P_nil]. Qed.

Lemma appends_raise {A} (e : exn) : appends P (@raise A e).
Proof. intros w. exists []. rewrite app_nil_r. split; [reflexivity | exact P_nil]. Qed.

Lemma appends_out_of_fuel {A} : appends P (@out_of_fuel A).
Proof. intros w. exists []. rewrite app_nil_r. split; [reflexivity | exact P_nil]. Qed.

Lemma appends_lift {A} (r : A + exn) : appends P (lift r).
Proof. destruct r; [apply appends_ret | apply appends_raise]. Qed.

Lemma appends_bind {A B} (m : M A) (k : A -> M B) :
  appends P m -> (forall a, appends P (k a)) -> appends P (bind m k).
Proof.
  intros Hm Hk w. unfold bind. destruct (Hm w) as [a1 [E1 P1]].
  destruct (m w) as [[a|e|] w1]; cbn [snd] in E1 |- *.
  - destruct (Hk a w1) as [a2 [E2 P2]]. exists (a1 ++ a2).
    rewrite E2, E1, app_assoc. split; [reflexivity | apply P_app; assumption].
  - exists a1. split; assumption.
  - exists a1. split; assumption.
Qed.

Lemma appends_try_except_else {A B} (body : M A) (handler : exn -> M B) (orelse : A -> M B) :
  appends P body -> (forall e, appends P (handler e)) -> (forall a, appends P (orelse a)) ->
  appends P (try_except_else body handler orelse).
Proof.
  intros Hb Hh Ho w. unfold try_except_else. destruct (Hb w) as [a1 [E1 P1]].
  destruct (body w) as [[a|e|] w1]; cbn [snd] in E1 |- *.
  - destruct (Ho a w1) as [a2 [E2 P2]]. exists (a1 ++ a2).
    rewrite E2, E1, app_assoc. split; [reflexivity | apply P_app; assumption].
  - destruct (Hh e w1) as [a2 [E2 P2]]. exists (a1 ++ a2).
    rewrite E2, E1, app_assoc. split; [reflexivity | apply P_app; assumption].
  - exists a1. split; assumption.
Qed.

Lemma appends_log (e : Event) : P [e] -> appends P (log e).
Proof. intros He w. exists [e]. split; [reflexivity | exact He]. Qed.

Lemma appends_extern {A} (e : Event) (answer : list Event -> A + exn) :
  P [e] -> appends P (extern e answer).
Proof.
  intros He w. exists [e]. split; [|exact He].
  unfold extern, bind, log. destruct (answer (trace w)); reflexivity.
Qed.

Lemma appends_get_handle : appends P get_handle.
Proof. intros w. exists []. rewrite app_nil_r. split; [reflexivity | exact P_nil]. Qed.

Lemma appends_set_handle (h : option Handle) : appends P (set_handle h).
Proof. intros w. exists []. cbn. rewrite app_nil_r. split; [reflexivity | exact P_nil]. Qed.

Lemma appends_set_pid (p : option Z) : appends P (set_pid p).
Proof. intros w. exists []. cbn. rewrite app_nil_r. split; [reflexivity | exact P_nil]. Qed.

End Appends.

Lemma no_close_nil : no_close [].
Proof. reflexivity. Qed.

Lemma no_close_app (a b : list Event) : no_close a -> no_close b -> no_close (a ++ b).
Proof. unfold no_close. intros Ha Hb. rewrite count_app, Ha, Hb. reflexivity. Qed.

Lemma no_launch_nil : no_launch [].
Proof. reflexivity. Qed.

Lemma no_launch_app (a b : list Event) : no_launch a -> no_launch b -> no_launch (a ++ b).
Proof. unfold no_launch. intros Ha Hb. rewrite count_app, Ha, Hb. reflexivity. Qed.

Lemma synchronous_app (os : OS) (tr a b : list Event) :
  synchronous os tr a -> synchronous os (tr ++ a) b -> synchronous os tr (a ++ b).
Proof.
  intros Ha. revert b.
  induction Ha as [tr | tr h frame e rest Hw Hrest IH | tr h frame u size rest Hw Hrest IH
                  | tr h rest Hrest IH]; intros b Hb; cbn [app].
  - rewrite app_nil_r in Hb. exact Hb.
  - apply (sync_refused os tr h frame e); [exact Hw|]. apply IH.
    rewrite <- app_assoc. exact Hb.
  - apply (sync_exchange os tr h frame u); [exact Hw|]. apply IH.
    rewrite <- app_assoc. exact Hb.
  - apply sync_close. apply IH. rewrite <- app_assoc. exact Hb.
Qed.

Lemma synchronous_no_launch (os : OS) (tr added : list Event) :
  synchronous os tr added -> no_launch added.
Proof.
  intros H. induction H; unfold no_launch, count in *; cbn [filter is_popen]; try assumption.
  reflexivity.
Qed.

Section Extends.

Variable P : list Event -> list Event -> Prop.
Hypothesis P_nil : forall tr, P tr [].
Hypothesis P_app : forall tr a b, P tr a -> P (tr ++ a) b -> P tr (a ++ b).

Lemma extends_ret {A} (a : A) : extends P (ret a).
Proof. intros w. exists []. rewrite app_nil_r. split; [reflexivity | apply P_nil]. Qed.

Lemma extends_raise {A} (e : exn) : extends P (@raise A e).
Proof. intros w. exists []. rewrite app_nil_r. split; [reflexivity | apply P_nil]. Qed.

Lemma extends_then {A B} (m : M A) (k : outcome A -> M B) :
  extends P m -> (forall r, extends P (k r)) ->
  extends P (fun w => k (fst (m w)) (snd (m w))).
Proof.
  intros Hm Hk w. destruct (Hm w) as [a1 [E1 P1]].
  destruct (Hk (fst (m w)) (snd (m w))) as [a2 [E2 P2]].
  exists (a1 ++ a2). rewrite E2, E1, app_assoc. split; [reflexivity|].
  apply P_app; [exact P1|]. rewrite <- E1. exact P2.
Qed.

Lemma extends_bind {A B} (m : M A) (k : A -> M B) :
  extends P m -> (forall a, extends P (k a)) -> extends P (bind m k).
Proof.
  intros Hm Hk w.
  destruct (extends_then m
              (fun r => match r with
                        | Ok a => k a
                        | Raise e => raise e
                        | OutOfFuel => out_of_fuel
                        end) Hm) with (w := w) as [added [E Q]].
  - intros [a|e|]; [apply Hk | apply extends_raise |].
    intros w'. exists []. rewrite app_nil_r. split; [reflexivity | apply P_nil].
  - exists added. split; [|exact Q]. rewrite <- E. unfold bind.
    destruct (m w) as [[a|e|] w1]; reflexivity.
Qed.

Lemma extends_try_except_else {A B} (body : M A) (handler : exn -> M B) (orelse : A -> M B) :
  extends P body -> (forall e, extends P (handler e)) -> (forall a, extends P (orelse a)) ->
  extends P (try_except_else body handler orelse).
Proof.
  intros Hb Hh Ho w.
  destruct (extends_then body
              (fun r => match r with
                        | Ok a => orelse a
                        | Raise e => handler e
                        | OutOfFuel => out_of_fuel
                        end) Hb) with (w := w) as [added [E Q]].
  - intros [a|e|]; [apply Ho | apply Hh |].
    intros w'. exists []. rewrite app_nil_r. split; [reflexivity | apply P_nil].
  - exists added. split; [|exact Q]. rewrite <- E. unfold try_except_else.
    destruct (body w) as [[a|e|] w1]; reflexivity.
Qed.

End Extends.

Section Growth.

Variable os : OS.

Lemma connect_loop_no_close (pipeName : string) (fuel : nat) (attempts_remaining : Z) :
  appends no_close (connect_loop os fuel attempts_remaining pipeName).
Proof.
  induction fuel as [|fuel IH]; cbn [connect_loop].
  - apply appends_out_of_fuel. exact no_close_nil.
  - destruct (attempts_remaining >? 0); [|apply appends_ret; exact no_close_nil].
    unfold try_except. apply appends_try_except_else; try exact no_close_app.
    + apply appends_bind; try exact no_close_app.
      * apply appends_extern. reflexivity.
      * intros h. apply appends_set_handle. exact no_close_nil.
    + intros e. apply appends_bind; try exact no_close_app.
      * apply appends_log. reflexivity.
      * intros _. exact IH.
    + intros a. apply appends_ret. exact no_close_nil.
Qed.

Lemma ready_loop_no_close (fuel : nat) :
  forall attempts_remaining, appends no_close (ready_loop os fuel attempts_remaining).
Proof.
  induction fuel as [|fuel IH]; intros attempts_remaining; cbn [ready_loop].
  - apply appends_out_of_fuel. exact no_close_nil.
  - destruct (attempts_remaining >? 0); [|apply appends_ret; exact no_close_nil].
    apply appends_bind; try exact no_close_app.
    + apply appends_get_handle. exact no_close_nil.
    + intros h. apply appends_bind; try exact no_close_app.
      * apply appends_extern. reflexivity.
      * intros res. destruct (py_eq_0 res); [|apply appends_ret; exact no_close_nil].
        apply appends_bind; try exact no_close_app.
        -- apply appends_log. reflexivity.
        -- intros _. apply IH.
Qed.

Lemma init_no_close (fuel : nat) (pid timeout : Z) :
  appends no_close (_EvsProcess__init__ os fuel pid timeout).
Proof.
  unfold _EvsProcess__init__.
  apply appends_bind; try exact no_close_app; [apply appends_set_handle; exact no_close_nil|].
  intros _. apply appends_bind; try exact no_close_app; [apply appends_set_pid; exact no_close_nil|].
  intros _. apply appends_bind; try exact no_close_app; [apply connect_loop_no_close|].
  intros _. apply appends_bind; try exact no_close_app; [apply ready_loop_no_close|].
  intros success. destruct (negb success);
    [apply appends_raise | apply appends_ret]; exact no_close_nil.
Qed.

Lemma start_new_open_no_close (fuel : nat) (timeout : Z) (start_minimized : bool) :
  appends no_close (start_new_open os fuel timeout start_minimized).
Proof.
  unfold start_new_open.
  apply appends_bind; try exact no_close_app; [apply appends_lift; exact no_close_nil|].
  intros exe. cbv zeta.
  apply appends_bind; try exact no_close_app; [apply appends_extern; reflexivity|].
  intros pid. apply appends_bind; try exact no_close_app; [apply appends_log; reflexivity|].
  intros _. apply init_no_close.
Qed.

Lemma connect_to_existing_open_no_close (fuel : nat) (pid timeout : Z) :
  appends no_close (connect_to_existing_open os fuel pid timeout).
Proof.
  unfold connect_to_existing_open.
  apply appends_bind; try exact no_close_app; [apply appends_lift; exact no_close_nil|].
  intros p. apply init_no_close.
Qed.

(** The handle after the loops. *)
Lemma connect_loop_returns_handle (pipeName : string) (fuel : nat) :
  forall w w1,
    connect_loop os fuel 5 pipeName w = (Ok tt, w1) ->
    exists h, self_handle w1 = Some h.
Proof.
  induction fuel as [|fuel IH]; intros w w1; cbn [connect_loop]; [discriminate|].
  change (5 >? 0) with true. cbv iota.
  unfold try_except, try_except_else, bind at 1, win32file_CreateFile, extern, bind at 1, log.
  destruct (CreateFile os (trace w) pipeName) as [h|e]; cbn [lift ret raise].
  - unfold set_handle, ret. intros H. injection H as <-. exists h. reflexivity.
  - unfold bind at 1, sleep, log. apply IH.
Qed.

Lemma ready_loop_keeps_handle (fuel : nat) :
  forall attempts_remaining w,
    self_handle (snd (ready_loop os fuel attempts_remaining w)) = self_handle w.
Proof.
  induction fuel as [|fuel IH]; intros attempts_remaining w; cbn [ready_loop]; [reflexivity|].
  destruct (attempts_remaining >? 0); [|reflexivity].
  unfold bind at 1, get_handle.
  unfold bind at 1, win32pipe_SetNamedPipeHandleState, extern, bind at 1, log.
  destruct (on_handle (self_handle w) _) as [res|e]; cbn [lift ret raise]; [|reflexivity].
  destruct (py_eq_0 res); [|reflexivity].
  unfold bind at 1, sleep, log. rewrite IH. reflexivity.
Qed.

Lemma init_returns_open (fuel : nat) (pid timeout : Z) (w w0 : World) :
  _EvsProcess__init__ os fuel pid timeout w = (Ok tt, w0) ->
  (exists h, self_handle w0 = Some h) /\
  count is_close (trace w0) = count is_close (trace w).
Proof.
  intros H. split.
  - rewrite init_unfold in H.
    destruct (connect_loop os fuel 5 (pipe_name pid) _) as [[[]|e|] w1] eqn:C; try discriminate.
    destruct (connect_loop_returns_handle _ _ _ _ C) as [h Hh].
    pose proof (ready_loop_keeps_handle fuel timeout w1) as K.
    destruct (ready_loop os fuel timeout w1) as [[success|e|] w2]; try discriminate.
    cbn [snd] in K. destruct success; [|discriminate].
    injection H as <-. exists h. rewrite K. exact Hh.
  - destruct (init_no_close fuel pid timeout w) as [added [E Q]].
    rewrite H in E. cbn [snd] in E. rewrite E, count_app, Q. lia.
Qed.

(** Once a flow has opened its connection, the channel is open and nothing
    has been closed. *)
Lemma start_new_open_inv (fuel : nat) (timeout : Z) (start_minimized : bool) (w w0 : World) :
  count is_close (trace w) = 0%nat ->
  start_new_open os fuel timeout start_minimized w = (Ok tt, w0) ->
  channel_inv w0.
Proof.
  intros Hw H.
  destruct (start_new_open_no_close fuel timeout start_minimized w) as [added [E Q]].
  rewrite H in E. cbn [snd] in E.
  unfold start_new_open in H.
  apply bind_returns in H. destruct H as [exe [w1 [_ H]]]. cbv zeta in H.
  apply bind_returns in H. destruct H as [pid [w2 [_ H]]].
  apply bind_returns in H. destruct H as [u [w3 [_ H]]].
  destruct (init_returns_open _ _ _ _ _ H) as [[h Hh] _].
  unfold channel_inv. rewrite Hh, E, count_app, Hw, Q. reflexivity.
Qed.

Lemma connect_to_existing_open_inv (fuel : nat) (pid timeout : Z) (w w0 : World) :
  count is_close (trace w) = 0%nat ->
  connect_to_existing_open os fuel pid timeout w = (Ok tt, w0) ->
  channel_inv w0.
Proof.
  intros Hw H.
  destruct (connect_to_existing_open_no_close fuel pid timeout w) as [added [E Q]].
  rewrite H in E. cbn [snd] in E.
  unfold connect_to_existing_open in H.
  apply bind_returns in H. destruct H as [p [w1 [_ H]]].
  destruct (init_returns_open _ _ _ _ _ H) as [[h Hh] _].
  unfold channel_inv. rewrite Hh, E, count_app, Hw, Q. reflexivity.
Qed.

End Growth.

(** ** The exits of the two flows *)

Section FlowExits.

Variable os : OS.

Lemma flow_run_unfold (f : Flow) (auto_shutdown auto_wait_for_ready : bool) (body : Scope)
    (w : World) :
  flow_run os f auto_shutdown auto_wait_for_ready body w
  = bind (flow_open os f)
         (fun _ => guarded_session os auto_shutdown auto_wait_for_ready body) w.
Proof. destruct f; reflexivity. Qed.

Lemma flow_open_inv (f : Flow) (w w0 : World) :
  count is_close (trace w) = 0%nat ->
  flow_open os f w = (Ok tt, w0) ->
  channel_inv w0.
Proof.
  destruct f as [fuel timeout start_minimized | fuel pid timeout]; cbn [flow_open].
  - apply start_new_open_inv.
  - apply connect_to_existing_open_inv.
Qed.

Lemma flow_open_no_close (f : Flow) : appends no_close (flow_open os f).
Proof.
  destruct f; [apply start_new_open_no_close | apply connect_to_existing_open_no_close].
Qed.

Lemma close_trace (w : World) : trace (snd (close w)) = trace w ++ closing w.
Proof.
  unfold closing. destruct (self_handle w) as [h|] eqn:E.
  - rewrite (close_open w h E). reflexivity.
  - rewrite (close_absent w E). cbn [snd]. rewrite app_nil_r. reflexivity.
Qed.

(** X1. In both flows, when a statement under [try:] raises (the handshake,
    the wait for ready, or the caller's block), the flow raises that same
    exception; after the point of the raise the only call it makes is the
    [CloseHandle] of a still open handle (no shutdown is sent), and the
    channel ends closed exactly once. *)
Theorem flow_reraises_after_close (f : Flow) (auto_shutdown auto_wait_for_ready : bool)
    (body : Scope) (w w0 w1 : World) (e : exn) :
  count is_close (trace w) = 0%nat ->
  flow_open os f w = (Ok tt, w0) ->
  session_body os auto_wait_for_ready body w0 = (Raise e, w1) ->
  fst (flow_run os f auto_shutdown auto_wait_for_ready body w) = Raise e /\
  trace (snd (flow_run os f auto_shutdown auto_wait_for_ready body w))
  = trace w1 ++ closing w1 /\
  closed_once (snd (flow_run os f auto_shutdown auto_wait_for_ready body w)).
Proof.
  intros Hw Hopen Hbody.
  pose proof (flow_open_inv f w w0 Hw Hopen) as Hinv.
  destruct (guarded_session_exits os auto_shutdown auto_wait_for_ready body w0 Hinv)
    as [Hraise _].
  destruct (Hraise e w1 Hbody) as [Hrun Hclosed].
  rewrite flow_run_unfold. unfold bind. rewrite Hopen, Hrun. cbn [fst snd].
  split; [reflexivity|]. split; [apply close_trace | exact Hclosed].
Qed.

(** X2. In both flows, when the statements under [try:] end normally: without
    [auto_shutdown] the flow makes no remote call after the block, closes the
    channel and returns; with [auto_shutdown] and a shutdown call that
    returns, it exchanges exactly the one [Shutdown] frame, closes the channel
    and returns.  Either way the channel ends closed exactly once. *)
Theorem flow_normal_exit (f : Flow) (auto_wait_for_ready : bool) (body : Scope)
    (w w0 w1 : World) :
  count is_close (trace w) = 0%nat ->
  flow_open os f w = (Ok tt, w0) ->
  session_body os auto_wait_for_ready body w0 = (Ok tt, w1) ->
  (fst (flow_run os f false auto_wait_for_ready body w) = Ok tt /\
   trace (snd (flow_run os f false auto_wait_for_ready body w)) = trace w1 ++ closing w1 /\
   closed_once (snd (flow_run os f false auto_wait_for_ready body w))) /\
  (forall v w2,
     shutdown os w1 = (Ok v, w2) ->
     fst (flow_run os f true auto_wait_for_ready body w) = Ok tt /\
     trace (snd (flow_run os f true auto_wait_for_ready body w))
     = trace w1 ++ [EvWriteFile (self_handle w1) (request_frame os "Shutdown" []);
                    EvReadFile (self_handle w1) _bufferSize] ++ closing w1 /\
     closed_once (snd (flow_run os f true auto_wait_for_ready body w))).
Proof.
  intros Hw Hopen Hbody.
  pose proof (flow_open_inv f w w0 Hw Hopen) as Hinv. split.
  - destruct (guarded_session_exits os false auto_wait_for_ready body w0 Hinv)
      as [_ [Hplain _]].
    destruct (Hplain w1 Hbody eq_refl) as [Hrun Hclosed].
    rewrite flow_run_unfold. unfold bind. rewrite Hopen, Hrun. cbn [fst snd].
    split; [reflexivity|]. split; [apply close_trace | exact Hclosed].
  - intros v w2 Hs.
    destruct (guarded_session_exits os true auto_wait_for_ready body w0 Hinv)
      as [_ [_ [Hshut _]]].
    destruct (Hshut w1 v w2 Hbody eq_refl Hs) as [Hrun Hclosed].
    rewrite flow_run_unfold. unfold bind. rewrite Hopen, Hrun. cbn [fst snd].
    split; [reflexivity|]. split; [|exact Hclosed].
    destruct (build_result_returned os "Shutdown" [] w1 w2 v Hs) as [h [Hh ->]].
    rewrite close_trace. unfold closing, after_read, with_trace. cbn [trace self_handle].
    rewrite Hh, <- app_assoc. reflexivity.
Qed.

Lemma build_result_synchronous (method : string) (args : list pyval) :
  extends (synchronous os) (_EvsProcess__build_result os method args).
Proof.
  intros w. rewrite build_result_world, request_unfold.
  destruct (on_handle (self_handle w)
              (fun hd => WriteFile os (trace w) hd (request_frame os method args)))
    as [u|e] eqn:W.
  - exists [EvWriteFile (self_handle w) (request_frame os method args);
            EvReadFile (self_handle w) _bufferSize].
    split.
    + destruct (on_handle (self_handle w)
                  (fun hd => ReadFile os (trace (after_write os method args w)) hd _bufferSize))
        as [r|e]; reflexivity.
    + apply (sync_exchange os (trace w) (self_handle w) _ u); [exact W | apply sync_nil].
  - exists [EvWriteFile (self_handle w) (request_frame os method args)].
    split; [reflexivity|].
    apply (sync_refused os (trace w) (self_handle w) _ e); [exact W | apply sync_nil].
Qed.

Lemma close_synchronous : extends (synchronous os) close.
Proof.
  intros w. exists (closing w). split; [apply close_trace|].
  unfold closing. destruct (self_handle w); [apply sync_close|]; apply sync_nil.
Qed.

Lemma run_scope_synchronous (s : Scope) : extends (synchronous os) (run_scope os s).
Proof.
  induction s as [| e | method args k IH | k IH]; cbn [run_scope].
  - apply (extends_ret (synchronous os) (sync_nil os)).
  - apply (extends_raise (synchronous os) (sync_nil os)).
  - intros w.
    destruct (extends_then (synchronous os) (synchronous_app os)
                (_EvsProcess__build_result os method args)
                (fun r => match r with
                          | Ok v => run_scope os (k (inl v))
                          | Raise e => run_scope os (k (inr e))
                          | OutOfFuel => out_of_fuel
                          end) (build_result_synchronous method args)) with (w := w)
      as [added [E Q]].
    + intros [v|e|]; [apply IH | apply IH |].
      intros w'. exists []. rewrite app_nil_r. split; [reflexivity | apply sync_nil].
    + exists added. split; [|exact Q]. rewrite <- E.
      destruct (_EvsProcess__build_result os method args w) as [[v|e|] w']; reflexivity.
  - apply (extends_bind (synchronous os) (sync_nil os) (synchronous_app os));
      [apply close_synchronous | exact IH].
Qed.

Ltac sync_bind := apply (extends_bind (synchronous _) (sync_nil _) (synchronous_app _)).
Ltac sync_ret := apply (extends_ret (synchronous _) (sync_nil _)).
Ltac sync_raise := apply (extends_raise (synchronous _) (sync_nil _)).

Lemma guarded_session_synchronous (auto_shutdown auto_wait_for_ready : bool) (body : Scope) :
  extends (synchronous os) (guarded_session os auto_shutdown auto_wait_for_ready body).
Proof.
  unfold guarded_session.
  apply (extends_try_except_else (synchronous os) (sync_nil os) (synchronous_app os)).
  - unfold session_body, get_api_version, wait_for_ready.
    sync_bind; [apply build_result_synchronous|].
    intros version. sync_bind.
    + destruct (py_ne_1_0 version); [sync_raise | sync_ret].
    + intros _. sync_bind.
      * destruct auto_wait_for_ready; [|sync_ret].
        sync_bind; [apply build_result_synchronous|]. intros _. sync_ret.
      * intros _. apply run_scope_synchronous.
  - intros e. sync_bind; [apply close_synchronous|]. intros _. sync_raise.
  - intros _. sync_bind.
    + destruct auto_shutdown; [|sync_ret]. unfold shutdown.
      sync_bind; [apply build_result_synchronous|]. intros _. sync_ret.
    + intros _. sync_bind; [apply close_synchronous|]. intros _. sync_ret.
Qed.

Lemma guarded_session_no_launch (auto_shutdown auto_wait_for_ready : bool) (body : Scope) :
  appends no_launch (guarded_session os auto_shutdown auto_wait_for_ready body).
Proof.
  intros w.
  destruct (guarded_session_synchronous auto_shutdown auto_wait_for_ready body w)
    as [added [E Q]].
  exists added. split; [exact E | exact (synchronous_no_launch os _ _ Q)].
Qed.

(** What the shape says of a write: one the system accepted is directly
    followed by a read on the same handle, one it refused is not. *)
Lemma accepted_write_is_read (tr : list Event) (h : option Handle) (frame : list byte)
    (u : unit) (rest : list Event) :
  on_handle h (fun hd => WriteFile os tr hd frame) = inl u ->
  synchronous os tr (EvWriteFile h frame :: rest) ->
  exists size rest', rest = EvReadFile h size :: rest'.
Proof.
  intros Hw H. inversion H as [| tr' h' frame' e rest' Hr _ | tr' h' frame' u' size rest' _ _ |];
    subst.
  - rewrite Hw in Hr. discriminate Hr.
  - exists size, rest'. reflexivity.
Qed.

Lemma refused_write_is_not_read (tr : list Event) (h : option Handle) (frame : list byte)
    (e : exn) (rest : list Event) :
  on_handle h (fun hd => WriteFile os tr hd frame) = inr e ->
  synchronous os tr (EvWriteFile h frame :: rest) ->
  forall h' size rest', rest <> EvReadFile h' size :: rest'.
Proof.
  intros Hw H h1 size1 rest1 ->.
  inversion H as [| tr' h' frame' e' rest' _ Hrest | tr' h' frame' u' size rest' Ha _ |];
    subst.
  - inversion Hrest.
  - rewrite Hw in Ha. discriminate Ha.
Qed.

(** X3. Whatever the options, the caller's block and the remote do, the
    traffic of the guarded part of a flow is strictly one request at a time.
    All it adds to the trace is writes and [CloseHandle]s, and reads placed
    as follows: a write that the system accepted is directly followed by
    exactly one read on the same handle, a write that the system refused
    (it raised) is followed by no read, and no read occurs anywhere else. *)
Theorem session_traffic_synchronous (auto_shutdown auto_wait_for_ready : bool) (body : Scope)
    (w : World) :
  exists added,
    trace (snd (guarded_session os auto_shutdown auto_wait_for_ready body w))
    = trace w ++ added /\
    synchronous os (trace w) added.
Proof. apply guarded_session_synchronous. Qed.

Lemma guarded_session_inv (auto_shutdown auto_wait_for_ready : bool) (body : Scope) (w : World) :
  channel_inv w ->
  channel_inv (snd (guarded_session os auto_shutdown auto_wait_for_ready body w)).
Proof.
  intros Hinv.
  pose proof (session_body_inv os auto_wait_for_ready body w Hinv) as Hb.
  unfold guarded_session, try_except_else.
  destruct (session_body os auto_wait_for_ready body w) as [[[]|e|] w1]; cbn [snd] in Hb.
  - unfold bind at 1. destruct auto_shutdown.
    + unfold bind at 1, shutdown.
      pose proof (build_result_inv os "Shutdown" [] w1 Hb) as Hs.
      destruct (_EvsProcess__build_result os "Shutdown" [] w1) as [[v|e|] w2];
        cbn [snd] in Hs |- *; try exact Hs.
      unfold ret at 1. unfold bind, ret. destruct (close_returns w2) as [b Hc].
      rewrite Hc. cbn [snd]. apply closed_once_inv, close_closed_once. exact Hs.
    + unfold ret at 1. unfold bind, ret. destruct (close_returns w1) as [b Hc].
      rewrite Hc. cbn [snd]. apply closed_once_inv, close_closed_once. exact Hb.
  - unfold bind, raise. destruct (close_returns w1) as [b Hc].
    rewrite Hc. cbn [snd]. apply closed_once_inv, close_closed_once. exact Hb.
  - exact Hb.
Qed.

(** X4. A flow never closes the handle twice and never sets it again once
    closed, whatever the caller's block does with the session object
    (including closing it itself, any number of times) and however the flow
    ends: at the end either no [CloseHandle] was made and the handle is as
    the constructor left it, or exactly one was made and the handle is
    absent. *)
Theorem flow_closes_at_most_once (f : Flow) (auto_shutdown auto_wait_for_ready : bool)
    (body : Scope) (w : World) :
  count is_close (trace w) = 0%nat ->
  let w' := snd (flow_run os f auto_shutdown auto_wait_for_ready body w) in
  (count is_close (trace w') <= 1)%nat /\
  (count is_close (trace w') = 1%nat -> self_handle w' = None) /\
  (forall w0, flow_open os f w = (Ok tt, w0) ->
     (self_handle w' = None <-> count is_close (trace w') = 1%nat)).
Proof.
  intros Hw. cbv zeta. rewrite flow_run_unfold. unfold bind.
  destruct (flow_open_no_close f w) as [added [E Q]].
  destruct (flow_open os f w) as [[[]|e|] w0] eqn:Hopen; cbn [snd] in E |- *.
  - pose proof (guarded_session_inv auto_shutdown auto_wait_for_ready body w0
                  (flow_open_inv f w w0 Hw Hopen)) as Hinv.
    unfold channel_inv in Hinv.
    destruct (self_handle (snd (guarded_session os auto_shutdown auto_wait_for_ready body w0)))
      as [h|].
    + rewrite Hinv. split; [lia|]. split; [discriminate|].
      intros w0' _. split; discriminate.
    + rewrite Hinv. split; [lia|]. split; [reflexivity|].
      intros w0' _. split; reflexivity.
  - rewrite E, count_app, Hw, Q. cbn. split; [lia|]. split; [discriminate|].
    intros w0' H. discriminate.
  - rewrite E, count_app, Hw, Q. cbn. split; [lia|]. split; [discriminate|].
    intros w0' H. discriminate.
Qed.

End FlowExits.

Lemma flow_reraises_after_close_witness :
  fst (flow_run handshake_os (FlowConnectToExisting 5 (-1) 60) true true failing_block
         fresh_world)
  = Raise (PyException "RuntimeError" (PStr "boom")) /\
  trace (snd (flow_run handshake_os (FlowConnectToExisting 5 (-1) 60) true true failing_block
                fresh_world))
  = trace (snd (session_body handshake_os true failing_block connected_2044))
    ++ closing (snd (session_body handshake_os true failing_block connected_2044)) /\
  closed_once (snd (flow_run handshake_os (FlowConnectToExisting 5 (-1) 60) true true
                      failing_block fresh_world)).
Proof.
  apply (flow_reraises_after_close handshake_os (FlowConnectToExisting 5 (-1) 60) true true
           failing_block fresh_world connected_2044
           (snd (session_body handshake_os true failing_block connected_2044))).
  - reflexivity.
  - vm_compute. reflexivity.
  - vm_compute. reflexivity.
Defined.

Example failing_block_trace :
  trace (snd (flow_run handshake_os (FlowConnectToExisting 5 (-1) 60) true true failing_block
                fresh_world))
  = [EvCreateFile "\\.\pipe\EVS_2044"; EvSetNamedPipeHandleState (Some 7);
     EvWriteFile (Some 7) VERSION_FRAME; EvReadFile (Some 7) 65536;
     EvWriteFile (Some 7) WAIT_FRAME; EvReadFile (Some 7) 65536;
     EvWriteFile (Some 7) GET_MODULES_FRAME; EvReadFile (Some 7) 65536;
     EvCloseHandle 7].
Proof. vm_compute. reflexivity. Qed.

Lemma flow_normal_exit_witness :
  (fst (flow_run handshake_os (FlowStartNew 5 300 false) false true list_modules fresh_world)
   = Ok tt /\
   trace (snd (flow_run handshake_os (FlowStartNew 5 300 false) false true list_modules
                 fresh_world))
   = trace (snd (session_body handshake_os true list_modules
                   (snd (flow_open handshake_os (FlowStartNew 5 300 false) fresh_world))))
     ++ [EvCloseHandle 7] /\
   closed_once (snd (flow_run handshake_os (FlowStartNew 5 300 false) false true list_modules
                       fresh_world))) /\
  (fst (flow_run handshake_os (FlowStartNew 5 300 false) true true list_modules fresh_world)
   = Ok tt /\
   trace (snd (flow_run handshake_os (FlowStartNew 5 300 false) true true list_modules
                 fresh_world))
   = trace (snd (session_body handshake_os true list_modules
                   (snd (flow_open handshake_os (FlowStartNew 5 300 false) fresh_world))))
     ++ [EvWriteFile (Some 7) SHUTDOWN_FRAME; EvReadFile (Some 7) 65536; EvCloseHandle 7] /\
   closed_once (snd (flow_run handshake_os (FlowStartNew 5 300 false) true true list_modules
                       fresh_world))).
Proof.
  destruct (flow_normal_exit handshake_os (FlowStartNew 5 300 false) true list_modules
              fresh_world
              (snd (flow_open handshake_os (FlowStartNew 5 300 false) fresh_world))
              (snd (session_body handshake_os true list_modules
                      (snd (flow_open handshake_os (FlowStartNew 5 300 false) fresh_world)))))
    as [Hplain Hshut].
  - reflexivity.
  - vm_compute. reflexivity.
  - vm_compute. reflexivity.
  - split; [exact Hplain|].
    apply (Hshut PNone
             (snd (shutdown handshake_os
                     (snd (session_body handshake_os true list_modules
                             (snd (flow_open handshake_os (FlowStartNew 5 300 false)
                                     fresh_world))))))).
    vm_compute. reflexivity.
Defined.

Lemma flow_closes_at_most_once_witness :
  count is_close
    (trace (snd (flow_run handshake_os (FlowConnectToExisting 5 2044 60) true false
                   closing_block fresh_world))) = 1%nat /\
  self_handle (snd (flow_run handshake_os (FlowConnectToExisting 5 2044 60) true false
                      closing_block fresh_world)) = None.
Proof.
  destruct (flow_closes_at_most_once handshake_os (FlowConnectToExisting 5 2044 60) true false
              closing_block fresh_world eq_refl) as [_ [Hnone _]].
  assert (Hone : count is_close
                   (trace (snd (flow_run handshake_os (FlowConnectToExisting 5 2044 60) true
                                  false closing_block fresh_world))) = 1%nat)
    by (vm_compute; reflexivity).
  split; [exact Hone | exact (Hnone Hone)].
Defined.

Lemma session_traffic_synchronous_witness :
  exists added,
    trace (snd (guarded_session handshake_os true true failing_block connected_2044))
    = trace connected_2044 ++ added /\
    synchronous handshake_os (trace connected_2044) added.
Proof.
  apply (session_traffic_synchronous handshake_os true true failing_block connected_2044).
Defined.

(** ** More on opening the channel *)

Section OpeningMore.

Variable os : OS.

Lemma mode_answer_shift (w : World) (k : nat) :
  mode_answer os
    (with_trace w (trace w ++ [EvSetNamedPipeHandleState (self_handle w); EvSleep 1])) k
  = mode_answer os w (S k).
Proof.
  unfold mode_answer, with_trace. cbn [self_handle trace].
  rewrite rounds_succ, <- !app_assoc. reflexivity.
Qed.

Lemma mode_answer_first (w : World) :
  mode_answer os w 0 = on_handle (self_handle w) (SetNamedPipeHandleState os (trace w)).
Proof. unfold mode_answer. cbn [rounds repeat List.concat]. rewrite app_nil_r. reflexivity. Qed.

Lemma ready_loop_outcomes :
  forall n fuel timeout w,
    Z.to_nat timeout = n ->
    (n < fuel)%nat ->
    let attempt := EvSetNamedPipeHandleState (self_handle w) in
    exists k,
      (forall i, (i < k)%nat ->
         exists v, mode_answer os w i = inl v /\ py_eq_0 v = true) /\
      ((k = n /\
        ready_loop os fuel timeout w
        = (Ok false, with_trace w (trace w ++ rounds attempt n))) \/
       ((k < n)%nat /\
        ready_loop os fuel timeout w
        = (match mode_answer os w k with
           | inl _ => Ok true
           | inr e => Raise e
           end,
           with_trace w (trace w ++ rounds attempt k ++ [attempt])) /\
        (forall v, mode_answer os w k = inl v -> py_eq_0 v = false))).
Proof.
  induction n as [|n IH]; intros fuel timeout w Hn Hfuel; cbv zeta.
  - destruct fuel as [|fuel]; [lia|]. exists O. split; [intros i Hi; lia|].
    left. split; [reflexivity|]. cbn [ready_loop].
    destruct (Z.gtb_spec timeout 0) as [Hpos|_]; [lia|].
    cbn. rewrite app_nil_r, with_trace_same. reflexivity.
  - destruct fuel as [|fuel]; [lia|].
    assert (Hpos : 0 < timeout) by lia.
    rewrite (ready_loop_step os fuel timeout w Hpos).
    destruct (on_handle (self_handle w) (SetNamedPipeHandleState os (trace w))) as [res|e] eqn:A.
    + destruct (py_eq_0 res) eqn:Z0.
      * assert (Hn1 : Z.to_nat (timeout - 1) = n) by lia.
        assert (Hf1 : (n < fuel)%nat) by lia.
        destruct (IH fuel (timeout - 1)
                    (with_trace w (trace w ++ [EvSetNamedPipeHandleState (self_handle w);
                                               EvSleep 1])) Hn1 Hf1)
          as [k [Hbefore Hend]].
        cbn [with_trace self_handle self_pid trace] in Hend.
        exists (S k). split.
        -- intros [|i] Hi.
           ++ exists res. rewrite mode_answer_first. split; assumption.
           ++ rewrite <- mode_answer_shift. apply Hbefore. lia.
        -- rewrite <- mode_answer_shift.
           destruct Hend as [[-> E] | [Hk [E Hv]]].
           ++ left. split; [reflexivity|]. rewrite E. unfold with_trace.
              cbn [self_handle self_pid trace]. rewrite rounds_succ, <- !app_assoc. reflexivity.
           ++ right. split; [lia|]. split; [|exact Hv]. rewrite E. unfold with_trace.
              cbn [self_handle self_pid trace]. rewrite rounds_succ, <- !app_assoc. reflexivity.
      * exists O. split; [intros i Hi; lia|]. right. split; [lia|].
        rewrite mode_answer_first, A. split; [reflexivity|].
        intros v Hv. injection Hv as <-. exact Z0.
    + exists O. split; [intros i Hi; lia|]. right. split; [lia|].
      rewrite mode_answer_first, A. split; [reflexivity|]. intros v Hv. discriminate Hv.
Qed.

(** X5. Whatever the pipe answers, the second loop of the constructor ends
    within [timeout] attempts, and the answers decide how.  There is an
    attempt [k] before which every call answered a value equal to 0 and was
    followed by a sleep of one second; either [k] is [timeout] (none when it
    is not positive) and the loop reports failure, or [k < timeout] and the
    loop stopped at once at attempt [k]: with success when that call answered
    a value, which is then not equal to 0, and with the exception when that
    call raised (an exception is not retried). *)
Theorem ready_loop_ends_within_timeout (fuel : nat) (timeout : Z) (w : World) :
  (Z.to_nat timeout < fuel)%nat ->
  let attempt := EvSetNamedPipeHandleState (self_handle w) in
  exists k,
    (forall i, (i < k)%nat ->
       exists v, mode_answer os w i = inl v /\ py_eq_0 v = true) /\
    ((k = Z.to_nat timeout /\
      ready_loop os fuel timeout w
      = (Ok false, with_trace w (trace w ++ rounds attempt (Z.to_nat timeout)))) \/
     ((k < Z.to_nat timeout)%nat /\
      ready_loop os fuel timeout w
      = (match mode_answer os w k with
         | inl _ => Ok true
         | inr e => Raise e
         end,
         with_trace w (trace w ++ rounds attempt k ++ [attempt])) /\
      (forall v, mode_answer os w k = inl v -> py_eq_0 v = false))).
Proof.
  intros Hfuel. apply (ready_loop_outcomes (Z.to_nat timeout)); [reflexivity | exact Hfuel].
Qed.

(** X6. With a timeout of zero or less the constructor refuses the connection
    even when the pipe opens and is ready: it makes the one [CreateFile],
    never calls [SetNamedPipeHandleState], raises the connection-refused
    [ValueError], and leaves the handle it opened set. *)
Theorem init_refuses_without_timeout (fuel : nat) (pid timeout : Z) (w : World) (h : Handle) :
  timeout <= 0 ->
  (0 < fuel)%nat ->
  CreateFile os (trace w) (pipe_name pid) = inl h ->
  _EvsProcess__init__ os fuel pid timeout w
  = (Raise (ValueError (PStr MSG_REFUSED)),
     {| self_handle := Some h; self_pid := Some pid;
        trace := trace w ++ [EvCreateFile (pipe_name pid)] |}).
Proof.
  intros Ht Hfuel Hc. destruct fuel as [|fuel]; [lia|].
  rewrite init_unfold.
  rewrite (connect_loop_first_try os (pipe_name pid) h fuel
             {| self_handle := None; self_pid := Some pid; trace := trace w |} Hc).
  cbn [ready_loop trace self_pid].
  destruct (Z.gtb_spec timeout 0) as [Hpos|_]; [lia|]. reflexivity.
Qed.

Lemma connect_loop_opens_at (pipeName : string) (h : Handle) :
  forall j fuel w,
    (j < fuel)%nat ->
    (forall i, (i < j)%nat ->
       exists e, CreateFile os (trace w ++ rounds (EvCreateFile pipeName) i) pipeName = inr e) ->
    CreateFile os (trace w ++ rounds (EvCreateFile pipeName) j) pipeName = inl h ->
    connect_loop os fuel 5 pipeName w
    = (Ok tt, {| self_handle := Some h; self_pid := self_pid w;
                 trace := trace w ++ rounds (EvCreateFile pipeName) j
                                  ++ [EvCreateFile pipeName] |}).
Proof.
  induction j as [|j IH]; intros fuel w Hfuel Hbefore Hat.
  - destruct fuel as [|fuel]; [lia|].
    cbn [rounds repeat List.concat] in Hat. rewrite app_nil_r in Hat.
    rewrite (connect_loop_first_try os pipeName h fuel w Hat). reflexivity.
  - destruct fuel as [|fuel]; [lia|]. cbn [connect_loop].
    change (5 >? 0) with true. cbv iota.
    unfold try_except, try_except_else, bind at 1, win32file_CreateFile, extern, bind at 1, log.
    destruct (Hbefore O) as [e He]; [lia|].
    cbn [rounds repeat List.concat] in He. rewrite app_nil_r in He.
    rewrite He. cbn [lift raise].
    unfold bind at 1, sleep, log.
    rewrite (IH fuel); cbn [trace self_handle self_pid].
    + rewrite rounds_succ, <- !app_assoc. reflexivity.
    + lia.
    + intros i Hi. destruct (Hbefore (S i)) as [e' He']; [lia|].
      exists e'. rewrite rounds_succ in He'. rewrite <- !app_assoc. exact He'.
    + rewrite rounds_succ in Hat. rewrite <- !app_assoc. exact Hat.
Qed.

(** X7. The constructor keeps retrying [CreateFile] once per second for as
    long as it takes: when the pipe opens only at attempt [j] (counted from
    0, five or more included) and is then ready, the constructor returns
    with the handle set after [j] refused attempts, each followed by a sleep
    of one second. *)
Theorem init_opens_late (fuel : nat) (pid timeout : Z) (w : World) (h : Handle) (j : nat)
    (res : pyval) :
  let create := EvCreateFile (pipe_name pid) in
  (j < fuel)%nat ->
  0 < timeout ->
  (forall i, (i < j)%nat ->
     exists e, CreateFile os (trace w ++ rounds create i) (pipe_name pid) = inr e) ->
  CreateFile os (trace w ++ rounds create j) (pipe_name pid) = inl h ->
  SetNamedPipeHandleState os (trace w ++ rounds create j ++ [create]) h = inl res ->
  py_eq_0 res = false ->
  _EvsProcess__init__ os fuel pid timeout w
  = (Ok tt,
     {| self_handle := Some h; self_pid := Some pid;
        trace := trace w ++ rounds create j
                         ++ [create; EvSetNamedPipeHandleState (Some h)] |}).
Proof.
  intros create Hfuel Ht Hbefore Hat Hmode Hres.
  rewrite init_unfold.
  rewrite (connect_loop_opens_at (pipe_name pid) h j fuel
             {| self_handle := None; self_pid := Some pid; trace := trace w |}
             Hfuel Hbefore Hat).
  cbn [trace self_pid]. destruct fuel as [|fuel]; [lia|]. cbn [ready_loop].
  destruct (Z.gtb_spec timeout 0) as [_|Hneg]; [|lia].
  unfold bind at 1, get_handle. cbn [self_handle].
  unfold bind at 1, win32pipe_SetNamedPipeHandleState, extern, bind at 1, log.
  cbn [on_handle trace self_handle self_pid]. fold create. rewrite Hmode. cbn [lift ret].
  rewrite Hres. unfold ret. rewrite <- !app_assoc. reflexivity.
Qed.

Lemma init_fails_raises (fuel : nat) (pid timeout : Z) (w : World) (h : Handle) (e : exn)
    (tr : list Event) :
  (0 < fuel)%nat ->
  CreateFile os (trace w) (pipe_name pid) = inl h ->
  init_fails os timeout (trace w ++ [EvCreateFile (pipe_name pid)]) h e tr ->
  _EvsProcess__init__ os fuel pid timeout w
  = (Raise e, {| self_handle := Some h; self_pid := Some pid; trace := tr |}).
Proof.
  intros Hfuel Hc Hfail. destruct fuel as [|fuel]; [lia|].
  rewrite init_unfold.
  rewrite (connect_loop_first_try os (pipe_name pid) h fuel
             {| self_handle := None; self_pid := Some pid; trace := trace w |} Hc).
  cbn [trace self_pid]. destruct Hfail as [Ht | e Ht He].
  - cbn [ready_loop]. destruct (Z.gtb_spec timeout 0) as [Hpos|_]; [lia|]. reflexivity.
  - rewrite (ready_loop_step os fuel timeout _ Ht). cbn [self_handle self_pid trace on_handle].
    rewrite He. reflexivity.
Qed.

(** X8. When the constructor fails inside a flow on a pipe that has opened
    (its mode call raises, or [timeout] is not positive and it refuses the
    connection outright), the flow raises that exception from outside its
    [try]: no handshake is sent, [close] is not called, and the handle opened
    by [CreateFile] stays set. *)
Theorem refused_flow_leaves_handle_open (fuel : nat) (auto_shutdown : bool) (timeout : Z)
    (auto_wait_for_ready : bool) (body : Scope) (w : World) (h : Handle) :
  (0 < fuel)%nat ->
  (forall pid p e tr,
     _set_or_find_pid (process_iter os) pid = inl p ->
     CreateFile os (trace w) (pipe_name p) = inl h ->
     init_fails os timeout (trace w ++ [EvCreateFile (pipe_name p)]) h e tr ->
     connect_to_existing os fuel pid auto_shutdown timeout auto_wait_for_ready body w
     = (Raise e, {| self_handle := Some h; self_pid := Some p; trace := tr |})) /\
  (forall start_minimized exe p e tr,
     find_evs_executable_path os = inl exe ->
     Popen os (trace w) (launch_args exe start_minimized) = inl p ->
     CreateFile os (trace w ++ [EvPopen (launch_args exe start_minimized); EvSleep 1])
       (pipe_name p) = inl h ->
     init_fails os timeout
       (trace w ++ [EvPopen (launch_args exe start_minimized); EvSleep 1;
                    EvCreateFile (pipe_name p)]) h e tr ->
     start_new os fuel auto_shutdown timeout auto_wait_for_ready start_minimized body w
     = (Raise e, {| self_handle := Some h; self_pid := Some p; trace := tr |})).
Proof.
  intros Hfuel. split.
  - intros pid p e tr Hp Hc Hfail.
    unfold connect_to_existing, connect_to_existing_open, bind at 1, bind at 1.
    rewrite Hp. cbn [lift ret].
    rewrite (init_fails_raises fuel p timeout w h e tr Hfuel Hc Hfail). reflexivity.
  - intros start_minimized exe p e tr Hexe Hpopen Hc Hfail.
    unfold start_new, start_new_open, bind at 1, bind at 1.
    rewrite Hexe. cbn [lift ret].
    assert (Hargs : (if start_minimized then [exe; "-n"; "-w"; "-m"] else [exe; "-n"; "-w"])
                    = launch_args exe start_minimized) by (destruct start_minimized; reflexivity).
    rewrite Hargs.
    unfold bind at 1, subprocess_Popen, extern, bind at 1, log. rewrite Hpopen. cbn [lift ret].
    unfold bind at 1, sleep, log. cbn [trace self_handle self_pid].
    rewrite (init_fails_raises fuel p timeout _ h e tr Hfuel); cbn [trace].
    + reflexivity.
    + rewrite <- app_assoc. exact Hc.
    + rewrite <- !app_assoc. exact Hfail.
Qed.

End OpeningMore.

Lemma ready_loop_ends_within_timeout_witness :
  ready_loop mode_refused_os 10 5 (open_world 7 2044)
  = (Raise (pywintypes_error ERROR_BROKEN_PIPE),
     {| self_handle := Some 7; self_pid := Some 2044;
        trace := [EvSetNamedPipeHandleState (Some 7)] |}) /\
  ready_loop (ready_os []) 10 5 (open_world 7 2044)
  = (Ok true,
     {| self_handle := Some 7; self_pid := Some 2044;
        trace := [EvSetNamedPipeHandleState (Some 7)] |}).
Proof.
  assert (Hfuel : (Z.to_nat 5 < 10)%nat) by (vm_compute; lia).
  split.
  - destruct (ready_loop_ends_within_timeout mode_refused_os 10 5 (open_world 7 2044) Hfuel)
      as [k [Hbefore [[Hk _] | [_ [Hrun _]]]]].
    + exfalso. subst k. destruct (Hbefore O) as [v [Hv _]]; [vm_compute; lia|]. discriminate Hv.
    + destruct k as [|k].
      * exact Hrun.
      * exfalso. destruct (Hbefore O) as [v [Hv _]]; [lia|]. discriminate Hv.
  - destruct (ready_loop_ends_within_timeout (ready_os []) 10 5 (open_world 7 2044) Hfuel)
      as [k [Hbefore [[Hk _] | [_ [Hrun _]]]]].
    + exfalso. subst k. destruct (Hbefore O) as [v [Hv Hz]]; [vm_compute; lia|].
      injection Hv as <-. discriminate Hz.
    + destruct k as [|k].
      * exact Hrun.
      * exfalso. destruct (Hbefore O) as [v [Hv Hz]]; [lia|].
        injection Hv as <-. discriminate Hz.
Defined.

Lemma init_refuses_without_timeout_witness :
  _EvsProcess__init__ (ready_os []) 3 2044 0 fresh_world
  = (Raise (ValueError (PStr MSG_REFUSED)),
     {| self_handle := Some 7; self_pid := Some 2044;
        trace := [EvCreateFile "\\.\pipe\EVS_2044"] |}).
Proof.
  apply (init_refuses_without_timeout (ready_os []) 3 2044 0 fresh_world 7);
    [lia | lia | reflexivity].
Defined.

Lemma init_opens_late_witness :
  _EvsProcess__init__ late_pipe_os 10 2044 60 fresh_world
  = (Ok tt,
     {| self_handle := Some 7; self_pid := Some 2044;
        trace := rounds (EvCreateFile "\\.\pipe\EVS_2044") 7
                 ++ [EvCreateFile "\\.\pipe\EVS_2044"; EvSetNamedPipeHandleState (Some 7)] |}).
Proof.
  apply (init_opens_late late_pipe_os 10 2044 60 fresh_world 7 7%nat PNone).
  - lia.
  - lia.
  - intros i Hi. exists (pywintypes_error ERROR_FILE_NOT_FOUND).
    do 7 (destruct i as [|i]; [reflexivity|]). lia.
  - reflexivity.
  - reflexivity.
  - reflexivity.
Defined.

Lemma refused_flow_leaves_handle_open_witness :
  connect_to_existing mode_refused_os 10 (-1) true 3 true list_modules fresh_world
  = (Raise (pywintypes_error ERROR_BROKEN_PIPE),
     {| self_handle := Some 7; self_pid := Some 2044;
        trace := [EvCreateFile "\\.\pipe\EVS_2044"; EvSetNamedPipeHandleState (Some 7)] |}) /\
  start_new (ready_os []) 10 true 0 true false list_modules fresh_world
  = (Raise (ValueError (PStr MSG_REFUSED)),
     {| self_handle := Some 7; self_pid := Some 4242;
        trace := [EvPopen ["C:\EVS\bin\system\EarthVolumetricStudio.exe"; "-n"; "-w"];
                  EvSleep 1; EvCreateFile "\\.\pipe\EVS_4242"] |}).
Proof.
  split.
  - destruct (refused_flow_leaves_handle_open mode_refused_os 10 true 3 true list_modules
                fresh_world 7) as [Hconnect _]; [lia|].
    apply (Hconnect (-1) 2044); [reflexivity | reflexivity |].
    apply (fails_at_mode_call mode_refused_os 3 [EvCreateFile (pipe_name 2044)] 7);
      [lia | reflexivity].
  - destruct (refused_flow_leaves_handle_open (ready_os []) 10 true 0 true list_modules
                fresh_world 7) as [_ Hstart]; [lia|].
    apply (Hstart false "C:\EVS\bin\system\EarthVolumetricStudio.exe" 4242);
      [reflexivity | reflexivity | reflexivity |].
    apply fails_without_timeout. lia.
Defined.

(** ** What the constructor adds to the trace *)

Section LoopsAppend.

Variable os : OS.
Variable P : list Event -> Prop.
Hypothesis P_nil : P [].
Hypothesis P_app : forall a b, P a -> P b -> P (a ++ b).
Hypothesis P_create : forall pipeName, P [EvCreateFile pipeName].
Hypothesis P_sleep : forall seconds, P [EvSleep seconds].
Hypothesis P_mode : forall h, P [EvSetNamedPipeHandleState h].

Lemma connect_loop_appends (pipeName : string) (fuel : nat) (attempts_remaining : Z) :
  appends P (connect_loop os fuel attempts_remaining pipeName).
Proof.
  induction fuel as [|fuel IH]; cbn [connect_loop].
  - apply appends_out_of_fuel. exact P_nil.
  - destruct (attempts_remaining >? 0); [|apply appends_ret; exact P_nil].
    unfold try_except. apply appends_try_except_else; try exact P_app.
    + apply appends_bind; try exact P_app.
      * apply appends_extern. apply P_create.
      * intros h. apply appends_set_handle. exact P_nil.
    + intros e. apply appends_bind; try exact P_app.
      * apply appends_log. apply P_sleep.
      * intros _. exact IH.
    + intros a. apply appends_ret. exact P_nil.
Qed.

Lemma ready_loop_appends (fuel : nat) :
  forall attempts_remaining, appends P (ready_loop os fuel attempts_remaining).
Proof.
  induction fuel as [|fuel IH]; intros attempts_remaining; cbn [ready_loop].
  - apply appends_out_of_fuel. exact P_nil.
  - destruct (attempts_remaining >? 0); [|apply appends_ret; exact P_nil].
    apply appends_bind; try exact P_app.
    + apply appends_get_handle. exact P_nil.
    + intros h. apply appends_bind; try exact P_app.
      * apply appends_extern. apply P_mode.
      * intros res. destruct (py_eq_0 res); [|apply appends_ret; exact P_nil].
        apply appends_bind; try exact P_app.
        -- apply appends_log. apply P_sleep.
        -- intros _. apply IH.
Qed.

Lemma init_appends (fuel : nat) (pid timeout : Z) :
  appends P (_EvsProcess__init__ os fuel pid timeout).
Proof.
  unfold _EvsProcess__init__.
  apply appends_bind; try exact P_app; [apply appends_set_handle; exact P_nil|].
  intros _. apply appends_bind; try exact P_app; [apply appends_set_pid; exact P_nil|].
  intros _. apply appends_bind; try exact P_app; [apply connect_loop_appends|].
  intros _. apply appends_bind; try exact P_app; [apply ready_loop_appends|].
  intros success. destruct (negb success);
    [apply appends_raise | apply appends_ret]; exact P_nil.
Qed.

End LoopsAppend.

Lemma init_no_launch (os : OS) (fuel : nat) (pid timeout : Z) :
  appends no_launch (_EvsProcess__init__ os fuel pid timeout).
Proof.
  apply init_appends; try reflexivity. exact no_launch_app.
Qed.

(** ** How the flows start *)

Section FlowStarts.

Variable os : OS.

(** A computation that continues one whose trace starts with [prefix] keeps
    that start. *)
Lemma bind_keeps_prefix {A B} (P : list Event -> Prop) (m : M A) (k : A -> M B)
    (w : World) (prefix : list Event) :
  (exists rest, trace (snd (m w)) = trace w ++ prefix ++ rest) ->
  (forall a, appends P (k a)) ->
  exists rest, trace (snd (bind m k w)) = trace w ++ prefix ++ rest.
Proof.
  intros [rest E] Hk. unfold bind.
  destruct (m w) as [[a|e|] w1]; cbn [snd] in E |- *.
  - destruct (Hk a w1) as [added [E2 _]]. exists (rest ++ added).
    rewrite E2, E, <- !app_assoc. reflexivity.
  - exists rest. exact E.
  - exists rest. exact E.
Qed.

Lemma connect_loop_first_event (pipeName : string) (fuel : nat) (w : World) :
  exists rest,
    trace (snd (connect_loop os (S fuel) 5 pipeName w))
    = trace w ++ [EvCreateFile pipeName] ++ rest.
Proof.
  cbn [connect_loop]. change (5 >? 0) with true. cbv iota.
  unfold try_except, try_except_else, bind at 1, win32file_CreateFile, extern, bind at 1, log.
  destruct (CreateFile os (trace w) pipeName) as [h|e]; cbn [lift ret raise].
  - exists []. reflexivity.
  - assert (Hk : appends no_close
                   (bind (sleep 1) (fun _ => connect_loop os fuel 5 pipeName))).
    { apply appends_bind; [exact no_close_app | apply appends_log; reflexivity |].
      intros _. apply connect_loop_no_close. }
    destruct (Hk {| self_handle := self_handle w; self_pid := self_pid w;
                    trace := trace w ++ [EvCreateFile pipeName] |}) as [added [E _]].
    cbn [trace] in E. exists added. rewrite E, <- app_assoc. reflexivity.
Qed.

Lemma init_first_event (fuel : nat) (pid timeout : Z) (w : World) :
  exists rest,
    trace (snd (_EvsProcess__init__ os (S fuel) pid timeout w))
    = trace w ++ [EvCreateFile (pipe_name pid)] ++ rest.
Proof.
  rewrite init_unfold.
  destruct (connect_loop_first_event (pipe_name pid) fuel
              {| self_handle := None; self_pid := Some pid; trace := trace w |}) as [rest E].
  cbn [trace] in E.
  destruct (connect_loop os (S fuel) 5 (pipe_name pid) _) as [[[]|e|] w1]; cbn [snd] in E |- *.
  - destruct (ready_loop_no_close os (S fuel) timeout w1) as [added [E2 _]].
    destruct (ready_loop os (S fuel) timeout w1) as [[success|e|] w2]; cbn [snd] in E2 |- *.
    + exists (rest ++ added). destruct success; cbn [snd]; rewrite E2, E, <- !app_assoc;
        reflexivity.
    + exists (rest ++ added). rewrite E2, E, <- !app_assoc. reflexivity.
    + exists (rest ++ added). rewrite E2, E, <- !app_assoc. reflexivity.
  - exists rest. exact E.
  - exists rest. exact E.
Qed.

Lemma bind_keeps_start {A B} (P : list Event -> Prop) (m : M A) (k : A -> M B)
    (w : World) (prefix : list Event) :
  (forall a b, P a -> P b -> P (a ++ b)) ->
  (exists rest, trace (snd (m w)) = trace w ++ prefix ++ rest /\ P rest) ->
  (forall a, appends P (k a)) ->
  exists rest, trace (snd (bind m k w)) = trace w ++ prefix ++ rest /\ P rest.
Proof.
  intros P_app [rest [E Q]] Hk. unfold bind.
  destruct (m w) as [[a|e|] w1]; cbn [snd] in E |- *.
  - destruct (Hk a w1) as [added [E2 Q2]]. exists (rest ++ added).
    rewrite E2, E, <- !app_assoc. split; [reflexivity | apply P_app; assumption].
  - exists rest. split; assumption.
  - exists rest. split; assumption.
Qed.

(** With fuel for one round, the constructor starts with [CreateFile] and
    launches nothing. *)
Lemma init_first_event_only (fuel : nat) (pid timeout : Z) (w : World) :
  exists rest,
    trace (snd (_EvsProcess__init__ os (S fuel) pid timeout w))
    = trace w ++ [EvCreateFile (pipe_name pid)] ++ rest /\ no_launch rest.
Proof.
  destruct (init_first_event fuel pid timeout w) as [rest E].
  destruct (init_no_launch os (S fuel) pid timeout w) as [added [E2 Q]].
  exists rest. split; [exact E|].
  rewrite E in E2. apply app_inv_head in E2. subst added.
  unfold no_launch in *. rewrite count_app in Q. cbn in Q. exact Q.
Qed.

(** X9. [connect_to_existing] resolves the process before it touches
    anything: when the resolution fails (no process of the known name for
    the hint [-1], no live process for another hint) the flow raises that
    [ValueError] with the trace untouched, and when it succeeds the first
    call of the flow is [CreateFile] on the pipe named after the resolved
    pid. *)
Theorem connect_to_existing_resolves_first (fuel : nat) (pid : Z) (auto_shutdown : bool)
    (timeout : Z) (auto_wait_for_ready : bool) (body : Scope) (w : World) :
  (pid = -1 ->
     (forall q, In q (process_iter os) -> proc_name q <> EVS_EXE) ->
     connect_to_existing os fuel pid auto_shutdown timeout auto_wait_for_ready body w
     = (Raise (ValueError (PStr MSG_NOT_FOUND)), w)) /\
  (pid <> -1 ->
     (forall p, In p (process_iter os) -> proc_pid p <> pid) ->
     connect_to_existing os fuel pid auto_shutdown timeout auto_wait_for_ready body w
     = (Raise (ValueError (PStr MSG_INVALID_PID)), w)) /\
  (forall p,
     _set_or_find_pid (process_iter os) pid = inl p ->
     (0 < fuel)%nat ->
     exists rest,
       trace (snd (connect_to_existing os fuel pid auto_shutdown timeout auto_wait_for_ready
                     body w))
       = trace w ++ [EvCreateFile (pipe_name p)] ++ rest).
Proof.
  split; [|split].
  - intros -> Hnone.
    unfold connect_to_existing, connect_to_existing_open, bind, _set_or_find_pid.
    cbn [Z.eqb]. rewrite (scan_processes_no_match (process_iter os) None Hnone). reflexivity.
  - intros Hne Hdead.
    unfold connect_to_existing, connect_to_existing_open, bind, _set_or_find_pid.
    destruct (Z.eqb_spec pid (-1)) as [E|_]; [contradiction|].
    rewrite (psutil_Process_dead (process_iter os) pid Hdead). reflexivity.
  - intros p Hp Hfuel. destruct fuel as [|fuel]; [lia|].
    unfold connect_to_existing.
    apply (bind_keeps_prefix no_launch); [|intros a; apply (guarded_session_no_launch os)].
    unfold connect_to_existing_open, bind at 1. rewrite Hp. cbn [lift ret].
    apply init_first_event.
Qed.

(** X10. [start_new] launches the child exactly once, with the flags [-n]
    and [-w] and with [-m] exactly when [start_minimized] is set, sleeps one
    second, and only then makes its first attempt on the pipe named after the
    child's pid; nothing it does afterwards launches a process.  When the
    executable is not found nothing is launched, and when the launch fails no
    pipe is opened. *)
Theorem start_new_launch_sequence (fuel : nat) (auto_shutdown : bool) (timeout : Z)
    (auto_wait_for_ready start_minimized : bool) (body : Scope) (w : World) :
  (forall e,
     find_evs_executable_path os = inr e ->
     start_new os fuel auto_shutdown timeout auto_wait_for_ready start_minimized body w
     = (Raise e, w)) /\
  (forall exe e,
     find_evs_executable_path os = inl exe ->
     Popen os (trace w) (launch_args exe start_minimized) = inr e ->
     start_new os fuel auto_shutdown timeout auto_wait_for_ready start_minimized body w
     = (Raise e, with_trace w (trace w ++ [EvPopen (launch_args exe start_minimized)]))) /\
  (forall exe p,
     find_evs_executable_path os = inl exe ->
     Popen os (trace w) (launch_args exe start_minimized) = inl p ->
     (0 < fuel)%nat ->
     exists rest,
       trace (snd (start_new os fuel auto_shutdown timeout auto_wait_for_ready
                     start_minimized body w))
       = trace w ++ [EvPopen (launch_args exe start_minimized); EvSleep 1;
                     EvCreateFile (pipe_name p)] ++ rest /\
       count is_popen rest = 0%nat).
Proof.
  assert (Hargs : forall exe,
            (if start_minimized then [exe; "-n"; "-w"; "-m"] else [exe; "-n"; "-w"])
            = launch_args exe start_minimized) by (intros exe; destruct start_minimized; reflexivity).
  split; [|split].
  - intros e He. unfold start_new, start_new_open, bind. rewrite He. reflexivity.
  - intros exe e Hexe Hpopen.
    unfold start_new, start_new_open, bind at 1, bind at 1. rewrite Hexe. cbn [lift ret].
    rewrite Hargs. unfold bind at 1, subprocess_Popen, extern, bind at 1, log.
    rewrite Hpopen. reflexivity.
  - intros exe p Hexe Hpopen Hfuel. destruct fuel as [|fuel]; [lia|].
    unfold start_new.
    apply (bind_keeps_start no_launch);
      [exact no_launch_app | | intros a; apply (guarded_session_no_launch os)].
    unfold start_new_open, bind at 1. rewrite Hexe. cbn [lift ret]. rewrite Hargs.
    unfold bind at 1, subprocess_Popen, extern, bind at 1, log. rewrite Hpopen. cbn [lift ret].
    unfold bind at 1, sleep, log.
    destruct (init_first_event_only fuel p timeout
                {| self_handle := self_handle w; self_pid := self_pid w;
                   trace := (trace w ++ [EvPopen (launch_args exe start_minimized)])
                            ++ [EvSleep 1] |}) as [rest [E Q]].
    cbn [trace self_handle self_pid] in E |- *. exists rest.
    rewrite E, <- !app_assoc. split; [reflexivity | exact Q].
Qed.

End FlowStarts.

Lemma connect_to_existing_resolves_first_witness :
  connect_to_existing (ready_os []) 5 999 false 60 true list_modules fresh_world
  = (Raise (ValueError (PStr MSG_INVALID_PID)), fresh_world) /\
  connect_to_existing (scripted_os 7 0 (fun _ => PNone) [] []) 5 (-1) false 60 true
    list_modules fresh_world
  = (Raise (ValueError (PStr MSG_NOT_FOUND)), fresh_world).
Proof.
  split.
  - destruct (connect_to_existing_resolves_first (ready_os []) 5 999 false 60 true
                list_modules fresh_world) as [_ [Hdead _]].
    apply Hdead; [lia|].
    cbn. intros p Hp. repeat (destruct Hp as [<- | Hp]; [cbn; lia|]). destruct Hp.
  - destruct (connect_to_existing_resolves_first (scripted_os 7 0 (fun _ => PNone) [] [])
                5 (-1) false 60 true list_modules fresh_world) as [Hnone _].
    apply Hnone; [reflexivity|]. intros q [].
Defined.

Lemma start_new_launch_sequence_witness :
  exists rest,
    trace (snd (start_new handshake_os 5 false 300 true true SReturn fresh_world))
    = [EvPopen ["C:\EVS\bin\system\EarthVolumetricStudio.exe"; "-n"; "-w"; "-m"]; EvSleep 1;
       EvCreateFile "\\.\pipe\EVS_4242"] ++ rest /\
    count is_popen rest = 0%nat.
Proof.
  destruct (start_new_launch_sequence handshake_os 5 false 300 true true SReturn fresh_world)
    as [_ [_ H]].
  apply (H "C:\EVS\bin\system\EarthVolumetricStudio.exe" 4242); [reflexivity | reflexivity | lia].
Defined.

Example start_new_minimized_trace :
  trace (snd (start_new handshake_os 5 false 300 true true SReturn fresh_world))
  = [EvPopen ["C:\EVS\bin\system\EarthVolumetricStudio.exe"; "-n"; "-w"; "-m"]; EvSleep 1;
     EvCreateFile "\\.\pipe\EVS_4242"; EvSetNamedPipeHandleState (Some 7);
     EvWriteFile (Some 7) VERSION_FRAME; EvReadFile (Some 7) 65536;
     EvWriteFile (Some 7) WAIT_FRAME; EvReadFile (Some 7) 65536;
     EvCloseHandle 7].
Proof. vm_compute. reflexivity. Qed.

(** ** More on the calls *)

Section Calls.

Variable os : OS.

(** X11. What [__build_result] makes of every decoded response.  A response
    that is not an object raises [TypeError]; an object without [Success]
    raises [KeyError]; otherwise the truth value of [Success] decides (so a
    non-empty string or a non-zero number counts as success): when true the
    call returns [Value], or raises [KeyError] when [Value] is missing; when
    false it raises [ValueError] with [Error], or [KeyError] when [Error] is
    missing. *)
Theorem build_result_of_response (method : string) (args : list pyval) (w w' : World)
    (res : pyval) :
  _EvsProcess__request os method args w = (Ok res, w') ->
  ((forall items, res <> PDict items) ->
     _EvsProcess__build_result os method args w = (Raise TypeError, w')) /\
  (forall items,
     res = PDict items ->
     (lookup_key "Success" items = None ->
        _EvsProcess__build_result os method args w = (Raise (KeyError "Success"), w')) /\
     (forall s,
        lookup_key "Success" items = Some s ->
        truthy s = true ->
        (lookup_key "Value" items = None ->
           _EvsProcess__build_result os method args w = (Raise (KeyError "Value"), w')) /\
        (forall v, lookup_key "Value" items = Some v ->
           _EvsProcess__build_result os method args w = (Ok v, w'))) /\
     (forall s,
        lookup_key "Success" items = Some s ->
        truthy s = false ->
        (lookup_key "Error" items = None ->
           _EvsProcess__build_result os method args w = (Raise (KeyError "Error"), w')) /\
        (forall err, lookup_key "Error" items = Some err ->
           _EvsProcess__build_result os method args w = (Raise (ValueError err), w')))).
Proof.
  intros Hreq. rewrite build_result_unfold, Hreq. split.
  - intros Hnot. destruct res; try reflexivity. exfalso. exact (Hnot items eq_refl).
  - intros items ->. cbn [subscript]. split; [|split].
    + intros ->. reflexivity.
    + intros s -> Hs. rewrite Hs. split.
      * intros ->. reflexivity.
      * intros v ->. reflexivity.
    + intros s -> Hs. rewrite Hs. split.
      * intros ->. reflexivity.
      * intros err ->. reflexivity.
Qed.


(** X13. [get_module_position] never returns a position: when the remote call
    returns a value, reading its attribute [X] raises [AttributeError], and
    when the call raises, that exception is the outcome; either way nothing
    is done after the one call. *)
Theorem get_module_position_never_returns (py_int : pyval -> pyval + exn) (module : pyval)
    (w : World) :
  (forall result w',
     _EvsProcess__build_result os "GetModulePosition" [module] w = (Ok result, w') ->
     get_module_position os py_int module w
     = (Raise (PyException "AttributeError" (PStr "X")), w')) /\
  (forall e w',
     _EvsProcess__build_result os "GetModulePosition" [module] w = (Raise e, w') ->
     get_module_position os py_int module w = (Raise e, w')) /\
  (forall position, fst (get_module_position os py_int module w) <> Ok position).
Proof.
  assert (Hun : get_module_position os py_int module w
                = match _EvsProcess__build_result os "GetModulePosition" [module] w with
                  | (Ok _, w') => (Raise (PyException "AttributeError" (PStr "X")), w')
                  | (Raise e, w') => (Raise e, w')
                  | (OutOfFuel, w') => (OutOfFuel, w')
                  end).
  { unfold get_module_position, bind.
    destruct (_EvsProcess__build_result os "GetModulePosition" [module] w) as [[result|e|] w'];
      reflexivity. }
  rewrite Hun. split; [|split].
  - intros result w' ->. reflexivity.
  - intros e w' ->. reflexivity.
  - intros position.
    destruct (_EvsProcess__build_result os "GetModulePosition" [module] w) as [[result|e|] w'];
      discriminate.
Qed.

End Calls.

Lemma build_result_of_response_witness :
  fst (_EvsProcess__build_result stray_os "GetValue" [] (open_world 7 2044)) = Ok (PInt 3).
Proof.
  destruct (build_result_of_response stray_os "GetValue" [] (open_world 7 2044)
              (snd (_EvsProcess__request stray_os "GetValue" [] (open_world 7 2044)))
              (PDict [("Success", PStr "false"); ("Value", PInt 3)])) as [_ H].
  - vm_compute. reflexivity.
  - destruct (H [("Success", PStr "false"); ("Value", PInt 3)] eq_refl) as [_ [Htrue _]].
    destruct (Htrue (PStr "false") eq_refl eq_refl) as [_ Hvalue].
    rewrite (Hvalue (PInt 3) eq_refl). reflexivity.
Defined.

Example get_module_position_on_object :
  fst (get_module_position position_os int_of_int (PStr "kriging") (open_world 7 2044))
  = Raise (PyException "AttributeError" (PStr "X")).
Proof. vm_compute. reflexivity. Qed.

(** ** More on scripting dates *)

(** *** Printing is injective *)

Lemma date_tail_length (t : datetime) : List.length (date_tail t) = 22%nat.
Proof. reflexivity. Qed.

(** With zeros in front of a short year, a printed date is the date with the
    year on four digits. *)
Lemma printed_padded (t : datetime) :
  valid_datetime t = true ->
  repeat 48%N (4 - List.length (decimal (year t))) ++ datetime_to_evsdate t
  = pad4 (year t) (date_tail t).
Proof.
  intros Hv. destruct (valid_datetime_bounds t Hv) as [HY _].
  destruct (year_text (year t) HY) as [_ P].
  rewrite datetime_to_evsdate_digits, app_assoc, P. reflexivity.
Qed.

Lemma same_fields_eq (a b : datetime) :
  same_fields a b = true -> tzinfo a = tzinfo b -> a = b.
Proof.
  destruct a as [Y m d H M S f z], b as [Y' m' d' H' M' S' f' z'].
  unfold same_fields. cbn [year month day hour minute second microsecond tzinfo].
  intros E Hz.
  repeat (apply andb_true_iff in E; destruct E as [E ?]).
  repeat match goal with
         | Hq : (_ =? _) = true |- _ => apply Z.eqb_eq in Hq
         end.
  subst. reflexivity.
Qed.

Lemma printed_injective (a b : datetime) :
  valid_datetime a = true -> valid_datetime b = true ->
  datetime_to_evsdate a = datetime_to_evsdate b ->
  naive a = naive b.
Proof.
  intros Va Vb E.
  assert (L : List.length (decimal (year a)) = List.length (decimal (year b))).
  { pose proof (f_equal (@List.length N) E) as EL.
    rewrite !datetime_to_evsdate_digits, !length_app, !date_tail_length in EL. lia. }
  pose proof (printed_padded a Va) as Pa. pose proof (printed_padded b Vb) as Pb.
  rewrite L, E, Pb in Pa.
  pose proof (strptime_of_padded a Va) as Sa. pose proof (strptime_of_padded b Vb) as Sb.
  rewrite <- Pa, Sb in Sa. congruence.
Qed.

(** X15. Printing is injective on naive datetimes, those before the year 1000
    included: two naive datetimes have the same scripting date string exactly
    when they are the same datetime, which is when [==] holds of them. *)
Theorem datetime_to_evsdate_injective (a b : datetime) :
  valid_datetime a = true -> valid_datetime b = true ->
  tzinfo a = None -> tzinfo b = None ->
  (datetime_to_evsdate a = datetime_to_evsdate b -> a = b) /\
  str_eqb (datetime_to_evsdate a) (datetime_to_evsdate b) = datetime_eq a b.
Proof.
  intros Va Vb Za Zb.
  assert (Hinj : datetime_to_evsdate a = datetime_to_evsdate b -> a = b).
  { intros E. pose proof (printed_injective a b Va Vb E) as Hn.
    rewrite (naive_of_naive a Za), (naive_of_naive b Zb) in Hn. exact Hn. }
  split; [exact Hinj|].
  unfold datetime_eq. rewrite Za, Zb.
  destruct (str_eqb (datetime_to_evsdate a) (datetime_to_evsdate b)) eqn:E.
  - apply str_eqb_eq in E. apply Hinj in E. subst b.
    unfold same_fields. rewrite !Z.eqb_refl. reflexivity.
  - destruct (same_fields a b) eqn:S; [|reflexivity].
    assert (Hab : a = b) by (apply same_fields_eq; [exact S | rewrite Za, Zb; reflexivity]).
    subst b. assert (Hr : str_eqb (datetime_to_evsdate a) (datetime_to_evsdate a) = true)
      by (apply str_eqb_eq; reflexivity).
    rewrite Hr in E. discriminate E.
Qed.

Lemma datetime_to_evsdate_injective_witness :
  str_eqb (datetime_to_evsdate sample_naive) (datetime_to_evsdate sample_999) = false /\
  str_eqb (datetime_to_evsdate sample_999) (datetime_to_evsdate sample_999) = true.
Proof.
  split.
  - destruct (datetime_to_evsdate_injective sample_naive sample_999) as [_ H];
      [reflexivity | reflexivity | reflexivity | reflexivity |].
    rewrite H. reflexivity.
  - destruct (datetime_to_evsdate_injective sample_999 sample_999) as [_ H];
      [reflexivity | reflexivity | reflexivity | reflexivity |].
    rewrite H. reflexivity.
Defined.

(** *** Before the year 1000 *)

(** X23. A valid datetime before the year 1000 is printed with a year of
    fewer than four digits, and [evsdate_to_datetime] does not read that
    string back: both formats fail to match, and the [ValueError] of the
    second one is raised. *)
Theorem evsdate_before_1000_rejected (t : datetime) :
  valid_datetime t = true ->
  year t < 1000 ->
  (List.length (datetime_to_evsdate t) < 26)%nat /\
  evsdate_to_datetime (datetime_to_evsdate t)
  = inr (ValueError_strptime
           (does_not_match (datetime_to_evsdate t) "%Y-%m-%dT%H:%M:%S")).
Proof.
  intros Hv HY. destruct (valid_datetime_bounds t Hv) as [HY' _].
  assert (Hy : 1 <= year t < 1000) by lia. split.
  - rewrite datetime_to_evsdate_digits, length_app, date_tail_length.
    pose proof (year_text_short (year t) Hy). lia.
  - unfold evsdate_to_datetime.
    rewrite (strptime_before_1000 t FORMAT_FRACTION Hy).
    rewrite (strptime_before_1000 t FORMAT_SECONDS Hy). reflexivity.
Qed.

Lemma evsdate_before_1000_rejected_witness :
  (List.length (datetime_to_evsdate sample_999) < 26)%nat /\
  evsdate_to_datetime (datetime_to_evsdate sample_999)
  = inr (ValueError_strptime
           (does_not_match (datetime_to_evsdate sample_999) "%Y-%m-%dT%H:%M:%S")).
Proof.
  apply (evsdate_before_1000_rejected sample_999); [reflexivity | cbn; lia].
Defined.

(** *** The format without the fraction *)

Lemma has_char_app (c : N) (pre r : str) :
  has_char c (pre ++ r) = false -> has_char c r = false.
Proof.
  induction pre as [|a pre IH]; cbn [app has_char]; [trivial|].
  intros H. apply orb_false_iff in H. apply IH, H.
Qed.

Lemma is_suffix_refl (s : str) : is_suffix s s.
Proof. exists []. reflexivity. Qed.

Lemma is_suffix_cons (a : N) (r s : str) : is_suffix r s -> is_suffix r (a :: s).
Proof. intros [pre ->]. exists (a :: pre). reflexivity. Qed.

Lemma match_classes_rest (cls : list char_class) :
  forall s acc v r, match_classes cls s acc = Some (v, r) -> is_suffix r s.
Proof.
  induction cls as [|cl cls IH]; intros s acc v r; cbn [match_classes].
  - intros H. injection H as _ <-. apply is_suffix_refl.
  - destruct s as [|c s']; [discriminate|].
    destruct (class_value cl c) as [[k|]|]; [| |discriminate];
      intros H; apply is_suffix_cons; exact (IH _ _ _ _ H).
Qed.

Lemma fraction_digits_rest (n : nat) :
  forall scale acc s r v, In (v, r) (fraction_digits n scale acc s) -> is_suffix r s.
Proof.
  induction n as [|n IH]; intros scale acc s r v; cbn [fraction_digits]; [contradiction|].
  destruct s as [|c rest]; [contradiction|].
  destruct (class_value (digit_range 0 9) c) as [[k|]|]; [|contradiction|contradiction].
  intros H. apply in_app_or in H. destruct H as [H|[H|[]]].
  - apply is_suffix_cons. exact (IH _ _ _ _ _ H).
  - injection H as _ <-. apply is_suffix_cons, is_suffix_refl.
Qed.

(** Every match of a group leaves a suffix of what it was given. *)
Lemma directive_matches_rest (d : directive) (s r : str) (v : Z) :
  In (v, r) (directive_matches d s) -> is_suffix r s.
Proof.
  assert (Halt : forall alts,
            In (v, r) (flat_map (fun alternative =>
                                   match match_classes alternative s 0 with
                                   | Some x => [x]
                                   | None => []
                                   end) alts) -> is_suffix r s).
  { intros alts H. apply in_flat_map in H. destruct H as [alt [_ H]].
    destruct (match_classes alt s 0) as [[v' r']|] eqn:E; [|contradiction].
    destruct H as [H|[]]. injection H as -> ->. exact (match_classes_rest _ _ _ _ _ E). }
  destruct d; cbn [directive_matches]; try apply Halt.
  apply fraction_digits_rest.
Qed.

Lemma flat_map_nil {A B} (f : A -> list B) (l : list A) :
  (forall x, In x l -> f x = []) -> flat_map f l = [].
Proof.
  induction l as [|x l IH]; intros H; cbn [flat_map]; [reflexivity|].
  rewrite (H x (or_introl eq_refl)), IH; [reflexivity|].
  intros y Hy. apply H. right. exact Hy.
Qed.

(** A format with a literal character cannot match data that lacks it. *)
Lemma regex_match_without_literal (c : ascii) (items : list fmt_item) :
  (forall a, lit_matches c a = true -> a = N_of_ascii c) ->
  In (Lit c) items ->
  forall s p, has_char (N_of_ascii c) s = false -> regex_match items s p = [].
Proof.
  intros Hieq. induction items as [|i items IH]; intros Hin s p Hs; [contradiction|].
  destruct i as [c'|d]; cbn [regex_match].
  - destruct s as [|a s']; [reflexivity|].
    cbn [has_char] in Hs. apply orb_false_iff in Hs. destruct Hs as [Ha Hs'].
    destruct (lit_matches c' a) eqn:E; [|reflexivity].
    destruct Hin as [Hhead|Hin].
    + injection Hhead as ->. apply Hieq in E. subst a.
      rewrite N.eqb_refl in Ha. discriminate.
    + apply IH; assumption.
  - destruct Hin as [Hhead|Hin]; [discriminate|].
    apply flat_map_nil. intros [v r] Hv. cbn [fst snd].
    apply IH; [exact Hin|].
    destruct (directive_matches_rest d s r v Hv) as [pre ->].
    exact (has_char_app (N_of_ascii c) pre r Hs).
Qed.

Lemma dot_only_matches_dot (a : N) : lit_matches "." a = true -> a = N_of_ascii ".".
Proof.
  unfold lit_matches. cbv zeta.
  change (N_of_ascii ".") with 46%N. change (swapcase 46) with 46%N.
  change (case_extras 46) with (@nil N). cbn [existsb].
  rewrite orb_false_r, orb_diag. apply N.eqb_eq.
Qed.

Lemma digit_char_not_dot (k : Z) : 0 <= k <= 9 -> N.eqb (digit_char k) 46 = false.
Proof.
  intros H. unfold digit_char. apply N.eqb_neq. intros E.
  apply (f_equal Z.of_N) in E. rewrite Z2N.id in E by lia. lia.
Qed.

Lemma pad2_no_dot (n : Z) (rest : str) :
  has_char 46 rest = false -> has_char 46 (pad2 n rest) = false.
Proof.
  intros H. unfold pad2. cbn [has_char].
  rewrite !digit_char_not_dot by (Z.to_euclidean_division_equations; lia).
  rewrite H. reflexivity.
Qed.

Lemma printed_seconds_no_dot (t : datetime) :
  has_char 46 (pad4 (year t) (seconds_tail t [])) = false.
Proof.
  unfold pad4, seconds_tail. cbn [app str_of list_ascii_of_string map].
  repeat first [ apply pad2_no_dot | reflexivity
               | (cbn [has_char];
                  change (N.eqb (N_of_ascii "-") 46) with false;
                  change (N.eqb (N_of_ascii "T") 46) with false;
                  change (N.eqb (N_of_ascii ":") 46) with false; cbn [orb]) ].
Qed.

Lemma seconds_format_first_match (t : datetime) :
  valid_datetime t = true ->
  first_match SECONDS_ITEMS (pad4 (year t) (seconds_tail t [])) parsed_default
  = Some ({| p_Y := year t; p_m := month t; p_d := day t; p_H := hour t;
             p_M := minute t; p_S := second t; p_f := 0 |}, []).
Proof.
  intros Hv.
  destruct (valid_datetime_bounds t Hv) as [HY _].
  unfold SECONDS_ITEMS.
  eapply first_match_dir; [apply year_group; lia|].
  apply (seconds_tail_first_match t [] [] _ _ Hv). reflexivity.
Qed.

Lemma valid_whole_second (t : datetime) :
  valid_datetime t = true -> valid_datetime (whole_second t) = true.
Proof.
  unfold valid_datetime, valid_fields, whole_second. cbn [year month day hour minute second microsecond].
  intros H. apply andb_true_iff in H. destruct H as [H _]. rewrite H. reflexivity.
Qed.

(** X16. From the year 1000 on, a scripting date printed without fractional
    seconds is read through the fallback format: the format with the
    fraction does not match it, the second format does, and the value read
    has the fields printed and microsecond 0. *)
Theorem evsdate_without_fraction (t : datetime) :
  valid_datetime t = true ->
  1000 <= year t ->
  strptime (strftime t FORMAT_SECONDS) FORMAT_FRACTION
  = inr (ValueError_strptime
           (does_not_match (strftime t FORMAT_SECONDS) "%Y-%m-%dT%H:%M:%S.%f")) /\
  evsdate_to_datetime (strftime t FORMAT_SECONDS) = inl (whole_second t).
Proof.
  intros Hv HY. destruct (valid_datetime_bounds t Hv) as [HY' _].
  assert (Hp : strftime t FORMAT_SECONDS = pad4 (year t) (seconds_tail t []))
    by (rewrite strftime_seconds_digits; apply year_text_four; lia).
  assert (H1 : strptime (strftime t FORMAT_SECONDS) FORMAT_FRACTION
               = inr (ValueError_strptime
                        (does_not_match (strftime t FORMAT_SECONDS) "%Y-%m-%dT%H:%M:%S.%f"))).
  { unfold strptime. rewrite format_items_fraction.
    rewrite (regex_match_without_literal "." FRACTION_ITEMS dot_only_matches_dot);
      [reflexivity | unfold FRACTION_ITEMS; cbn; tauto |].
    rewrite Hp. apply printed_seconds_no_dot. }
  split; [exact H1|].
  unfold evsdate_to_datetime. rewrite H1.
  unfold strptime. rewrite format_items_seconds, Hp.
  pose proof (seconds_format_first_match t Hv) as Hm. unfold first_match in Hm.
  destruct (regex_match SECONDS_ITEMS (pad4 (year t) (seconds_tail t [])) parsed_default)
    as [|[p rest] l]; [discriminate|].
  cbn in Hm. injection Hm as -> ->. cbn [p_Y p_m p_d p_H p_M p_S p_f].
  destruct (valid_datetime_checks t Hv) as [C1 [C2 C3]]. rewrite C1, C2, C3. reflexivity.
Qed.

Lemma evsdate_without_fraction_witness :
  strptime (strftime sample_naive FORMAT_SECONDS) FORMAT_FRACTION
  = inr (ValueError_strptime
           (does_not_match (str_of "2020-01-02T03:04:05") "%Y-%m-%dT%H:%M:%S.%f")) /\
  evsdate_to_datetime (strftime sample_naive FORMAT_SECONDS) = inl (whole_second sample_naive).
Proof.
  apply (evsdate_without_fraction sample_naive); [reflexivity | cbn; lia].
Defined.

(** ** Excel date numbers *)

Lemma toordinal_excel_epoch : toordinal excel_epoch = 693594.
Proof. reflexivity. Qed.

Lemma utc_instant_naive (t : datetime) :
  utc_instant t 0 = (toordinal t * 86400 + second_of_day t) * 1000000 + microsecond t.
Proof. unfold utc_instant, second_of_day. lia. Qed.

Lemma second_of_day_bounds (t : datetime) :
  valid_datetime t = true -> 0 <= second_of_day t < 86400.
Proof.
  intros Hv. destruct (valid_datetime_bounds t Hv) as [_ [_ [_ [HH [HM [HS _]]]]]].
  unfold second_of_day. lia.
Qed.

(** The difference with the epoch, in days and seconds. *)
Lemma sub_excel_epoch (t : datetime) :
  valid_datetime t = true ->
  tzinfo t = None ->
  exists delta,
    datetime_sub t excel_epoch = inl delta /\
    days delta = toordinal t - 693594 /\
    seconds delta = second_of_day t /\
    microseconds delta = microsecond t.
Proof.
  intros Hv Hz. unfold datetime_sub. rewrite Hz. cbn [tzinfo excel_epoch].
  eexists. split; [reflexivity|].
  rewrite (utc_instant_naive t).
  change (utc_instant excel_epoch 0) with 59926521600000000.
  pose proof (second_of_day_bounds t Hv) as Hs.
  destruct (valid_datetime_bounds t Hv) as [_ [_ [_ [_ [_ [_ Hf]]]]]].
  unfold timedelta_of_microseconds. cbn [days seconds microseconds].
  generalize dependent (second_of_day t). generalize dependent (toordinal t).
  intros D sod Hsod. repeat split; Z.to_euclidean_division_equations; lia.
Qed.

(** X17. On a naive datetime, [datetime_to_excel] is the number of days since
    1899-12-30 plus the seconds since midnight divided by 86400, in double
    precision; the microseconds are dropped.  On an aware datetime it raises
    [TypeError]. *)
Theorem datetime_to_excel_value (t : datetime) :
  (valid_datetime t = true ->
   tzinfo t = None ->
   datetime_to_excel t
   = inl (PrimFloat.add (float_of_Z (toordinal t - 693594))
            (PrimFloat.div (float_of_Z (second_of_day t)) (float_of_Z 86400))) /\
   datetime_to_excel t = datetime_to_excel (whole_second t)) /\
  (forall offset, tzinfo t = Some offset -> datetime_to_excel t = inr TypeError).
Proof.
  split.
  - intros Hv Hz.
    assert (Hvalue : forall u, valid_datetime u = true -> tzinfo u = None ->
              datetime_to_excel u
              = inl (PrimFloat.add (float_of_Z (toordinal u - 693594))
                       (PrimFloat.div (float_of_Z (second_of_day u)) (float_of_Z 86400)))).
    { intros u Hu Hzu. destruct (sub_excel_epoch u Hu Hzu) as [delta [E [Hd [Hs _]]]].
      unfold datetime_to_excel. cbv zeta. rewrite E, Hd, Hs. reflexivity. }
    split; [exact (Hvalue t Hv Hz)|].
    rewrite (Hvalue t Hv Hz), (Hvalue (whole_second t) (valid_whole_second t Hv) eq_refl).
    reflexivity.
  - intros offset Hz. unfold datetime_to_excel, datetime_sub. cbv zeta.
    rewrite Hz. reflexivity.
Qed.

Lemma datetime_to_excel_value_witness :
  datetime_to_excel noon_1900 = inl 2.5%float /\
  datetime_to_excel sample_utc = inr TypeError.
Proof.
  destruct (datetime_to_excel_value noon_1900) as [Hnaive _].
  destruct (Hnaive eq_refl eq_refl) as [Hvalue _].
  destruct (datetime_to_excel_value sample_utc) as [_ Haware].
  split; [rewrite Hvalue; vm_compute; reflexivity | exact (Haware 0 eq_refl)].
Defined.

(** X18. From the year 1000 on, [evsdate_to_excel] of a printed scripting
    date is [datetime_to_excel] of the datetime it was printed from, read as
    a naive value: on naive datetimes the two helpers agree through the
    string, and an aware datetime, which [datetime_to_excel] rejects, goes
    through as its naive fields.  Before the year 1000 [evsdate_to_excel]
    raises the [ValueError] of the string that does not read back. *)
Theorem evsdate_to_excel_of_printed (t : datetime) :
  valid_datetime t = true ->
  (1000 <= year t ->
     evsdate_to_excel (datetime_to_evsdate t) = datetime_to_excel (naive t) /\
     (tzinfo t = None -> evsdate_to_excel (datetime_to_evsdate t) = datetime_to_excel t)) /\
  (year t < 1000 ->
     evsdate_to_excel (datetime_to_evsdate t)
     = inr (ValueError_strptime
              (does_not_match (datetime_to_evsdate t) "%Y-%m-%dT%H:%M:%S"))).
Proof.
  intros Hv. destruct (valid_datetime_bounds t Hv) as [HY' _]. split.
  - intros HY. unfold evsdate_to_excel. rewrite (evsdate_to_datetime_of_printed t Hv HY).
    split; [reflexivity|]. intros Hz. rewrite (naive_of_naive t Hz). reflexivity.
  - intros HY. assert (Hy : 1 <= year t < 1000) by lia.
    unfold evsdate_to_excel, evsdate_to_datetime.
    rewrite (strptime_before_1000 t FORMAT_FRACTION Hy).
    rewrite (strptime_before_1000 t FORMAT_SECONDS Hy). reflexivity.
Qed.

Lemma evsdate_to_excel_of_printed_witness :
  evsdate_to_excel (datetime_to_evsdate noon_1900) = inl 2.5%float /\
  evsdate_to_excel (datetime_to_evsdate sample_999)
  = inr (ValueError_strptime
           (does_not_match (str_of "999-01-02T03:04:05.000006") "%Y-%m-%dT%H:%M:%S")).
Proof.
  destruct (evsdate_to_excel_of_printed noon_1900 eq_refl) as [H _].
  destruct (evsdate_to_excel_of_printed sample_999 eq_refl) as [_ H9].
  split.
  - destruct H as [_ H]; [cbn; lia|]. rewrite (H eq_refl). vm_compute. reflexivity.
  - rewrite H9 by (cbn; lia). reflexivity.
Defined.

(** ** The installation lookup *)

Example find_newest_release :
  _find_evs_version_path Z table_Version Z.gtb (fun v => v) plain_join
    (inl sample_registry) None false
  = inl "C:\EVS2024\bin\system".
Proof. vm_compute. reflexivity. Qed.

Example find_development :
  _find_evs_version_path Z table_Version Z.gtb (fun v => v) plain_join
    (inl sample_registry) None true
  = inl "D:\dev\evs".
Proof. vm_compute. reflexivity. Qed.

Example find_suggested :
  _find_evs_version_path Z table_Version Z.gtb (fun v => v) plain_join
    (inl sample_registry) (Some "2023.5.1") false
  = inr (PyException "NameError" (PStr "Version")).
Proof. vm_compute. reflexivity. Qed.

Lemma strip_prefix_length (p s rest : string) :
  strip_prefix p s = Some rest ->
  String.length s = (String.length p + String.length rest)%nat.
Proof.
  revert s. induction p as [|a p IH]; intros s; cbn [strip_prefix String.length].
  - intros H. injection H as <-. reflexivity.
  - destruct s as [|b s]; [discriminate|]. destruct (Ascii.eqb a b); [|discriminate].
    intros H. cbn [String.length]. rewrite (IH s H). reflexivity.
Qed.

(** The fuel of [py_replace] is enough: more of it changes nothing. *)
Lemma replace_from_enough (old new : string) :
  old <> ""%string ->
  forall fuel fuel' s,
    (String.length s < fuel)%nat -> (String.length s < fuel')%nat ->
    replace_from fuel old new s = replace_from fuel' old new s.
Proof.
  intros Hold. induction fuel as [|fuel IH]; intros fuel' s Hf Hf'; [lia|].
  destruct fuel' as [|fuel']; [lia|]. cbn [replace_from].
  destruct (strip_prefix old s) as [rest|] eqn:E.
  - pose proof (strip_prefix_length old s rest E) as Hl.
    assert (0 < String.length old)%nat by (destruct old; [contradiction | cbn; lia]).
    rewrite (IH fuel' rest); [reflexivity | lia | lia].
  - destruct s as [|a s]; [reflexivity|]. cbn [String.length] in Hf, Hf'.
    rewrite (IH fuel' s); [reflexivity | lia | lia].
Qed.

Section InstallationProperties.

Variable V : Type.
Variable Version : string -> V + exn.
Variable version_gt : V -> V -> bool.
Variable major : V -> Z.
Variable path_join : string -> string -> string.
Variable path_exists : string -> bool.

Local Notation "'loop'" := (version_loop V Version version_gt) (only parsing).
Local Notation "'find_version_path'" :=
  (_find_evs_version_path V Version version_gt major path_join) (only parsing).
Local Notation "'find_executable_path'" :=
  (_find_evs_executable_path V Version version_gt major path_join path_exists) (only parsing).

Lemma version_loop_cons (reg : Registry) (suggested : option string) (prefer : bool)
    (k : Subkey) (rest : list Subkey) (mv : V) (mn : string) :
  loop reg suggested prefer (k :: rest) mv mn =
  if is_evs_key k then
    if String.eqb (key_version k) "Development" then
      if prefer then inl (query_path reg (skey_name k))
      else loop reg suggested prefer rest mv mn
    else
      match Version (key_version k) with
      | inr e => inl (inr e)
      | inl v =>
          if is_suggested suggested (key_version k)
          then inl (inr (PyException "NameError" (PStr "Version")))
          else if version_gt v mv then loop reg suggested prefer rest v (skey_name k)
          else loop reg suggested prefer rest mv mn
      end
  else loop reg suggested prefer rest mv mn.
Proof. reflexivity. Qed.

(** Going past a key leaves the loop on the rest, with some best so far. *)
Lemma version_loop_passed (reg : Registry) (suggested : option string) (prefer : bool)
    (k : Subkey) (rest : list Subkey) (mv : V) (mn : string) :
  passed_over Version suggested prefer k ->
  exists mv' mn',
    loop reg suggested prefer (k :: rest) mv mn = loop reg suggested prefer rest mv' mn' /\
    ((mv' = mv /\ mn' = mn) \/
     (release_key Version k mv' /\ mn' = skey_name k /\ version_gt mv' mv = true)) /\
    (forall v, release_key Version k v -> mv' = mv -> version_gt v mv = false \/ v = mv).
Proof.
  intros Hp. rewrite version_loop_cons.
  destruct Hp as [Hno | [[Hevs [Hdev Hpref]] | [v [[Hevs [Hdev Hv]] Hsug]]]].
  - rewrite Hno. exists mv, mn. split; [reflexivity|]. split; [left; split; reflexivity|].
    intros v [Hevs _]. rewrite Hno in Hevs. discriminate.
  - rewrite Hevs, Hdev, Hpref. exists mv, mn.
    split; [reflexivity|]. split; [left; split; reflexivity|].
    intros v [_ [Hrel _]]. rewrite Hdev in Hrel. discriminate.
  - rewrite Hevs, Hdev, Hv, Hsug. destruct (version_gt v mv) eqn:G.
    + exists v, (skey_name k). split; [reflexivity|]. split.
      * right. split; [|split]; [repeat split; assumption | reflexivity | exact G].
      * intros v' [_ [_ Hv']] E. rewrite Hv in Hv'. injection Hv' as <-. right. exact E.
    + exists mv, mn. split; [reflexivity|]. split; [left; split; reflexivity|].
      intros v' [_ [_ Hv']] _. rewrite Hv in Hv'. injection Hv' as <-. left. exact G.
Qed.

Lemma version_loop_prefix (reg : Registry) (suggested : option string) (prefer : bool)
    (before rest : list Subkey) :
  Forall (passed_over Version suggested prefer) before ->
  forall mv mn,
  exists mv' mn',
    loop reg suggested prefer (before ++ rest) mv mn = loop reg suggested prefer rest mv' mn'.
Proof.
  induction 1 as [|k before Hk _ IH]; intros mv mn.
  - exists mv, mn. reflexivity.
  - cbn [app]. destruct (version_loop_passed reg suggested prefer k (before ++ rest) mv mn Hk)
      as [mv1 [mn1 [E _]]].
    destruct (IH mv1 mn1) as [mv2 [mn2 E2]]. exists mv2, mn2. rewrite E. exact E2.
Qed.

(** X19. The [suggested] version can never be selected: when the loop reaches
    the release key whose version text equals [suggested], the lookup raises
    [NameError] (the bare name [Version] is not bound), whatever else is
    installed, and so does [_find_evs_executable_path]. *)
Theorem suggested_version_raises_NameError (reg : Registry) (prefer : bool)
    (before after : list Subkey) (k : Subkey) (v v0 : V) :
  ct_subkeys reg = before ++ k :: after ->
  Forall (passed_over Version (Some (key_version k)) prefer) before ->
  release_key Version k v ->
  Version "1.0.0.0" = inl v0 ->
  find_version_path (inl reg) (Some (key_version k)) prefer
  = inr (PyException "NameError" (PStr "Version")) /\
  find_executable_path (inl reg) (Some (key_version k)) prefer
  = inr (PyException "NameError" (PStr "Version")).
Proof.
  intros Hkeys Hbefore [Hevs [Hdev Hv]] Hv0.
  assert (E : find_version_path (inl reg) (Some (key_version k)) prefer
              = inr (PyException "NameError" (PStr "Version"))).
  { unfold _find_evs_version_path. rewrite Hv0, Hkeys.
    destruct (version_loop_prefix reg (Some (key_version k)) prefer before (k :: after)
                Hbefore v0 "") as [mv [mn ->]].
    rewrite version_loop_cons, Hevs, Hdev, Hv. cbn [is_suggested].
    rewrite String.eqb_refl. reflexivity. }
  split; [exact E|]. unfold _find_evs_executable_path. rewrite E. reflexivity.
Qed.

(** X20. With [prefer_development], the first development key the loop
    reaches ends the lookup at once: the result is what reading its [Path]
    gives, as it is (no [bin\system] is appended), whatever releases were
    enumerated before it or come after it. *)
Theorem development_build_preferred (reg : Registry) (suggested : option string)
    (before after : list Subkey) (k : Subkey) (v0 : V) :
  ct_subkeys reg = before ++ k :: after ->
  Forall (passed_over Version suggested true) before ->
  is_evs_key k = true ->
  key_version k = "Development" ->
  Version "1.0.0.0" = inl v0 ->
  find_version_path (inl reg) suggested true = query_path reg (skey_name k).
Proof.
  intros Hkeys Hbefore Hevs Hdev Hv0.
  unfold _find_evs_version_path. rewrite Hv0, Hkeys.
  destruct (version_loop_prefix reg suggested true before (k :: after) Hbefore v0 "")
    as [mv [mn ->]].
  rewrite version_loop_cons, Hevs, Hdev. reflexivity.
Qed.

(** The loop over keys it goes past, from start to end. *)
Lemma version_loop_end (reg : Registry) (suggested : option string) (prefer : bool)
    (keys : list Subkey) :
  Forall (passed_over Version suggested prefer) keys ->
  forall mv mn,
  exists mv' mn',
    loop reg suggested prefer keys mv mn = inr (mv', mn') /\
    ((mv' = mv /\ mn' = mn) \/
     (exists k, In k keys /\ release_key Version k mv' /\ mn' = skey_name k)).
Proof.
  induction 1 as [|k keys Hk _ IH]; intros mv mn.
  - exists mv, mn. split; [reflexivity | left; split; reflexivity].
  - destruct (version_loop_passed reg suggested prefer k keys mv mn Hk)
      as [mv1 [mn1 [E [Hfrom _]]]].
    destruct (IH mv1 mn1) as [mv2 [mn2 [E2 Hfrom2]]].
    exists mv2, mn2. split; [rewrite E; exact E2|].
    destruct Hfrom2 as [[-> ->] | [k' [Hin [Hrel Hname]]]].
    + destruct Hfrom as [[-> ->] | [Hrel [-> _]]].
      * left. split; reflexivity.
      * right. exists k. split; [left; reflexivity | split; [exact Hrel | reflexivity]].
    + right. exists k'. split; [right; exact Hin | split; assumption].
Qed.

(** X21. "Installation Not Found" is raised exactly for want of a release of
    major version above 1: when the loop goes past every key and no release
    key parses to a version whose major exceeds 1, the lookup raises that
    [ValueError] (a release 1.x is never accepted).  When the vendor's key
    cannot be opened, it is that exception that is raised instead. *)
Theorem installation_not_found (suggested : option string) (prefer : bool) :
  (forall reg v0,
     Forall (passed_over Version suggested prefer) (ct_subkeys reg) ->
     Version "1.0.0.0" = inl v0 ->
     major v0 <= 1 ->
     (forall k v, In k (ct_subkeys reg) -> release_key Version k v -> major v <= 1) ->
     find_version_path (inl reg) suggested prefer = inr (ValueError (PStr MSG_NOT_INSTALLED)) /\
     find_executable_path (inl reg) suggested prefer
     = inr (ValueError (PStr MSG_NOT_INSTALLED))) /\
  (forall e,
     find_version_path (inr e) suggested prefer = inr e /\
     find_executable_path (inr e) suggested prefer = inr e).
Proof.
  split.
  - intros reg v0 Hpassed Hv0 Hmajor Hreleases.
    assert (E : find_version_path (inl reg) suggested prefer
                = inr (ValueError (PStr MSG_NOT_INSTALLED))).
    { unfold _find_evs_version_path. rewrite Hv0.
      destruct (version_loop_end reg suggested prefer (ct_subkeys reg) Hpassed v0 "")
        as [mv [mn [-> Hfrom]]].
      assert (Hm : major mv <= 1).
      { destruct Hfrom as [[-> _] | [k [Hin [Hrel _]]]];
          [exact Hmajor | exact (Hreleases k mv Hin Hrel)]. }
      destruct (Z.gtb_spec (major mv) 1) as [Hgt|_]; [lia | reflexivity]. }
    split; [exact E|]. unfold _find_evs_executable_path. rewrite E. reflexivity.
  - intros e. split; reflexivity.
Qed.

Section Ordered.

(** The order of versions is a strict total order. *)
Hypothesis gt_irrefl : forall a, version_gt a a = false.
Hypothesis gt_trans :
  forall a b c, version_gt a b = true -> version_gt b c = true -> version_gt a c = true.
Hypothesis gt_cotrans :
  forall a b c, version_gt a c = true -> version_gt a b = true \/ version_gt b c = true.

Lemma version_loop_newest (reg : Registry) (suggested : option string) (prefer : bool)
    (keys : list Subkey) :
  Forall (passed_over Version suggested prefer) keys ->
  forall mv mn mv' mn',
    loop reg suggested prefer keys mv mn = inr (mv', mn') ->
    version_gt mv mv' = false /\
    (forall k v, In k keys -> release_key Version k v -> version_gt v mv' = false).
Proof.
  induction 1 as [|k keys Hk _ IH]; intros mv mn mv' mn' E.
  - cbn in E. injection E as <- <-. split; [apply gt_irrefl | intros k v []].
  - destruct (version_loop_passed reg suggested prefer k keys mv mn Hk)
      as [mv1 [mn1 [E1 [Hfrom Hkept]]]].
    rewrite E1 in E. destruct (IH mv1 mn1 mv' mn' E) as [Hge Hall].
    assert (Hstart : version_gt mv mv' = false).
    { destruct Hfrom as [[-> _] | [_ [_ G]]]; [exact Hge|].
      destruct (version_gt mv mv') eqn:G2; [|reflexivity].
      pose proof (gt_trans _ _ _ G G2) as G3. rewrite Hge in G3. discriminate. }
    split; [exact Hstart|].
    intros k' v [<- | Hin] Hrel; [|exact (Hall k' v Hin Hrel)].
    destruct (version_gt v mv') eqn:G; [|reflexivity]. exfalso.
    destruct Hfrom as [[-> ->] | [[_ [_ Hv1]] _]].
    + destruct (Hkept v Hrel eq_refl) as [Hle | ->].
      * destruct (gt_cotrans v mv mv' G) as [G1 | G1]; congruence.
      * congruence.
    + destruct Hrel as [_ [_ Hv]]. rewrite Hv in Hv1. injection Hv1 as ->. congruence.
Qed.

(** X22. When the loop goes past every key (no preferred development build,
    no suggested version, every version text parses), the lookup selects a
    newest release: no release key has a version above the selected one, the
    selected one is [1.0.0.0] itself or the version of an enumerated release
    key, and the result is [bin\system] joined to the [Path] of that key when
    its major exceeds 1, and "Installation Not Found" otherwise. *)
Theorem newest_release_selected (reg : Registry) (suggested : option string) (prefer : bool)
    (v0 : V) :
  Forall (passed_over Version suggested prefer) (ct_subkeys reg) ->
  Version "1.0.0.0" = inl v0 ->
  exists selected name,
    version_gt v0 selected = false /\
    (forall k v, In k (ct_subkeys reg) -> release_key Version k v ->
       version_gt v selected = false) /\
    ((selected = v0 /\ name = ""%string) \/
     (exists k, In k (ct_subkeys reg) /\ release_key Version k selected /\
                name = skey_name k)) /\
    find_version_path (inl reg) suggested prefer
    = (if major selected >? 1 then
         match query_path reg name with
         | inl path => inl (path_join path "bin\system")
         | inr e => inr e
         end
       else inr (ValueError (PStr MSG_NOT_INSTALLED))).
Proof.
  intros Hpassed Hv0.
  destruct (version_loop_end reg suggested prefer (ct_subkeys reg) Hpassed v0 "")
    as [mv [mn [E Hfrom]]].
  destruct (version_loop_newest reg suggested prefer (ct_subkeys reg) Hpassed v0 "" mv mn E)
    as [Hge Hall].
  exists mv, mn. split; [exact Hge|]. split; [exact Hall|]. split; [exact Hfrom|].
  unfold _find_evs_version_path. rewrite Hv0, E. reflexivity.
Qed.

End Ordered.

End InstallationProperties.

Lemma Z_gtb_irrefl (a : Z) : (a >? a) = false.
Proof. destruct (Z.gtb_spec a a); [lia | reflexivity]. Qed.

Lemma Z_gtb_trans (a b c : Z) : (a >? b) = true -> (b >? c) = true -> (a >? c) = true.
Proof.
  destruct (Z.gtb_spec a b); [|discriminate]. destruct (Z.gtb_spec b c); [|discriminate].
  destruct (Z.gtb_spec a c); [reflexivity | lia].
Qed.

Lemma Z_gtb_cotrans (a b c : Z) : (a >? c) = true -> (a >? b) = true \/ (b >? c) = true.
Proof.
  destruct (Z.gtb_spec a c); [|discriminate]. intros _.
  destruct (Z.gtb_spec a b); [left; reflexivity|].
  destruct (Z.gtb_spec b c); [right; reflexivity | lia].
Qed.

Lemma passed_common (suggested : option string) (prefer : bool) :
  passed_over table_Version suggested prefer key_common.
Proof. left. reflexivity. Qed.

Lemma passed_2024 (prefer : bool) :
  passed_over table_Version (Some "2023.5.1") prefer key_2024.
Proof. right. right. exists 2024. repeat split; reflexivity. Qed.

Lemma passed_release (k : Subkey) (v : Z) (prefer : bool) :
  release_key table_Version k v -> passed_over table_Version None prefer k.
Proof. intros H. right. right. exists v. split; [exact H | reflexivity]. Qed.

Lemma suggested_version_raises_NameError_witness :
  _find_evs_version_path Z table_Version Z.gtb (fun v => v) plain_join
    (inl sample_registry) (Some "2023.5.1") false
  = inr (PyException "NameError" (PStr "Version")) /\
  _find_evs_executable_path Z table_Version Z.gtb (fun v => v) plain_join (fun _ => true)
    (inl sample_registry) (Some "2023.5.1") false
  = inr (PyException "NameError" (PStr "Version")).
Proof.
  apply (suggested_version_raises_NameError Z table_Version Z.gtb (fun v => v) plain_join
           (fun _ => true) sample_registry false [key_common; key_2024] [key_development]
           key_2023 2023 1).
  - reflexivity.
  - apply Forall_cons; [apply passed_common|].
    apply Forall_cons; [apply passed_2024 | apply Forall_nil].
  - repeat split; reflexivity.
  - reflexivity.
Defined.

Lemma development_build_preferred_witness :
  _find_evs_version_path Z table_Version Z.gtb (fun v => v) plain_join
    (inl sample_registry) None true
  = inl "D:\dev\evs".
Proof.
  rewrite (development_build_preferred Z table_Version Z.gtb (fun v => v) plain_join
             sample_registry None [key_common; key_2024; key_2023] [] key_development 1).
  - reflexivity.
  - reflexivity.
  - apply Forall_cons; [apply passed_common|].
    apply Forall_cons; [apply (passed_release key_2024 2024); repeat split; reflexivity|].
    apply Forall_cons; [apply (passed_release key_2023 2023); repeat split; reflexivity|].
    apply Forall_nil.
  - reflexivity.
  - reflexivity.
  - reflexivity.
Defined.

Lemma installation_not_found_witness :
  _find_evs_version_path Z table_Version Z.gtb (fun v => v) plain_join
    (inl old_registry) None true
  = inr (ValueError (PStr MSG_NOT_INSTALLED)).
Proof.
  destruct (installation_not_found Z table_Version Z.gtb (fun v => v) plain_join
              (fun _ => true) None true) as [H _].
  apply (H old_registry 1).
  - apply Forall_cons; [apply passed_common|].
    apply Forall_cons; [apply (passed_release key_1 1); repeat split; reflexivity|].
    apply Forall_nil.
  - reflexivity.
  - lia.
  - intros k v [<- | [<- | []]] [Hevs [_ Hv]].
    + discriminate.
    + vm_compute in Hv. injection Hv as <-. lia.
Defined.

Lemma newest_release_selected_witness :
  exists selected name,
    (1 >? selected) = false /\
    (forall k v, In k (ct_subkeys sample_registry) -> release_key table_Version k v ->
       (v >? selected) = false) /\
    ((selected = 1 /\ name = ""%string) \/
     (exists k, In k (ct_subkeys sample_registry) /\ release_key table_Version k selected /\
                name = skey_name k)) /\
    _find_evs_version_path Z table_Version Z.gtb (fun v => v) plain_join
      (inl sample_registry) None false
    = (if selected >? 1 then
         match query_path sample_registry name with
         | inl path => inl (plain_join path "bin\system")
         | inr e => inr e
         end
       else inr (ValueError (PStr MSG_NOT_INSTALLED))).
Proof.
  apply (newest_release_selected Z table_Version Z.gtb (fun v => v) plain_join
           Z_gtb_irrefl Z_gtb_trans Z_gtb_cotrans sample_registry None false 1).
  - apply Forall_cons; [apply passed_common|].
    apply Forall_cons; [apply (passed_release key_2024 2024); repeat split; reflexivity|].
    apply Forall_cons; [apply (passed_release key_2023 2023); repeat split; reflexivity|].
    apply Forall_cons; [right; left; repeat split; reflexivity | apply Forall_nil].
  - reflexivity.
Defined.
